(** * convert-rtconfig.py: the rtconfig migration pipeline

    A shallow embedding of [src/hotfix/convert-rtconfig.py]: the analyzer
    ([RTConfigAnalyzer]), the generator ([RTConfigGenerator]) and the file
    operations of [main].

    Conventions of the embedding.
    - A Python [str] is a [string]; one [ascii] stands for one character.
      The character classes of [re] and of [str.strip] are given on the
      ASCII range; a character above 127 is in none of them and has no
      other case.
    - [re] patterns are terms of a small pattern language ([Re.re]) run by a
      backtracking matcher with the priorities of Python's engine (leftmost
      alternative first, greedy repetitions longest first, lazy ones
      shortest first).  Every repetition in the source is over a single
      character set, and so is every repetition of [Re.re].
    - Python exceptions are the [Raise] results of [pyresult].
    - Library functions whose result the program only passes on
      ([ast.parse], [ast.unparse], [repr] of containers, [Path.name],
      [datetime.now], [Path.exists]) are Section variables. *)

From Stdlib Require Import Bool Arith Lia List ZArith.
From Stdlib Require Import Ascii String.
Set Warnings "-register-all".

Import ListNotations.
Open Scope string_scope.
Open Scope list_scope.

(* ------------------------------------------------------------------ *)
(** ** Python strings *)

Module PyStr.

Definition nl : ascii := ascii_of_nat 10.
Definition tab : ascii := ascii_of_nat 9.
Definition dquote : ascii := ascii_of_nat 34.
Definition squote : ascii := ascii_of_nat 39.
Definition backslash : ascii := ascii_of_nat 92.

Definition chr (c : ascii) : string := String c EmptyString.

Definition in_range (lo hi : nat) (c : ascii) : bool :=
  let n := nat_of_ascii c in Nat.leb lo n && Nat.leb n hi.

(** [str.isspace] on the ASCII range: TAB..CR, FS..US and the blank. *)
Definition is_space (c : ascii) : bool :=
  in_range 9 13 c || in_range 28 31 c || in_range 32 32 c.

Definition is_digit (c : ascii) : bool := in_range 48 57 c.

Definition is_upper (c : ascii) : bool := in_range 65 90 c.

Definition is_lower (c : ascii) : bool := in_range 97 122 c.

(** [\w]: letters, digits and the underscore. *)
Definition is_word (c : ascii) : bool :=
  is_upper c || is_lower c || is_digit c || in_range 95 95 c.

Definition lower (c : ascii) : ascii :=
  if is_upper c then ascii_of_nat (nat_of_ascii c + 32) else c.

Definition is_empty (s : string) : bool :=
  match s with EmptyString => true | String _ _ => false end.

(** [s[:n]] and [s[n:]] for [0 <= n]. *)
Fixpoint take (n : nat) (s : string) : string :=
  match n, s with
  | S k, String c s' => String c (take k s')
  | _, _ => EmptyString
  end.

Fixpoint drop (n : nat) (s : string) : string :=
  match n, s with
  | S k, String _ s' => drop k s'
  | _, _ => s
  end.

(** [k in v]. *)
Fixpoint contains (k v : string) : bool :=
  prefix k v ||
  match v with
  | EmptyString => false
  | String _ v' => contains k v'
  end.

(** [s.find(sub)]: the least index where [sub] starts. *)
Fixpoint find (sub s : string) : option nat :=
  if prefix sub s then Some 0
  else match s with
       | EmptyString => None
       | String _ s' => option_map S (find sub s')
       end.

(** One past the last [c] among the first [stop] characters, 0 when
    there is none. *)
Fixpoint after_last (c : ascii) (stop : nat) (s : string) : nat :=
  match stop, s with
  | S k, String x s' =>
      match after_last c k s' with
      | 0 => if Ascii.eqb x c then 1 else 0
      | S j => S (S j)
      end
  | _, _ => 0
  end.

(** Python's reading of a slice bound: a negative bound counts from the
    end, and every bound is clipped to the string. *)
Definition norm_index (i : Z) (s : string) : nat :=
  let n := Z.of_nat (length s) in
  Z.to_nat (if Z.ltb i 0 then Z.max 0 (n + i) else Z.min i n).

(** [s[a:b]]. *)
Definition slice (a b : Z) (s : string) : string :=
  let a' := norm_index a s in
  let b' := norm_index b s in
  take (b' - a') (drop a' s).

(** [s.find(sub)] as Python returns it: -1 when [sub] does not occur. *)
Definition find_index (sub s : string) : Z :=
  match find sub s with
  | Some i => Z.of_nat i
  | None => (-1)%Z
  end.

(** [s.rfind(chr(c), 0, stop) + 1]. *)
Definition rfind_next (c : ascii) (stop : Z) (s : string) : Z :=
  Z.of_nat (after_last c (norm_index stop s) s).

Fixpoint lower_str (s : string) : string :=
  match s with
  | EmptyString => EmptyString
  | String c s' => String (lower c) (lower_str s')
  end.

(** [s.replace(old, new)] for a non-empty [old]: the occurrences are taken
    from the left and do not overlap; [skip] counts the characters of the
    occurrence being replaced that are still to be dropped. *)
Fixpoint replace_from (old new : string) (skip : nat) (s : string) : string :=
  match s with
  | EmptyString => EmptyString
  | String c s' =>
      match skip with
      | S k => replace_from old new k s'
      | 0 =>
          if prefix old s
          then new ++ replace_from old new (length old - 1) s'
          else String c (replace_from old new 0 s')
      end
  end.

(** With an empty [old] Python puts [new] before every character and at
    the end. *)
Fixpoint intersperse (new s : string) : string :=
  match s with
  | EmptyString => new
  | String c s' => new ++ String c (intersperse new s')
  end.

Definition replace (old new s : string) : string :=
  if is_empty old then intersperse new s else replace_from old new 0 s.

Fixpoint lstrip_by (p : ascii -> bool) (s : string) : string :=
  match s with
  | EmptyString => EmptyString
  | String c s' => if p c then lstrip_by p s' else s
  end.

Fixpoint rstrip_by (p : ascii -> bool) (s : string) : string :=
  match s with
  | EmptyString => EmptyString
  | String c s' =>
      match rstrip_by p s' with
      | EmptyString => if p c then EmptyString else chr c
      | r => String c r
      end
  end.

Definition strip_by (p : ascii -> bool) (s : string) : string :=
  lstrip_by p (rstrip_by p s).

(** [s.strip()]. *)
Definition strip (s : string) : string := strip_by is_space s.

Fixpoint mem_char (c : ascii) (chars : string) : bool :=
  match chars with
  | EmptyString => false
  | String x r => Ascii.eqb c x || mem_char c r
  end.

(** [s.strip(chars)]. *)
Definition strip_chars (chars s : string) : string :=
  strip_by (fun c => mem_char c chars) s.

(** [sep.join(l)]. *)
Definition join (sep : string) (l : list string) : string := concat sep l.

(** [sorted] on strings: insertion into an ordered list. *)
Fixpoint insert_sorted (x : string) (l : list string) : list string :=
  match l with
  | [] => [x]
  | y :: r => if String.leb x y then x :: l else y :: insert_sorted x r
  end.

Definition sorted (l : list string) : list string :=
  fold_right insert_sorted [] l.

(** A Python [set] of strings: a list without repetition; [set_add]
    is [set.add]. *)
Definition set_mem (x : string) (s : list string) : bool :=
  existsb (String.eqb x) s.

Definition set_add (x : string) (s : list string) : list string :=
  if set_mem x s then s else s ++ [x].

End PyStr.

(* ------------------------------------------------------------------ *)
(** ** The fragment of [re] the program uses *)

Module Re.
Import PyStr.

(** The flags [re.IGNORECASE], [re.MULTILINE], [re.DOTALL]. *)
Record flags := Flags { ignorecase : bool; multiline : bool; dotall : bool }.

Definition no_flags : flags := Flags false false false.

(** A set of characters: what matches one character. *)
Inductive cset :=
| CAny                      (* .        *)
| CLit (c : ascii)          (* a literal character *)
| CSpace                    (* \s       *)
| CWord                     (* \w       *)
| CDigit                    (* \d       *)
| CIn (l : list cset)       (* [...]    *)
| CNotIn (l : list cset).   (* [^...]   *)

Inductive re :=
| REmpty
| RChar (c : cset)
| RRep (greedy : bool) (least : nat) (c : cset)   (* c*, c+, c{n,} and c*?, c+? *)
| ROpt (c : cset)                                 (* c?  *)
| RSeq (a b : re)
| RAlt (a b : re)
| RGroup (a : re)                                 (* the capturing group 1 *)
| RLook (a : re)                                  (* (?=a) *)
| RDollar                                         (* $   *)
| REnd.                                           (* \Z  *)

(** A literal text, one character after the other. *)
Fixpoint lit (s : string) : re :=
  match s with
  | EmptyString => REmpty
  | String c s' => RSeq (RChar (CLit c)) (lit s')
  end.

Fixpoint seq (l : list re) : re :=
  match l with
  | [] => REmpty
  | [r] => r
  | r :: l' => RSeq r (seq l')
  end.

Fixpoint cset_match (f : flags) (cs : cset) (c : ascii) {struct cs} : bool :=
  match cs with
  | CAny => dotall f || negb (Ascii.eqb c nl)
  | CLit x => if ignorecase f then Ascii.eqb (lower c) (lower x) else Ascii.eqb c x
  | CSpace => is_space c
  | CWord => is_word c
  | CDigit => is_digit c
  | CIn l => existsb (fun x => cset_match f x c) l
  | CNotIn l => negb (existsb (fun x => cset_match f x c) l)
  end.

Section Matcher.
Variable f : flags.

(** A greedy repetition tries the longest run first and gives
    characters back one by one. *)
Fixpoint rep_greedy {A : Type} (cs : cset) (least : nat) (s : string)
         (k : string -> option A) : option A :=
  let stop := match least with 0 => k s | S _ => None end in
  match s with
  | String c s' =>
      if cset_match f cs c
      then match rep_greedy cs (pred least) s' k with
           | Some r => Some r
           | None => stop
           end
      else stop
  | EmptyString => stop
  end.

(** A lazy repetition tries the shortest run first. *)
Fixpoint rep_lazy {A : Type} (cs : cset) (least : nat) (s : string)
         (k : string -> option A) : option A :=
  let more :=
    match s with
    | String c s' =>
        if cset_match f cs c then rep_lazy cs (pred least) s' k else None
    | EmptyString => None
    end in
  match least with
  | 0 => match k s with Some r => Some r | None => more end
  | S _ => more
  end.

(** [$]: at the end, before a final newline, and with [re.MULTILINE]
    before every newline. *)
Definition at_dollar (s : string) : bool :=
  match s with
  | EmptyString => true
  | String c s' => Ascii.eqb c nl && (multiline f || is_empty s')
  end.

(** [run r s g k]: match [r] at the head of [s], then go on with [k] on
    what is left; [g] is the text of group 1 so far.  A lookahead is
    matched on its own and consumes nothing. *)
Fixpoint run {A : Type} (r : re) (s : string) (g : option string)
         (k : string -> option string -> option A) {struct r} : option A :=
  match r with
  | REmpty => k s g
  | RChar cs =>
      match s with
      | String c s' => if cset_match f cs c then k s' g else None
      | EmptyString => None
      end
  | RRep true least cs => rep_greedy cs least s (fun s' => k s' g)
  | RRep false least cs => rep_lazy cs least s (fun s' => k s' g)
  | ROpt cs =>
      match s with
      | String c s' =>
          if cset_match f cs c
          then match k s' g with Some x => Some x | None => k s g end
          else k s g
      | EmptyString => k s g
      end
  | RSeq a b => run a s g (fun s' g' => run b s' g' k)
  | RAlt a b =>
      match run a s g k with
      | Some x => Some x
      | None => run b s g k
      end
  | RGroup a =>
      run a s g (fun s' _ => k s' (Some (take (length s - length s') s)))
  | RLook a =>
      match run a s g (fun _ g' => Some g') with
      | Some g' => k s g'
      | None => None
      end
  | RDollar => if at_dollar s then k s g else None
  | REnd => if is_empty s then k s g else None
  end.

(** A match at the head of [s]: the length of the matched text
    (group 0) and group 1. *)
Definition match_here (r : re) (s : string) : option (nat * option string) :=
  run r s None (fun s' g => Some (length s - length s', g)).

(** [re.search]: the first position with a match; the result is the
    start, the matched text and group 1. *)
Fixpoint search_from (r : re) (pos : nat) (s : string)
  : option (nat * string * option string) :=
  match match_here r s with
  | Some (n, g) => Some (pos, take n s, g)
  | None =>
      match s with
      | EmptyString => None
      | String _ s' => search_from r (S pos) s'
      end
  end.

Definition search (r : re) (s : string) := search_from r 0 s.

Definition group1 (m : nat * string * option string) : string :=
  match snd m with Some g => g | None => EmptyString end.

Definition group0 (m : nat * string * option string) : string := snd (fst m).

(** [re.findall] for a pattern with one group: group 1 of the
    successive matches, each search starting where the previous match
    ended; [skip] counts the characters of the last match still to be
    passed over. *)
Fixpoint findall_from (r : re) (skip : nat) (s : string) : list string :=
  match skip with
  | S k =>
      match s with
      | EmptyString => []
      | String _ s' => findall_from r k s'
      end
  | 0 =>
      match match_here r s with
      | Some (n, g) =>
          match g with Some x => x | None => EmptyString end ::
          match s with
          | EmptyString => []
          | String _ s' => findall_from r (pred n) s'
          end
      | None =>
          match s with
          | EmptyString => []
          | String _ s' => findall_from r 0 s'
          end
      end
  end.

Definition findall (r : re) (s : string) : list string := findall_from r 0 s.

(** [re.sub(r, '', s)]: the matched texts are dropped. *)
Fixpoint remove_from (r : re) (skip : nat) (s : string) : string :=
  match s with
  | EmptyString => EmptyString
  | String c s' =>
      match skip with
      | S k => remove_from r k s'
      | 0 =>
          match match_here r s with
          | Some (S n, _) => remove_from r n s'
          | _ => String c (remove_from r 0 s')
          end
      end
  end.

Definition sub_empty (r : re) (s : string) : string := remove_from r 0 s.
End Matcher.

End Re.

(* ------------------------------------------------------------------ *)
(** ** Python values, exceptions and dictionaries *)

Module Py.
Import PyStr.

Inductive exn :=
  ValueError | TypeError | SyntaxError | AttributeError | OSError | EOFError.

Inductive pyresult (A : Type) :=
| Ok (a : A)
| Raise (e : exn).
Arguments Ok {A} a.
Arguments Raise {A} e.

Definition bind {A B : Type} (m : pyresult A) (k : A -> pyresult B) : pyresult B :=
  match m with
  | Ok a => k a
  | Raise e => Raise e
  end.

(** The values a literal can denote.  The constants of the model are
    [None], the booleans, the integers and the strings. *)
Inductive pyval :=
| VNone
| VBool (b : bool)
| VInt (z : Z)
| VStr (s : string)
| VTuple (l : list pyval)
| VList (l : list pyval)
| VSet (l : list pyval)
| VDict (l : list (pyval * pyval)).

(** [hash(v)] succeeds: lists, sets and dictionaries are unhashable, a
    tuple is hashable when its items are. *)
Fixpoint hashable (v : pyval) : bool :=
  match v with
  | VNone | VBool _ | VInt _ | VStr _ => true
  | VTuple l => forallb hashable l
  | VList _ | VSet _ | VDict _ => false
  end.

(** [a == b] between hashable values ([True == 1], [False == 0]). *)
Fixpoint key_eqb (a b : pyval) {struct a} : bool :=
  let fix all2 (la lb : list pyval) {struct la} : bool :=
    match la, lb with
    | [], [] => true
    | x :: la', y :: lb' => key_eqb x y && all2 la' lb'
    | _, _ => false
    end in
  match a, b with
  | VNone, VNone => true
  | VBool x, VBool y => Bool.eqb x y
  | VInt x, VInt y => Z.eqb x y
  | VBool x, VInt y => Z.eqb (Z.b2z x) y
  | VInt x, VBool y => Z.eqb x (Z.b2z y)
  | VStr x, VStr y => String.eqb x y
  | VTuple la, VTuple lb => all2 la lb
  | _, _ => false
  end.

(** [set.add] and [dict.__setitem__] on the literal values: both hash
    the key first. *)
Definition vset_add (v : pyval) (s : list pyval) : pyresult (list pyval) :=
  if hashable v
  then Ok (if existsb (key_eqb v) s then s else s ++ [v])
  else Raise TypeError.

Fixpoint vdict_put (k v : pyval) (d : list (pyval * pyval)) : list (pyval * pyval) :=
  match d with
  | [] => [(k, v)]
  | (k', v') :: d' => if key_eqb k k' then (k', v) :: d' else (k', v') :: vdict_put k v d'
  end.

Definition vdict_set (k v : pyval) (d : list (pyval * pyval))
  : pyresult (list (pyval * pyval)) :=
  if hashable k then Ok (vdict_put k v d) else Raise TypeError.

(** A [dict] with string keys, in insertion order. *)
Definition dict := list (string * pyval).

Fixpoint dict_lookup (k : string) (d : dict) : option pyval :=
  match d with
  | [] => None
  | (k', v) :: d' => if String.eqb k k' then Some v else dict_lookup k d'
  end.

(** [d.get(k, default)]: the default is returned for a missing key only. *)
Definition dict_get (d : dict) (k : string) (default : pyval) : pyval :=
  match dict_lookup k d with
  | Some v => v
  | None => default
  end.

(** [d[k] = v]. *)
Fixpoint dict_set (k : string) (v : pyval) (d : dict) : dict :=
  match d with
  | [] => [(k, v)]
  | (k', v') :: d' => if String.eqb k k' then (k, v) :: d' else (k', v') :: dict_set k v d'
  end.

(** [bool(v)]. *)
Definition truthy (v : pyval) : bool :=
  match v with
  | VNone => false
  | VBool b => b
  | VInt z => negb (Z.eqb z 0)
  | VStr s => negb (is_empty s)
  | VTuple l | VList l | VSet l => negb (Nat.eqb (List.length l) 0)
  | VDict l => negb (Nat.eqb (List.length l) 0)
  end.

Definition digit_char (n : nat) : ascii := ascii_of_nat (48 + n).

Fixpoint digits_of (fuel n : nat) (acc : string) : string :=
  match fuel with
  | 0 => acc
  | S fuel' =>
      let acc' := String (digit_char (n mod 10)) acc in
      if Nat.ltb n 10 then acc' else digits_of fuel' (n / 10) acc'
  end.

(** [str(z)] for an integer. *)
Definition str_of_Z (z : Z) : string :=
  let n := Z.to_nat (Z.abs z) in
  let d := digits_of (S n) n EmptyString in
  if Z.ltb z 0 then String "-" d else d.

End Py.

(* ------------------------------------------------------------------ *)
(** ** The syntax tree of [ast] and [ast.literal_eval] *)

Module Ast.
Import PyStr Py.

Inductive unaryop := UAdd | USub | Not | Invert.

Inductive binop := Add | Sub | OtherOp.

(** Expression nodes.  [EOther] stands for every node class that
    [literal_eval] does not look into (attributes, subscripts,
    comparisons, starred items, f-strings, ...).  A key of [EDict] is
    [None] for a [**mapping] item. *)
Inductive expr :=
| Constant (value : pyval)
| ETuple (elts : list expr)
| EList (elts : list expr)
| ESet (elts : list expr)
| EDict (keys : list (option expr)) (values : list expr)
| EName (id : string)
| EUnaryOp (op : unaryop) (operand : expr)
| EBinOp (lhs : expr) (op : binop) (rhs : expr)
| ECall (func : expr) (args : list expr) (keywords : nat)
| EOther.

(** The nodes [ast.walk] goes through, as far as assignments are
    concerned: an [Assign] statement, or any other node with its child
    nodes in field order (a module, a compound statement, an exception
    handler, a match case).  Expressions hold no statement. *)
Inductive node :=
| Assign (targets : list expr) (value : expr)
| Node (children : list node).

Definition convert_num (e : expr) : pyresult pyval :=
  match e with
  | Constant (VInt z) => Ok (VInt z)
  | _ => Raise ValueError
  end.

Definition convert_signed_num (e : expr) : pyresult pyval :=
  match e with
  | EUnaryOp UAdd operand => convert_num operand
  | EUnaryOp USub operand =>
      bind (convert_num operand) (fun v =>
        match v with
        | VInt z => Ok (VInt (- z))
        | _ => Raise TypeError
        end)
  | _ => convert_num e
  end.

Definition is_set_call (func : expr) (args : list expr) (keywords : nat) : bool :=
  match func, args, keywords with
  | EName id, [], 0 => String.eqb id "set"
  | _, _, _ => false
  end.

(** The items of a display are converted from left to right and the
    first exception ends the conversion: [sequence] for a tuple or a list;
    [build_set] hashes each item as it is added; [build_dict] converts a
    key, then its value, then hashes the key. *)
Fixpoint sequence (l : list (pyresult pyval)) : pyresult (list pyval) :=
  match l with
  | [] => Ok []
  | x :: l' => bind x (fun v => bind (sequence l') (fun vs => Ok (v :: vs)))
  end.

Fixpoint build_set (l : list (pyresult pyval)) (acc : list pyval)
  : pyresult (list pyval) :=
  match l with
  | [] => Ok acc
  | x :: l' => bind x (fun v => bind (vset_add v acc) (build_set l'))
  end.

Fixpoint build_dict (ks : list (option (pyresult pyval))) (vs : list (pyresult pyval))
         (acc : list (pyval * pyval)) : pyresult (list (pyval * pyval)) :=
  match ks, vs with
  | Some k :: ks', v :: vs' =>
      bind k (fun kv =>
      bind v (fun vv =>
      bind (vdict_set kv vv acc) (build_dict ks' vs')))
  | None :: _, _ :: _ => Raise ValueError
  | _, _ => Ok acc
  end.

(** [_convert] of [ast.literal_eval]. *)
Fixpoint convert (e : expr) : pyresult pyval :=
  match e with
  | Constant v => Ok v
  | ETuple elts => bind (sequence (map convert elts)) (fun l => Ok (VTuple l))
  | EList elts => bind (sequence (map convert elts)) (fun l => Ok (VList l))
  | ESet elts => bind (build_set (map convert elts) []) (fun l => Ok (VSet l))
  | ECall func args keywords =>
      if is_set_call func args keywords then Ok (VSet []) else convert_signed_num e
  | EDict keys values =>
      if Nat.eqb (List.length keys) (List.length values)
      then bind (build_dict (map (option_map convert) keys) (map convert values) [])
                (fun l => Ok (VDict l))
      else Raise ValueError
  | EBinOp lhs Add rhs | EBinOp lhs Sub rhs =>
      bind (convert_signed_num lhs) (fun _ =>
      bind (convert_num rhs) (fun _ =>
      convert_signed_num e))
  | _ => convert_signed_num e
  end.

Definition literal_eval (e : expr) : pyresult pyval := convert e.

(** [ast.walk] is breadth first: the nodes come level by level, each
    level from left to right. *)
Fixpoint zip_levels (a b : list (list node)) : list (list node) :=
  match a, b with
  | [], _ => b
  | _, [] => a
  | x :: a', y :: b' => (x ++ y) :: zip_levels a' b'
  end.

Fixpoint levels (n : node) : list (list node) :=
  match n with
  | Assign _ _ => [[n]]
  | Node children =>
      [n] :: fold_right (fun c acc => zip_levels (levels c) acc) [] children
  end.

Definition walk (tree : node) : list node := List.concat (levels tree).

End Ast.

(* ------------------------------------------------------------------ *)
(** ** [RTConfigAnalyzer] *)

Module Analyzer.
Import PyStr Py Ast Re.

(** The attributes of an [RTConfigAnalyzer] that [analyze] reads or
    writes. *)
Record analyzer := {
  content : string;
  parsed_successfully : bool;
  dist_handle_code : string;
  link_script_path : option string;
  all_defines : list string;
  all_includes : list string }.

(** [__init__], after the file was read. *)
Definition new_analyzer (text : string) : analyzer :=
  {| content := text;
     parsed_successfully := false;
     dist_handle_code := EmptyString;
     link_script_path := None;
     all_defines := [];
     all_includes := [] |}.

Definition unsupported_gcc_keywords : list string :=
  [ "--apcs=interwork";
    "-D__MICROLIB";
    ("--pd " ++ chr dquote ++ "__MICROLIB SETA 1" ++ chr dquote)%string;
    "--library_type=microlib";
    "--cpu Cortex-M4.fp";
    "--diag_suppress Pa050";
    "-Dewarm";
    "--no_cse";
    "--no_unroll";
    "--no_inline";
    "--no_code_motion";
    "--no_tbaa";
    "--no_clustering";
    "--no_scheduling";
    "--target=arm-arm-none-eabi";
    "--list rt-thread.map";
    "--strict" ].

Definition windows_path_patterns : list string :=
  [ "C:\\Users\\.*"; "C:/.*"; "D:\\Progrem\\.*"; "Program Files.*" ].

(** One entry of [unsupported_configs]. *)
Record config := {
  flag : string;
  value : string;
  unsupported_keyword : string }.

(** The dictionary [analyze] returns.  The entries holding one value
    ([arch], [cpu], [cross_tool], [platform], [exec_path], [build],
    [linker_script] and, once [main] has added it, [original_file]) are
    kept in the dictionary [scalars], so that [dict.get] reads as in the
    source; the entries that always hold a collection are fields.  The
    entry [gcc_config], which nothing reads, is left out. *)
Record analysis := {
  scalars : dict;
  unsupported_configs : list config;
  original_variables : dict;
  dist_handle_found : bool;
  defines : list string;
  includes : list string }.

Definition initial_result : analysis :=
  {| scalars :=
       [ ("arch", VNone); ("cpu", VNone); ("cross_tool", VNone);
         ("platform", VNone); ("exec_path", VNone); ("build", VStr "debug");
         ("linker_script", VNone) ];
     unsupported_configs := [];
     original_variables := [];
     dist_handle_found := false;
     defines := [];
     includes := [] |}.

Definition set_scalar (k : string) (v : pyval) (r : analysis) : analysis :=
  {| scalars := dict_set k v (scalars r);
     unsupported_configs := unsupported_configs r;
     original_variables := original_variables r;
     dist_handle_found := dist_handle_found r;
     defines := defines r;
     includes := includes r |}.

Definition set_original (k : string) (v : pyval) (r : analysis) : analysis :=
  {| scalars := scalars r;
     unsupported_configs := unsupported_configs r;
     original_variables := dict_set k v (original_variables r);
     dist_handle_found := dist_handle_found r;
     defines := defines r;
     includes := includes r |}.

(** [x in l] for a list of strings. *)
Definition among (x : string) (l : list string) : bool :=
  existsb (String.eqb x) l.

(** *** Shorthands for the patterns *)

Definition ch (c : ascii) : re := RChar (CLit c).
Definition spaces : re := RRep true 0 CSpace.       (* \s* *)
Definition spaces1 : re := RRep true 1 CSpace.      (* \s+ *)
Definition quote : cset := CIn [CLit squote; CLit dquote].
Definition not_quote : cset := CNotIn [CLit squote; CLit dquote].

Definition i_flag : flags := Flags true false false.
Definition s_flag : flags := Flags false false true.
Definition ims_flags : flags := Flags true true true.

(** *** [_extract_from_ast] *)

Section WithUnparse.
(** [ast.unparse]. *)
Variable unparse : expr -> string.

(** The chain of [if var_name in [...]] tests. *)
Definition collect_key (var_name : string) (var_value : pyval) (r : analysis)
  : analysis :=
  if among var_name ["ARCH"; "arch"] then set_scalar "arch" var_value r
  else if among var_name ["CPU"; "cpu"] then set_scalar "cpu" var_value r
  else if among var_name ["CROSS_TOOL"; "CROSS_TOOL"] then set_scalar "cross_tool" var_value r
  else if among var_name ["PLATFORM"; "platform"] then set_scalar "platform" var_value r
  else if among var_name ["EXEC_PATH"; "exec_path"] then set_scalar "exec_path" var_value r
  else if among var_name ["BUILD"; "build"] then set_scalar "build" var_value r
  else r.

(** The body of [for target in node.targets] for one target. *)
Definition extract_target (target value : expr) (r : analysis) : pyresult analysis :=
  match target with
  | EName var_name =>
      match literal_eval value with
      | Ok var_value =>
          Ok (collect_key var_name var_value (set_original var_name var_value r))
      | Raise ValueError | Raise SyntaxError =>
          Ok (set_original var_name (VStr (unparse value)) r)
      | Raise e => Raise e
      end
  | _ => Ok r
  end.

Fixpoint extract_targets (targets : list expr) (value : expr) (r : analysis)
  : pyresult analysis :=
  match targets with
  | [] => Ok r
  | t :: ts => bind (extract_target t value r) (extract_targets ts value)
  end.

Definition extract_node (n : node) (r : analysis) : pyresult analysis :=
  match n with
  | Assign targets value => extract_targets targets value r
  | Node _ => Ok r
  end.

Fixpoint extract_nodes (l : list node) (r : analysis) : pyresult analysis :=
  match l with
  | [] => Ok r
  | n :: l' => bind (extract_node n r) (extract_nodes l')
  end.

Definition extract_from_ast (tree : node) (r : analysis) : pyresult analysis :=
  extract_nodes (walk tree) r.
End WithUnparse.

(** *** [_extract_with_regex] *)

(** [NAME\s*=\s*['q]([^'q]+)['q]], where [q] stands for the double
    quote in these comments. *)
Definition quoted_assignment (name : string) : re :=
  seq [ lit name; spaces; ch "="; spaces; RChar quote;
        RGroup (RRep true 1 not_quote); RChar quote ].

(** [EXEC_PATH\s*=\s*(.+?)(?:\n|$)] *)
Definition exec_path_pattern : re :=
  seq [ lit "EXEC_PATH"; spaces; ch "="; spaces;
        RGroup (RRep false 1 CAny); RAlt (ch nl) RDollar ].

Definition regex_patterns : list (string * re) :=
  [ ("ARCH", quoted_assignment "ARCH");
    ("CPU", quoted_assignment "CPU");
    ("CROSS_TOOL", quoted_assignment "CROSS_TOOL");
    ("PLATFORM", quoted_assignment "PLATFORM");
    ("EXEC_PATH", exec_path_pattern);
    ("BUILD", quoted_assignment "BUILD") ].

Definition quote_chars : string := String squote (String dquote EmptyString).

Definition regex_key (var_name : string) (v : string) (r : analysis) : analysis :=
  if String.eqb var_name "ARCH" then set_scalar "arch" (VStr v) r
  else if String.eqb var_name "CPU" then set_scalar "cpu" (VStr v) r
  else if String.eqb var_name "CROSS_TOOL" then set_scalar "cross_tool" (VStr v) r
  else if String.eqb var_name "PLATFORM" then set_scalar "platform" (VStr v) r
  else if String.eqb var_name "EXEC_PATH" then set_scalar "exec_path" (VStr v) r
  else if String.eqb var_name "BUILD" then set_scalar "build" (VStr v) r
  else r.

Definition extract_with_regex (text : string) (r : analysis) : analysis :=
  fold_left
    (fun r p =>
       match search i_flag (snd p) text with
       | Some m =>
           let v := strip_chars quote_chars (group1 m) in
           regex_key (fst p) v (set_original (fst p) (VStr v) r)
       | None => r
       end)
    regex_patterns r.

(** *** [_extract_dist_handle] *)

(** [def\s+dist_handle\s*\([^)]*\)\s*:(.*?)(?=\n\s*def\s|\n\s*$|\Z)] *)
Definition dist_handle_pattern : re :=
  seq [ lit "def"; spaces1; lit "dist_handle"; spaces; ch "(";
        RRep true 0 (CNotIn [CLit ")"]); ch ")"; spaces; ch ":";
        RGroup (RRep false 0 CAny);
        RLook (RAlt (seq [ch nl; spaces; lit "def"; RChar CSpace])
                    (RAlt (seq [ch nl; spaces; RDollar]) REnd)) ].

(** [def\s+dist_handle\s*\(.*?\).*?(?:\n{2,}|\Z)] *)
Definition dist_handle_pattern2 : re :=
  seq [ lit "def"; spaces1; lit "dist_handle"; spaces; ch "(";
        RRep false 0 CAny; ch ")"; RRep false 0 CAny;
        RAlt (RRep true 2 (CLit nl)) REnd ].

Definition extract_dist_handle (a : analyzer) : analyzer :=
  let text := content a in
  let code :=
    match search s_flag dist_handle_pattern text with
    | Some m =>
        let func_start := find_index (group0 m) text in
        let func_end := (func_start + Z.of_nat (length (group0 m)))%Z in
        let def_line_start := rfind_next nl func_start text in
        slice def_line_start func_end text
    | None =>
        match search s_flag dist_handle_pattern2 text with
        | Some m2 => group0 m2
        | None => dist_handle_code a
        end
    end in
  {| content := text;
     parsed_successfully := parsed_successfully a;
     dist_handle_code := code;
     link_script_path := link_script_path a;
     all_defines := all_defines a;
     all_includes := all_includes a |}.

(** *** [_extract_link_script] *)

(** [-T\s+([\w/\.\-_]+\.lds?)] *)
Definition link_flag_pattern : re :=
  seq [ lit "-T"; spaces1;
        RGroup (seq [ RRep true 1 (CIn [CWord; CLit "/"; CLit "."; CLit "-"; CLit "_"]);
                      ch "."; lit "ld"; ROpt (CLit "s") ]) ].

Definition link_script_patterns : list re :=
  [ link_flag_pattern;
    quoted_assignment "link_script";
    quoted_assignment "LINK_SCRIPT" ].

Definition common_paths : list string :=
  [ "board/linker_scripts/link.lds";
    "linker_scripts/link.lds";
    "scripts/link.lds";
    "link.lds";
    "linker.ld" ].

Definition nonempty_path (p : option string) : bool :=
  match p with
  | Some s => negb (is_empty s)
  | None => false
  end.

Fixpoint first_link_match (patterns : list re) (text : string) (old : option string)
  : option string :=
  match patterns with
  | [] => old
  | p :: ps =>
      match search no_flags p text with
      | Some m =>
          let g := group1 m in
          Some (if is_empty g then g else replace (chr backslash) "/" g)
      | None => first_link_match ps text old
      end
  end.

Section WithFiles.
(** [(bsp_dir / path).exists()]. *)
Variable path_exists : string -> bool.

Definition extract_link_script (a : analyzer) : analyzer :=
  let found := first_link_match link_script_patterns (content a) (link_script_path a) in
  let path :=
    if nonempty_path found then found
    else match List.find path_exists common_paths with
         | Some p => Some p
         | None => found
         end in
  {| content := content a;
     parsed_successfully := parsed_successfully a;
     dist_handle_code := dist_handle_code a;
     link_script_path := path;
     all_defines := all_defines a;
     all_includes := all_includes a |}.
End WithFiles.

(** *** [_analyze_compiler_flags_fixed] *)

(** [NAME\s*[+:]?=\s*(.+?)(?=\n\s*\w+\s*[=:]|\n\s*$|#)] *)
Definition flag_pattern (name : string) : re :=
  seq [ lit name; spaces; ROpt (CIn [CLit "+"; CLit ":"]); ch "="; spaces;
        RGroup (RRep false 1 CAny);
        RLook (RAlt (seq [ch nl; spaces; RRep true 1 CWord; spaces;
                          RChar (CIn [CLit "="; CLit ":"])])
                    (RAlt (seq [ch nl; spaces; RDollar]) (ch "#"))) ].

Definition flag_names : list string := ["CFLAGS"; "AFLAGS"; "LFLAGS"].

(** [#.*$] *)
Definition comment_pattern : re := seq [ch "#"; RRep true 0 CAny; RDollar].

(** The characters of [strip] on a flag value: both quotes, the plus
    sign, the blank, TAB and the newline. *)
Definition flag_strip_chars : string :=
  String dquote (String squote (String "+" (String " " (String tab (String nl EmptyString))))).

(** The three cleaning steps applied to one match. *)
Definition clean_flag_value (m : string) : string :=
  strip_chars flag_strip_chars (sub_empty no_flags comment_pattern (strip m)).

(** The loop over [unsupported_gcc_keywords] with its [break]: the first
    keyword of the list that occurs in the value. *)
Definition first_unsupported (flag_value : string) : option string :=
  List.find (fun keyword => contains keyword flag_value) unsupported_gcc_keywords.

(** The body of [for match in matches]. *)
Definition flag_entry (flag_name m : string) : list config :=
  let flag_value := clean_flag_value m in
  if is_empty flag_value then []
  else match first_unsupported flag_value with
       | Some keyword =>
           [ {| flag := flag_name; value := flag_value; unsupported_keyword := keyword |} ]
       | None => []
       end.

Definition flag_matches (flag_name text : string) : list string :=
  findall ims_flags (flag_pattern flag_name) text.

Definition flag_entries (text flag_name : string) : list config :=
  flat_map (flag_entry flag_name) (flag_matches flag_name text).

Definition unsupported_of (text : string) : list config :=
  flat_map (flag_entries text) flag_names.

Definition analyze_compiler_flags_fixed (text : string) (r : analysis) : analysis :=
  {| scalars := scalars r;
     unsupported_configs := unsupported_of text;
     original_variables := original_variables r;
     dist_handle_found := dist_handle_found r;
     defines := defines r;
     includes := includes r |}.

(** *** [_extract_defines_and_includes_fixed] *)

(** [-D] and group 1: one character of [[\w_]], then [[\w\d_]] any
    number of times. *)
Definition define_pattern : re :=
  seq [ lit "-D";
        RGroup (seq [ RChar (CIn [CWord; CLit "_"]);
                      RRep true 0 (CIn [CWord; CDigit; CLit "_"]) ]) ].

(** [-I([^\s'q]+)] *)
Definition include_pattern : re :=
  seq [ lit "-I"; RGroup (RRep true 1 (CNotIn [CSpace; CLit squote; CLit dquote])) ].

(** The test guarding [all_defines.add]. *)
Definition keep_define (m : string) : bool :=
  negb (is_empty m) && negb (String.eqb m "gcc")
  && negb (among ("-D" ++ m)%string unsupported_gcc_keywords).

(** The test guarding [all_includes.add]. *)
Definition keep_include (m : string) : bool :=
  negb (is_empty m) && negb (is_empty (strip m)) && negb (prefix "+" m).

Definition add_all (keep : string -> bool) (found : list string) (s : list string)
  : list string :=
  fold_left (fun acc m => if keep m then set_add m acc else acc) found s.

Definition extract_defines_and_includes_fixed (a : analyzer) : analyzer :=
  {| content := content a;
     parsed_successfully := parsed_successfully a;
     dist_handle_code := dist_handle_code a;
     link_script_path := link_script_path a;
     all_defines :=
       add_all keep_define (findall no_flags define_pattern (content a)) (all_defines a);
     all_includes :=
       add_all keep_include (findall no_flags include_pattern (content a)) (all_includes a) |}.

(** [is_windows_path] *)
Definition is_windows_path (path : string) : bool :=
  if is_empty path then false
  else existsb (fun pattern => contains (lower_str pattern) (lower_str path))
               windows_path_patterns.

(** *** [analyze] *)

Definition set_parsed (a : analyzer) : analyzer :=
  {| content := content a;
     parsed_successfully := true;
     dist_handle_code := dist_handle_code a;
     link_script_path := link_script_path a;
     all_defines := all_defines a;
     all_includes := all_includes a |}.

Definition path_value (p : option string) : pyval :=
  match p with
  | Some s => VStr s
  | None => VNone
  end.

Section Analyze.
(** [ast.parse], [ast.unparse] and the existence test next to the
    analysed file. *)
Variable ast_parse : string -> pyresult node.
Variable unparse : expr -> string.
Variable path_exists : string -> bool.

(** The [try] around [ast.parse] and [_extract_from_ast]: only a
    [SyntaxError] is handled, whichever of the two raises it. *)
Definition extract_fields (a : analyzer) (r : analysis) : pyresult (analyzer * analysis) :=
  match bind (ast_parse (content a)) (fun tree => extract_from_ast unparse tree r) with
  | Ok r' => Ok (set_parsed a, r')
  | Raise SyntaxError => Ok (a, extract_with_regex (content a) r)
  | Raise e => Raise e
  end.

Definition analyze (a0 : analyzer) : pyresult (analyzer * analysis) :=
  let a1 := extract_dist_handle a0 in
  let a2 := extract_link_script path_exists a1 in
  bind (extract_fields a2 initial_result) (fun '(a3, r1) =>
    let r2 := analyze_compiler_flags_fixed (content a3) r1 in
    let a4 := extract_defines_and_includes_fixed a3 in
    Ok (a4,
        {| scalars :=
             dict_set "linker_script" (path_value (link_script_path a4)) (scalars r2);
           unsupported_configs := unsupported_configs r2;
           original_variables := original_variables r2;
           dist_handle_found := negb (is_empty (dist_handle_code a4));
           defines := all_defines a4;
           includes := all_includes a4 |})).
End Analyze.

End Analyzer.

(* ------------------------------------------------------------------ *)
(** ** [RTConfigGenerator] *)

Module Generator.
Import PyStr Py Ast Re Analyzer.
Local Open Scope string_scope.

Definition q : string := chr dquote.

Definition rule : string := "# ====================================================".

Definition fpu_map : list (string * string) :=
  [ ("cortex-m4", "fpv4-sp-d16");
    ("cortex-m7", "fpv5-d16");
    ("cortex-m33", "fpv5-sp-d16") ].

Fixpoint assoc (k : string) (l : list (string * string)) : option string :=
  match l with
  | [] => None
  | (k', v) :: l' => if String.eqb k k' then Some v else assoc k l'
  end.

(** [_determine_fpu]: [fpu_map.get(cpu, '')] hashes [cpu]; a key that is
    not one of the three strings gives the default. *)
Definition determine_fpu (cpu : pyval) : pyresult string :=
  if hashable cpu
  then Ok match cpu with
          | VStr s => match assoc s fpu_map with Some v => v | None => EmptyString end
          | _ => EmptyString
          end
  else Raise TypeError.

(** [(-fstack-usage)], [(-fdump-rtl-\w+)], [(-std=\w+)] *)
Definition useful_patterns : list re :=
  [ RGroup (lit "-fstack-usage");
    RGroup (seq [lit "-fdump-rtl-"; RRep true 1 CWord]);
    RGroup (seq [lit "-std="; RRep true 1 CWord]) ].

Definition add_other_compiler_stubs : list string :=
  [ "elif PLATFORM == 'armcc':";
    "    # ARMCC配置 (Linux下不可用)";
    "    print(" ++ q ++ "错误: ARMCC在Linux下不可用，请使用GCC" ++ q ++ ")";
    "    exit(1)";
    "";
    "elif PLATFORM == 'armclang':";
    "    # ARMClang配置 (Linux下不可用)";
    "    print(" ++ q ++ "错误: ARMClang在Linux下不可用，请使用GCC" ++ q ++ ")";
    "    exit(1)";
    "";
    "elif PLATFORM == 'iccarm':";
    "    # IAR配置 (Linux下不可用)";
    "    print(" ++ q ++ "错误: IAR在Linux下不可用，请使用GCC" ++ q ++ ")";
    "    exit(1)";
    "" ].

Section Generate.
(** [repr] of a tuple, list, set or dictionary; [Path(s).name]; the
    text of [_get_timestamp()]. *)
Variable py_repr : pyval -> string.
Variable path_name : string -> string.
Variable timestamp : string.

(** [str(v)], as an f-string renders a value. *)
Definition py_str (v : pyval) : string :=
  match v with
  | VNone => "None"
  | VBool true => "True"
  | VBool false => "False"
  | VInt z => str_of_Z z
  | VStr s => s
  | _ => py_repr v
  end.

(** The generator reads the analyzer ([dist_handle_code]) and the
    analysis dictionary. *)
Variable a : analyzer.
Variable r : analysis.

Definition add_header : pyresult (list string) :=
  match dict_get (scalars r) "original_file" (VStr "") with
  | VStr file =>
      Ok [ "#!/usr/bin/env python3";
           q ++ q ++ q;
           "RT-Thread BSP配置文件";
           "从原始配置自动迁移生成，适配Linux环境";
           "原始文件: " ++ path_name file;
           "生成时间: " ++ timestamp;
           q ++ q ++ q;
           "" ]
  | _ => Raise TypeError
  end.

Definition add_basic_config : list string :=
  let arch := dict_get (scalars r) "arch" (VStr "arm") in
  let cpu := dict_get (scalars r) "cpu" (VStr "cortex-m4") in
  let build := dict_get (scalars r) "build" (VStr "debug") in
  [ rule;
    "# 基本配置";
    rule;
    "ARCH = '" ++ py_str arch ++ "'";
    "CPU = '" ++ py_str cpu ++ "'";
    "CROSS_TOOL = 'gcc'";
    "";
    "# BSP库类型";
    "BSP_LIBRARY_TYPE = None";
    "";
    "# 环境变量覆盖";
    "if os.getenv('RTT_CC'):";
    "    CROSS_TOOL = os.getenv('RTT_CC')";
    "if os.getenv('RTT_ROOT'):";
    "    RTT_ROOT = os.getenv('RTT_ROOT')";
    "";
    "# 工具链选择 - Linux下只支持GCC";
    "if CROSS_TOOL == 'gcc':";
    "    PLATFORM = 'gcc'";
    "    EXEC_PATH = '/usr/bin'  # Linux默认路径";
    "elif CROSS_TOOL == 'keil':";
    "    print(" ++ q ++ "警告: Keil MDK在Linux下不可用，请切换到GCC" ++ q ++ ")";
    "    PLATFORM = 'armcc'";
    "    EXEC_PATH = '/usr/bin'";
    "elif CROSS_TOOL == 'iar':";
    "    print(" ++ q ++ "警告: IAR在Linux下不可用，请切换到GCC" ++ q ++ ")";
    "    PLATFORM = 'iccarm'";
    "    EXEC_PATH = '/usr/bin'";
    "else:";
    "    print(f" ++ q ++ "不支持的编译器: {CROSS_TOOL}" ++ q ++ ")";
    "    exit(1)";
    "";
    "if os.getenv('RTT_EXEC_PATH'):";
    "    EXEC_PATH = os.getenv('RTT_EXEC_PATH')";
    "";
    "BUILD = '" ++ py_str build ++ "'";
    "" ].

Definition add_toolchain_config : pyresult (list string) :=
  let cpu := dict_get (scalars r) "cpu" (VStr "cortex-m4") in
  bind (determine_fpu cpu) (fun _ =>
  Ok [ rule;
       "# GCC工具链配置";
       rule;
       "if PLATFORM == 'gcc':";
       "    # 工具链命令";
       "    PREFIX = 'arm-none-eabi-'";
       "    CC = PREFIX + 'gcc'";
       "    AS = PREFIX + 'gcc'";
       "    AR = PREFIX + 'ar'";
       "    CXX = PREFIX + 'g++'";
       "    LINK = PREFIX + 'gcc'";
       "    TARGET_EXT = 'elf'";
       "    SIZE = PREFIX + 'size'";
       "    OBJDUMP = PREFIX + 'objdump'";
       "    OBJCPY = PREFIX + 'objcopy'";
       "" ]).

(** [_generate_safe_cflags_fixed] *)
Definition generate_safe_cflags_fixed : string :=
  let with_defines :=
    fold_left (fun flags define => flags ++ " -D" ++ define)
              (sorted (defines r)) " -Dgcc" in
  let safe_flags :=
    fold_left (fun flags include =>
                 if negb (is_empty include) && negb (is_empty (strip include))
                 then flags ++ " -I" ++ include else flags)
              (sorted (includes r)) with_defines in
  let original_cflags :=
    match List.find (fun c => String.eqb (flag c) "CFLAGS") (unsupported_configs r) with
    | Some c => value c
    | None => EmptyString
    end in
  if is_empty original_cflags then safe_flags
  else
    let filtered_flags :=
      fold_left (fun flags keyword => replace keyword EmptyString flags)
                unsupported_gcc_keywords original_cflags in
    fold_left (fun flags pattern =>
                 match search no_flags pattern filtered_flags with
                 | Some m => flags ++ " " ++ group1 m
                 | None => flags
                 end)
              useful_patterns safe_flags.

Definition add_gcc_config : pyresult (list string) :=
  let cpu := dict_get (scalars r) "cpu" (VStr "cortex-m4") in
  bind (determine_fpu cpu) (fun fpu =>
  let float_abi := if is_empty fpu then "soft" else "hard" in
  let device_flags :=
    " -mcpu=" ++ py_str cpu ++ " -mthumb"
    ++ (if is_empty fpu then EmptyString
        else " -mfpu=" ++ fpu ++ " -mfloat-abi=" ++ float_abi)
    ++ " -ffunction-sections -fdata-sections" in
  let cflags := generate_safe_cflags_fixed in
  let ld_script :=
    dict_get (scalars r) "linker_script" (VStr "board/linker_scripts/link.lds") in
  let flag_lines :=
      [ "    # 编译参数";
        "    DEVICE = '" ++ device_flags ++ "'";
        "    CFLAGS = DEVICE + '" ++ cflags ++ "'";
        "    AFLAGS = ' -c' + DEVICE + ' -x assembler-with-cpp -Wa,-mimplicit-it=thumb '";
        "    LFLAGS = DEVICE + ' -Wl,--gc-sections,-Map=rt-thread.map,-cref,-u,Reset_Handler -T "
          ++ py_str ld_script ++ "'";
        "    CPATH = ''";
        "    LPATH = ''";
        "";
        "    if BUILD == 'debug':";
        "        CFLAGS += ' -O0 -gdwarf-2 -g'";
        "        AFLAGS += ' -gdwarf-2'";
        "    else:";
        "        CFLAGS += ' -O2'";
        "";
        "    CXXFLAGS = CFLAGS";
        "";
        "    POST_ACTION = OBJCPY + ' -O binary $TARGET rtthread.bin\n' + SIZE + ' $TARGET \n'";
        "" ] in
  let last_lines :=
      [ "else:";
        "    print('不支持的平台: ' + PLATFORM)";
        "    exit(1)";
        "" ] in
  Ok (flag_lines ++ add_other_compiler_stubs ++ last_lines)%list).

(** The block appended for a non-empty [dist_handle_code]. *)
Definition dist_handle_block : list string :=
  if is_empty (dist_handle_code a) then []
  else [ ""; rule; "# 发布处理函数 (从原始文件保留)"; rule; dist_handle_code a ].

Definition generated_lines : pyresult (list string) :=
  bind add_header (fun header =>
  bind add_toolchain_config (fun toolchain =>
  bind add_gcc_config (fun gcc =>
  Ok (header ++ ["import os"; ""] ++ add_basic_config ++ toolchain ++ gcc
      ++ dist_handle_block)%list))).

Definition generate : pyresult string :=
  bind generated_lines (fun lines => Ok (join (chr nl) lines)).
End Generate.

End Generator.

(* ------------------------------------------------------------------ *)
(** ** [generate_migration_report] *)

Module Report.
Import PyStr Py Ast Re Analyzer Generator.
Local Open Scope string_scope.

Fixpoint times (c : string) (n : nat) : string :=
  match n with
  | 0 => EmptyString
  | S k => c ++ times c k
  end.

Section Report.
Variable py_repr : pyval -> string.
Variable r : analysis.
Variables backup_path report_path output_path : string.

Definition show (k default : string) : string :=
  py_str py_repr (dict_get (scalars r) k (VStr default)).

Definition basic_lines : list string :=
  [ times "=" 60;
    "RT-Thread BSP配置迁移报告";
    times "=" 60;
    "";
    "📋 基本信息";
    times "-" 40;
    "原始文件: " ++ show "original_file" "N/A";
    "架构: " ++ show "arch" "N/A";
    "CPU: " ++ show "cpu" "N/A";
    "原始编译器: " ++ show "cross_tool" "N/A";
    "构建类型: " ++ show "build" "N/A";
    "链接脚本: " ++ show "linker_script" "未找到，使用默认";
    "dist_handle函数: " ++ (if dist_handle_found r then "找到" else "未找到");
    "" ].

Definition define_lines : list string :=
  let found_defines :=
    match defines r with
    | [] => ["⚠️ 未提取到宏定义"]
    | _ => "✅ 宏定义 (-D):" :: map (fun d => "  -D" ++ d) (sorted (defines r))
    end in
  let found_includes :=
    match includes r with
    | [] => ["⚠️ 未提取到头文件路径"]
    | _ => "✅ 头文件路径 (-I):" :: map (fun i => "  -I" ++ i) (sorted (includes r))
    end in
  (["🔧 提取的编译参数"; times "-" 40] ++ found_defines ++ [""]
   ++ found_includes ++ [""])%list.

(** [exec_path and analyzer.is_windows_path(exec_path)]: a true value
    that is not a string has no [lower]. *)
Definition path_lines : pyresult (list string) :=
  let exec_path := dict_get (scalars r) "exec_path" (VStr "") in
  let head := ["🔧 修改内容"; times "-" 40] in
  let tail := ["✓ 简化了编译器支持，主要保留GCC"; "✓ 自动探测链接脚本路径"; ""] in
  let unchanged := ["✓ 路径配置无需修改"] in
  if truthy exec_path
  then match exec_path with
       | VStr path =>
           let replaced :=
             [ "✓ Windows路径已替换为Linux路径";
               "  原始: " ++ path;
               "  新: /usr/bin (可通过RTT_EXEC_PATH环境变量覆盖)" ] in
           Ok (head ++ (if is_windows_path path then replaced else unchanged)
               ++ tail)%list
       | _ => Raise AttributeError
       end
  else Ok (head ++ unchanged ++ tail)%list.

Definition config_lines (c : config) : list string :=
  [ "  " ++ flag c ++ ":";
    "    原因: 包含GCC不支持的选项 " ++ q ++ unsupported_keyword c ++ q;
    "    原始值: " ++ take 100 (value c) ++ "...";
    "" ].

Definition unsupported_lines : list string :=
  match unsupported_configs r with
  | [] => ["✅ 所有编译参数都兼容GCC"; ""]
  | l => "⚠️ 不支持的编译参数（已移除）" :: times "-" 40 :: flat_map config_lines l
  end.

Definition file_lines : list string :=
  [ "📁 生成的文件";
    times "-" 40;
    "输出文件: " ++ output_path;
    "备份文件: " ++ backup_path;
    "报告文件: " ++ report_path;
    "";
    "🚀 使用说明";
    times "-" 40;
    "1. 编译测试: scons";
    "2. 如果编译失败，检查工具链路径:";
    "   export RTT_EXEC_PATH=/path/to/your/toolchain";
    "3. 如果链接脚本路径不正确，请手动修改LFLAGS中的-T参数";
    "4. 恢复原始配置:";
    "   cp " ++ backup_path ++ " " ++ output_path;
    "";
    times "=" 60 ].

Definition generate_migration_report : pyresult string :=
  bind path_lines (fun paths =>
  Ok (join (chr nl)
        (basic_lines ++ define_lines ++ paths ++ unsupported_lines ++ file_lines)%list)).
End Report.

End Report.

(* ------------------------------------------------------------------ *)
(** ** [main]: the file operations of one run *)

Module Main.
Import PyStr Py Ast Re Analyzer Generator Report.
Local Open Scope string_scope.

(** A path is the list of its components; two paths name the same file
    when they are the same list.  The file system maps the paths of the
    regular files to their contents; what the other paths are is part of
    the environment of a run. *)
Definition path := list string.

Definition filesystem := path -> option string.

Fixpoint path_eqb (p p' : path) : bool :=
  match p, p' with
  | [], [] => true
  | x :: q, y :: q' => String.eqb x y && path_eqb q q'
  | _, _ => false
  end.

Definition write_file (p : path) (text : string) (fs : filesystem) : filesystem :=
  fun p' => if path_eqb p' p then Some text else fs p'.

(** [str(p)], [p.parent], [p.name] and [p / rel]. *)
Definition path_str (p : path) : string := join "/" p.

Definition parent (p : path) : path := removelast p.

Definition name (p : path) : string := last p EmptyString.

Fixpoint split_slash (s cur : string) : list string :=
  match s with
  | EmptyString => [cur]
  | String c s' =>
      if Ascii.eqb c "/" then cur :: split_slash s' EmptyString
      else split_slash s' (cur ++ chr c)
  end.

Definition under (dir : path) (rel : string) : path :=
  (dir ++ split_slash rel EmptyString)%list.

(** What a run does to the file system, in order, one event for each
    call that went through: [open(p, 'w')] and [f.write(text)] are two
    calls. *)
Inductive event :=
| Mkdir (dir : path)
| Copy (src dst : path)
| ReadText (p : path)
| OpenWrite (p : path)
| WriteText (p : path) (text : string).

(** How a run ends: [sys.exit(code)], an exception nobody catches, or
    the end of [main]. *)
Inductive outcome :=
| Exit (code : nat)
| Uncaught (e : exn)
| Completed.

Record world := { files : filesystem; trace : list event }.

Inductive io_result (A : Type) :=
| Next (x : A) (w : world)
| Stop (o : outcome) (w : world).
Arguments Next {A} x w.
Arguments Stop {A} o w.

Definition io (A : Type) := world -> io_result A.

Definition ret {A : Type} (x : A) : io A := fun w => Next x w.

Definition then_ {A B : Type} (m : io A) (k : A -> io B) : io B :=
  fun w => match m w with
           | Next x w' => k x w'
           | Stop o w' => Stop o w'
           end.

Definition exit {A : Type} (code : nat) : io A := fun w => Stop (Exit code) w.

Definition lift {A : Type} (m : pyresult A) : io A :=
  fun w => match m with
           | Ok x => Next x w
           | Raise e => Stop (Uncaught e) w
           end.

Notation "x <- m ;; k" := (then_ m (fun x => k))
  (at level 61, m at next level, right associativity).
Notation "m ;;; k" := (then_ m (fun _ => k))
  (at level 61, right associativity).

Inductive opt := OptForce | OptHelp.

(** What a path that names no regular file is to [Path.exists]:
    nothing, a directory, or a path at which the call raises (an
    interpreter that lets the exception of [stat] through, a missing
    search permission for one). *)
Inductive path_kind :=
| Missing
| Directory
| Unreachable (e : exn).

(** What comes back from [input()] in [confirm_overwrite]: an answer,
    which is or is not one of the accepted words; [KeyboardInterrupt];
    or another exception ([EOFError] at the end of the input). *)
Inductive reply :=
| Answered (yes : bool)
| Interrupted
| Failed (e : exn).

Section Run.
(** The environment of a run: whether an operation goes through after
    what was done so far, and the exception it raises when it does not
    ([OSError]; [ValueError] for a text that cannot be encoded); what
    the paths that name no regular file are; what a write that fails
    leaves in the file it had opened; what comes back from the overwrite
    prompt; the clock; and the library functions of [analyze] and
    [generate]. *)
Variable io_ok : list event -> event -> bool.
Variable io_error : list event -> event -> exn.
Variable kind_of : path -> path_kind.
Variable torn : path -> string -> string.
Variable answer : reply.
Variable file_stamp : string.
Variable stem_of : string -> string.
Variable ast_parse : string -> pyresult node.
Variable unparse : expr -> string.
Variable py_repr : pyval -> string.
Variable path_name : string -> string.
Variable timestamp : string.

(** An operation is recorded in the trace when it is carried out. *)
Definition perform (e : event) (change : filesystem -> filesystem) : io unit :=
  fun w =>
    if io_ok (trace w) e
    then Next tt {| files := change (files w); trace := (trace w ++ [e])%list |}
    else Stop (Uncaught (io_error (trace w) e)) w.

Definition mkdir (dir : path) : io unit := perform (Mkdir dir) (fun fs => fs).

(** [shutil.copy2(src, dst)]: a source that is no regular file (a missing
    path, a directory) raises a subclass of [OSError]. *)
Definition copy2 (src dst : path) : io unit :=
  fun w =>
    match files w src with
    | Some text => perform (Copy src dst) (write_file dst text) w
    | None => Stop (Uncaught OSError) w
    end.

Definition read_text (p : path) : io string :=
  fun w =>
    match files w p with
    | Some text =>
        match perform (ReadText p) (fun fs => fs) w with
        | Next _ w' => Next text w'
        | Stop o w' => Stop o w'
        end
    | None => Stop (Uncaught OSError) w
    end.

(** [open(p, 'w')]: the file is created or emptied. *)
Definition open_write (p : path) : io unit :=
  perform (OpenWrite p) (write_file p EmptyString).

(** [f.write(text)] and the end of the [with] block: a write that fails
    leaves some other content in the opened file. *)
Definition write (p : path) (text : string) : io unit :=
  fun w =>
    if io_ok (trace w) (WriteText p text)
    then Next tt {| files := write_file p text (files w);
                    trace := (trace w ++ [WriteText p text])%list |}
    else Stop (Uncaught (io_error (trace w) (WriteText p text)))
              {| files := write_file p (torn p text) (files w); trace := trace w |}.

Definition write_text (p : path) (text : string) : io unit :=
  open_write p ;;; write p text.

(** [p.exists()]: true of a regular file and of a directory. *)
Definition exists_file (p : path) : io bool :=
  fun w =>
    match files w p with
    | Some _ => Next true w
    | None =>
        match kind_of p with
        | Missing => Next false w
        | Directory => Next true w
        | Unreachable e => Stop (Uncaught e) w
        end
    end.

(** The loop over the options: [--help] leaves at once. *)
Fixpoint scan_opts (opts : list opt) (force : bool) : io bool :=
  match opts with
  | [] => ret force
  | OptForce :: rest => scan_opts rest true
  | OptHelp :: _ => exit 0
  end.

(** [confirm_overwrite]: only [KeyboardInterrupt] is caught. *)
Definition confirm_overwrite (file_path : path) : io bool :=
  present <- exists_file file_path ;;
  if present
  then match answer with
       | Answered yes => ret yes
       | Interrupted => ret false
       | Failed e => fun w => Stop (Uncaught e) w
       end
  else ret true.

Definition current_files : io filesystem := fun w => Next (files w) w.

(** [try: ... except Exception]: what was done stays done. *)
Definition attempt (m : io unit) : io unit :=
  fun w => match m w with
           | Stop (Uncaught _) w' => Next tt w'
           | other => other
           end.

Definition main (opts : list opt) (args : list path) : io unit :=
  force <- scan_opts opts false ;;
  match args with
  | [input_file] =>
      present <- exists_file input_file ;;
      if negb present then exit 1 else
      confirmed <- (if force then ret true else confirm_overwrite input_file) ;;
      if negb confirmed then exit 0 else
      let bsp_dir := parent input_file in
      let logs_dir := (bsp_dir ++ ["migration_logs"])%list in
      mkdir logs_dir ;;;
      let file_stem := stem_of (name input_file) in
      let backup_filename := file_stem ++ "." ++ file_stamp ++ ".backup.py" in
      let report_filename := file_stem ++ "." ++ file_stamp ++ ".migration_report.txt" in
      let backup_file := (logs_dir ++ [backup_filename])%list in
      let report_file := (logs_dir ++ [report_filename])%list in
      copy2 input_file backup_file ;;;
      text <- read_text input_file ;;
      fs <- current_files ;;
      let path_exists rel :=
        match fs (under bsp_dir rel) with Some _ => true | None => false end in
      analysed <- lift (analyze ast_parse unparse path_exists (new_analyzer text)) ;;
      let analyzer := fst analysed in
      let analysis :=
        set_scalar "original_file" (VStr (path_str input_file)) (snd analysed) in
      new_content <- lift (generate py_repr path_name timestamp analyzer analysis) ;;
      let output_file := input_file in
      write_text output_file new_content ;;;
      report <- lift (generate_migration_report py_repr analysis
                        (path_str backup_file) (path_str report_file)
                        (path_str output_file)) ;;
      write_text report_file report ;;;
      attempt (read_text output_file ;;;
               read_text output_file ;;;
               if dist_handle_found analysis
               then read_text output_file ;;; ret tt
               else ret tt)
  | _ => exit 1
  end.

Definition initial (fs : filesystem) : world := {| files := fs; trace := [] |}.

Definition run (opts : list opt) (args : list path) (fs : filesystem) : io_result unit :=
  main opts args (initial fs).
End Run.

End Main.

(* ------------------------------------------------------------------ *)
(** ** Notions used to state the properties *)

Module Props.
Import PyStr Py Ast Re Analyzer Generator Main.
Local Open Scope string_scope.

(** [k] is a substring of [v]. *)
Definition occurs_in (k v : string) : Prop :=
  exists before after, v = before ++ k ++ after.

(** [l] is one of the lines that were joined into [text]. *)
Definition has_line (l text : string) : Prop :=
  exists above below, text = join (chr nl) (above ++ l :: below)%list.

(** An analysis the generator can render: [cpu] can be hashed and
    [original_file], when present, is a string.  An analysis whose [cpu]
    is [None] or a string, as the data model has it, is of this kind. *)
Definition renderable (r : analysis) : bool :=
  hashable (dict_get (scalars r) "cpu" (VStr "cortex-m4"))
  && match dict_get (scalars r) "original_file" (VStr "") with
     | VStr _ => true
     | _ => false
     end.

(** The pairs [(var_name, node.value)] that [_extract_from_ast] handles,
    in the order of [ast.walk]: one for each target that is a name. *)
Definition name_targets (n : node) : list (string * expr) :=
  match n with
  | Assign targets value =>
      flat_map (fun t => match t with EName id => [(id, value)] | _ => [] end) targets
  | Node _ => []
  end.

Definition assignments (tree : node) : list (string * expr) :=
  flat_map name_targets (walk tree).

(** The handling of the pairs, one after the other. *)
Fixpoint extract_bindings (unparse : expr -> string) (l : list (string * expr))
         (r : analysis) : pyresult analysis :=
  match l with
  | [] => Ok r
  | (n, e) :: l' =>
      bind (extract_target unparse (EName n) e r) (extract_bindings unparse l')
  end.

(** The six canonical entries, each with the variable names the chain of
    tests in [_extract_from_ast] accepts for it. *)
Definition canonical_fields : list (string * list string) :=
  [ ("arch", ["ARCH"; "arch"]);
    ("cpu", ["CPU"; "cpu"]);
    ("cross_tool", ["CROSS_TOOL"; "CROSS_TOOL"]);
    ("platform", ["PLATFORM"; "platform"]);
    ("exec_path", ["EXEC_PATH"; "exec_path"]);
    ("build", ["BUILD"; "build"]) ].

(** The reading of the specification for one canonical field: among the
    assignments of a literal, the first whose name is an alias as written
    and, when there is none, the first whose name is an alias up to
    case. *)
Definition literal_assignments (tree : node) : list (string * pyval) :=
  flat_map (fun p => match literal_eval (snd p) with
                     | Ok v => [(fst p, v)]
                     | Raise _ => []
                     end)
           (assignments tree).

Definition first_named (test : string -> bool) (l : list (string * pyval))
  : option pyval :=
  option_map snd (List.find (fun p => test (fst p)) l).

Definition spec_first_definition (aliases : list string) (tree : node) : option pyval :=
  match first_named (fun n => among n aliases) (literal_assignments tree) with
  | Some v => Some v
  | None =>
      first_named (fun n => among (lower_str n) (map lower_str aliases))
                  (literal_assignments tree)
  end.

Fixpoint all_chars (p : ascii -> bool) (s : string) : bool :=
  match s with
  | EmptyString => true
  | String c s' => p c && all_chars p s'
  end.

(** The length of the longest prefix of [s] made of characters of [p]. *)
Fixpoint span (p : ascii -> bool) (s : string) : nat :=
  match s with
  | EmptyString => 0
  | String c s' => if p c then S (span p s') else 0
  end.

Definition starts_with_char (p : ascii -> bool) (s : string) : bool :=
  match s with
  | EmptyString => false
  | String c _ => p c
  end.

(** [id] stands in [text] as a [-D<identifier>] token: [-D], then the
    word characters of [id], then no further word character. *)
Definition define_token (id text : string) : Prop :=
  exists before after,
    text = before ++ "-D" ++ id ++ after
    /\ id <> ""
    /\ all_chars is_word id = true
    /\ starts_with_char is_word after = false.

(** The characters an include path is made of: neither white space nor
    a quote. *)
Definition include_char (c : ascii) : bool :=
  negb (is_space c || Ascii.eqb c squote || Ascii.eqb c dquote).

(** A dictionary whose values are all [None] or strings. *)
Definition plain_value (v : pyval) : bool :=
  match v with
  | VNone | VStr _ => true
  | _ => false
  end.

Definition plain_dict (d : dict) : bool :=
  forallb (fun kv => plain_value (snd kv)) d.

(** The keys of the six canonical fields. *)
Definition field_keys : list string :=
  ["arch"; "cpu"; "cross_tool"; "platform"; "exec_path"; "build"].

(** The last character of [s] satisfies [p]. *)
Fixpoint ends_with_char (p : ascii -> bool) (s : string) : bool :=
  match s with
  | EmptyString => false
  | String c EmptyString => p c
  | String _ s' => ends_with_char p s'
  end.

(** The characters that the cleaning of a flag value strips. *)
Definition flag_strip_char (c : ascii) : bool := mem_char c flag_strip_chars.

(** What [_extract_from_ast] records for an assigned expression: its
    literal value, or its source text when it is not a literal. *)
Definition recorded (unparse : expr -> string) (e : expr) : pyval :=
  match literal_eval e with
  | Ok v => v
  | Raise _ => VStr (unparse e)
  end.

(** The values that have no method [lower]. *)
Definition lacks_lower (v : pyval) : bool :=
  match v with
  | VBool _ | VInt _ | VTuple _ | VList _ | VSet _ | VDict _ => true
  | VNone | VStr _ => false
  end.

(** The entries that the report renders are [None] or strings. *)
Definition shown_keys : list string :=
  ["original_file"; "arch"; "cpu"; "cross_tool"; "build"; "linker_script"].

Definition shown_plain (r : analysis) : bool :=
  forallb (fun k => plain_value (dict_get (scalars r) k (VStr ""))) shown_keys.

(** The entries of one flag kind. *)
Definition entries_of_kind (kind : string) (l : list config) : list config :=
  filter (fun c => String.eqb (flag c) kind) l.

(** The paths [main] derives from the input path, and the world a run
    ends in. *)
Definition logs_dir_of (input_file : path) : path :=
  (parent input_file ++ ["migration_logs"])%list.

Definition backup_of (stem_of : string -> string) (file_stamp : string)
           (input_file : path) : path :=
  (logs_dir_of input_file
   ++ [(stem_of (name input_file) ++ "." ++ file_stamp ++ ".backup.py")%string])%list.

Definition report_of (stem_of : string -> string) (file_stamp : string)
           (input_file : path) : path :=
  (logs_dir_of input_file
   ++ [(stem_of (name input_file) ++ "." ++ file_stamp
        ++ ".migration_report.txt")%string])%list.

(** [text] is what [generate] returns for the analysis of [original],
    with [original_file] set as [main] sets it. *)
Definition generated_from (ast_parse : string -> pyresult node)
           (unparse : expr -> string) (py_repr : pyval -> string)
           (path_name : string -> string) (timestamp : string)
           (input_file : path) (original text : string) : Prop :=
  exists path_exists a r,
    analyze ast_parse unparse path_exists (new_analyzer original) = Ok (a, r)
    /\ generate py_repr path_name timestamp a
         (set_scalar "original_file" (VStr (path_str input_file)) r) = Ok text.

(** [(self.file_path.parent / rel).exists()] on the file system [fs]. *)
Definition probe (fs : filesystem) (dir : path) (rel : string) : bool :=
  match fs (under dir rel) with
  | Some _ => true
  | None => false
  end.


Definition final_world {A : Type} (res : io_result A) : world :=
  match res with
  | Next _ w => w
  | Stop _ w => w
  end.

Definition completed {A : Type} (res : io_result A) : bool :=
  match res with
  | Next _ _ => true
  | Stop _ _ => false
  end.

End Props.

(* ------------------------------------------------------------------ *)
(** ** Inputs of the examples *)

Module Examples.
Import PyStr Py Ast Re Analyzer Generator Main Props.
Local Open Scope string_scope.

Definition line (s : string) : string := s ++ chr nl.

(** [x = {[1]: 2}]: a dictionary display whose key is a list. *)
Definition unhashable_key_text : string := "x = {[1]: 2}".

Definition unhashable_key_tree : node :=
  Node [ Assign [EName "x"]
                (EDict [Some (EList [Constant (VInt 1)])] [Constant (VInt 2)]) ].

(** The empty source: no assignment at all. *)
Definition empty_tree : node := Node [].

(** [ARCH = 'arm'] followed by [ARCH = 'riscv']. *)
Definition reassigned_tree : node :=
  Node [ Assign [EName "ARCH"] (Constant (VStr "arm"));
         Assign [EName "ARCH"] (Constant (VStr "riscv")) ].

(** [Arch = 'arm']: the name differs from both aliases by case only. *)
Definition mixed_case_tree : node :=
  Node [ Assign [EName "Arch"] (Constant (VStr "arm")) ].

(** The source texts of the two trees. *)
Definition reassigned_text : string := line "ARCH = 'arm'" ++ line "ARCH = 'riscv'".

Definition mixed_case_text : string := line "Arch = 'arm'".

(** Two assignments of the compile flags, each with a banned keyword. *)
Definition two_cflags_text : string :=
  line "CFLAGS = '--no_cse'" ++ line "X = 1" ++ line "CFLAGS += '--strict'".

(** The scenario: [ARCH], [CPU] and [CFLAGS], no build type. *)
Definition scenario_flags : string := "--no_inline -Dgcc -DUSE_HAL -Iinc".

Definition scenario_text : string :=
  line "ARCH='arm'" ++ line "CPU='cortex-m4'"
  ++ line ("CFLAGS=" ++ chr dquote ++ scenario_flags ++ chr dquote).

Definition scenario_tree : node :=
  Node [ Assign [EName "ARCH"] (Constant (VStr "arm"));
         Assign [EName "CPU"] (Constant (VStr "cortex-m4"));
         Assign [EName "CFLAGS"] (Constant (VStr scenario_flags)) ].

Definition scenario_entry : config :=
  {| flag := "CFLAGS"; value := scenario_flags; unsupported_keyword := "--no_inline" |}.

(** A run on a directory holding the scenario as its [rtconfig.py]. *)
Definition demo_input : path := ["bsp"; "rtconfig.py"].

Definition demo_files : filesystem :=
  fun p => if path_eqb p demo_input then Some scenario_text else None.

Definition demo_run : io_result unit :=
  run (fun _ _ => true) (fun _ _ => OSError) (fun _ => Missing) (fun _ _ => "")
      (Answered true) "20240101_000000" (fun _ => "rtconfig")
      (fun _ => Ok scenario_tree) (fun _ => "") (fun _ => "") (fun s => s)
      "2024-01-01 00:00:00" [OptForce] [demo_input] demo_files.


Definition demo_backup : path :=
  backup_of (fun _ => "rtconfig") "20240101_000000" demo_input.

(** A run on a directory whose [rtconfig.py] is the dictionary display
    with a list as key. *)
Definition crash_files : filesystem :=
  fun p => if path_eqb p demo_input then Some unhashable_key_text else None.

Definition crash_run : io_result unit :=
  run (fun _ _ => true) (fun _ _ => OSError) (fun _ => Missing) (fun _ _ => "")
      (Answered true) "20240101_000000" (fun _ => "rtconfig")
      (fun _ => Ok unhashable_key_tree) (fun _ => "") (fun _ => "") (fun s => s)
      "2024-01-01 00:00:00" [OptForce] [demo_input] crash_files.

Definition demo_report : path :=
  report_of (fun _ => "rtconfig") "20240101_000000" demo_input.

(** The analysis of the scenario, with [original_file] set as [main]
    sets it. *)
Definition scenario_analysed : analyzer * analysis :=
  match analyze (fun _ => Ok scenario_tree) (fun _ => "") (fun _ => false)
                (new_analyzer scenario_text) with
  | Ok (a, r) => (a, set_scalar "original_file" (VStr "bsp/rtconfig.py") r)
  | Raise _ => (new_analyzer scenario_text, initial_result)
  end.

End Examples.

(* ------------------------------------------------------------------ *)
(** ** Strings, lists and dictionaries *)

Import PyStr Py Ast Re Analyzer Generator Report Main Props Examples.
Local Open Scope string_scope.

Lemma append_empty_r (s : string) : s ++ "" = s.
Proof. induction s as [|c s IH]; simpl; [reflexivity | now rewrite IH]. Qed.

Lemma append_assoc (s t u : string) : (s ++ t) ++ u = s ++ t ++ u.
Proof. induction s as [|c s IH]; simpl; [reflexivity | now rewrite IH]. Qed.

Lemma append_inv_head (s t u : string) : s ++ t = s ++ u -> t = u.
Proof.
  induction s as [|c s IH]; simpl; intros H; [exact H|].
  injection H as H. now apply IH.
Qed.

Lemma length_append (s t : string) : length (s ++ t) = length s + length t.
Proof. induction s as [|c s IH]; simpl; [reflexivity | now rewrite IH]. Qed.

Lemma prefix_append (k s : string) : prefix k (k ++ s) = true.
Proof.
  induction k as [|c k IH]; simpl.
  - now destruct s.
  - destruct (ascii_dec c c) as [_|N]; [exact IH | now destruct N].
Qed.

Lemma prefix_split (k s : string) : prefix k s = true -> exists t, s = k ++ t.
Proof.
  revert s. induction k as [|c k IH]; intros s H.
  - now exists s.
  - destruct s as [|d s]; simpl in H; [discriminate|].
    destruct (ascii_dec c d) as [->|]; [|discriminate].
    destruct (IH _ H) as [t ->]. now exists t.
Qed.

(** [contains] is the substring test. *)
Lemma contains_occurs (k v : string) : contains k v = true <-> occurs_in k v.
Proof.
  split.
  - induction v as [|c v IH]; cbn [contains]; intros H.
    + rewrite orb_false_r in H. destruct (prefix_split _ _ H) as [t Ht].
      exists "", t. exact Ht.
    + apply orb_true_iff in H as [H|H].
      * destruct (prefix_split _ _ H) as [t Ht]. exists "", t. exact Ht.
      * destruct (IH H) as (b & a & ->). now exists (String c b), a.
  - intros (b & a & ->). induction b as [|c b IH].
    + change ("" ++ k ++ a) with (k ++ a).
      destruct (k ++ a) eqn:E; cbn [contains]; rewrite <- E, prefix_append; reflexivity.
    + change (String c b ++ k ++ a) with (String c (b ++ k ++ a)).
      cbn [contains]. rewrite IH. apply orb_true_r.
Qed.

Lemma contains_suffix (k v : string) : contains k (v ++ k) = true.
Proof. apply contains_occurs. exists v, "". now rewrite append_empty_r. Qed.

Lemma join_snoc (sep x : string) (l : list string) :
  l <> [] -> join sep (l ++ [x]) = join sep l ++ sep ++ x.
Proof.
  unfold join. induction l as [|y l IH]; intros N; [now destruct N|].
  destruct l as [|z l].
  - reflexivity.
  - change (concat sep ((y :: z :: l) ++ [x]))
      with (y ++ sep ++ concat sep ((z :: l) ++ [x])).
    rewrite IH by discriminate.
    change (concat sep (y :: z :: l)) with (y ++ sep ++ concat sep (z :: l)).
    now rewrite !append_assoc.
Qed.

Lemma in_has_line (l : string) (lines : list string) :
  In l lines -> has_line l (join (chr nl) lines).
Proof.
  intros H. destruct (in_split _ _ H) as (above & below & ->).
  now exists above, below.
Qed.

Lemma dict_lookup_set_other (k k' : string) (v : pyval) (d : dict) :
  k <> k' -> dict_lookup k' (dict_set k v d) = dict_lookup k' d.
Proof.
  intros N. induction d as [|[k0 v0] d IH]; simpl.
  - destruct (String.eqb_spec k' k); [congruence | reflexivity].
  - destruct (String.eqb_spec k k0) as [->|]; simpl.
    + destruct (String.eqb_spec k' k0); [congruence | reflexivity].
    + destruct (String.eqb_spec k' k0); [reflexivity | exact IH].
Qed.

Lemma dict_lookup_set_same (k : string) (v : pyval) (d : dict) :
  dict_lookup k (dict_set k v d) = Some v.
Proof.
  induction d as [|[k0 v0] d IH]; simpl.
  - now rewrite String.eqb_refl.
  - destruct (String.eqb_spec k k0) as [->|N]; simpl.
    + now rewrite String.eqb_refl.
    + destruct (String.eqb_spec k k0); [congruence | exact IH].
Qed.

Lemma dict_get_set_other (k k' : string) (v default : pyval) (d : dict) :
  k <> k' -> dict_get (dict_set k v d) k' default = dict_get d k' default.
Proof. intros N. unfold dict_get. now rewrite dict_lookup_set_other. Qed.

(* ------------------------------------------------------------------ *)
(** ** The flag classifier *)

Lemma find_first_some {A : Type} (f : A -> bool) (l : list A) (x : A) :
  In x l -> f x = true -> exists y, List.find f l = Some y.
Proof.
  intros Hin Hf. destruct (List.find f l) as [y|] eqn:E.
  - now exists y.
  - now rewrite (find_none f l E x Hin) in Hf.
Qed.

(** C7. The classifier reports no keyword for a flag value in which no
    banned keyword occurs, and it reports a banned keyword occurring in
    the value once any banned keyword is appended to such a value. *)
Theorem classifier_monotonic (v : string) :
  (forall k, In k unsupported_gcc_keywords -> ~ occurs_in k v) ->
  first_unsupported v = None /\
  forall k, In k unsupported_gcc_keywords ->
    exists k', first_unsupported (v ++ k) = Some k'
               /\ In k' unsupported_gcc_keywords /\ occurs_in k' (v ++ k).
Proof.
  intros clean. split.
  - unfold first_unsupported.
    destruct (List.find _ unsupported_gcc_keywords) as [k|] eqn:E; [|reflexivity].
    apply find_some in E as [Hin Hc].
    apply contains_occurs in Hc. now destruct (clean k Hin).
  - intros k Hin. unfold first_unsupported.
    destruct (find_first_some (fun keyword => contains keyword (v ++ k))
                unsupported_gcc_keywords k Hin (contains_suffix k v)) as [k' E].
    exists k'. split; [exact E|].
    apply find_some in E as [Hin' Hc]. split; [exact Hin'|].
    now apply contains_occurs.
Qed.

Lemma classifier_monotonic_witness :
  first_unsupported "-O2 -Wall" = None /\
  forall k, In k unsupported_gcc_keywords ->
    exists k', first_unsupported ("-O2 -Wall" ++ k) = Some k'
               /\ In k' unsupported_gcc_keywords /\ occurs_in k' ("-O2 -Wall" ++ k).
Proof.
  apply (classifier_monotonic "-O2 -Wall").
  intros k Hin Hocc. apply contains_occurs in Hocc.
  unfold unsupported_gcc_keywords in Hin. simpl in Hin.
  repeat (destruct Hin as [<-|Hin]; [vm_compute in Hocc; discriminate|]).
  exact Hin.
Defined.

(* ------------------------------------------------------------------ *)
(** ** The generator *)

Section GeneratorFacts.
Variable py_repr : pyval -> string.
Variable path_name : string -> string.
Variable timestamp : string.

(** A renderable analysis is rendered: no step of [generate] raises. *)
Lemma generated_lines_ok (a : analyzer) (r : analysis) :
  renderable r = true ->
  exists header toolchain gcc,
    generated_lines py_repr path_name timestamp a r
    = Ok (header ++ ["import os"; ""] ++ add_basic_config py_repr r
          ++ toolchain ++ gcc ++ dist_handle_block a)%list.
Proof.
  unfold renderable. intros H. apply andb_true_iff in H as [Hcpu Hfile].
  unfold generated_lines, add_header, add_toolchain_config, add_gcc_config,
    determine_fpu.
  rewrite Hcpu.
  destruct (dict_get (scalars r) "original_file" (VStr "")); try discriminate.
  cbn [bind]. eauto.
Qed.

Lemma generate_ok (a : analyzer) (r : analysis) :
  renderable r = true ->
  exists lines,
    generated_lines py_repr path_name timestamp a r = Ok lines
    /\ generate py_repr path_name timestamp a r = Ok (join (chr nl) lines).
Proof.
  intros H. destruct (generated_lines_ok a r H) as (h & t & g & E).
  unfold generate. rewrite E. cbn [bind]. eauto.
Qed.

(** [generate] does not read the [cross_tool] entry. *)
Lemma generate_ignores_cross_tool (a : analyzer) (r : analysis) (v : pyval) :
  generate py_repr path_name timestamp a (set_scalar "cross_tool" v r)
  = generate py_repr path_name timestamp a r.
Proof.
  unfold generate, generated_lines, add_header, add_basic_config,
    add_toolchain_config, add_gcc_config, generate_safe_cflags_fixed, set_scalar.
  cbn [scalars unsupported_configs defines includes].
  rewrite !dict_get_set_other by discriminate.
  reflexivity.
Qed.

(** An analysis whose [cpu] is [None] or a string, and whose
    [original_file] is a string or missing, is renderable. *)
Lemma optional_string_fields_renderable (r : analysis) :
  (dict_lookup "cpu" (scalars r) = None
   \/ dict_lookup "cpu" (scalars r) = Some VNone
   \/ exists s, dict_lookup "cpu" (scalars r) = Some (VStr s)) ->
  (dict_lookup "original_file" (scalars r) = None
   \/ exists s, dict_lookup "original_file" (scalars r) = Some (VStr s)) ->
  renderable r = true.
Proof.
  unfold renderable, dict_get.
  intros [-> | [-> | [s ->]]] [-> | [s' ->]]; reflexivity.
Qed.

(** C6. When the preserved handler code is not empty, the generated
    text ends with a newline followed by that code, character for
    character. *)
Theorem handler_round_trip (a : analyzer) (r : analysis) :
  dist_handle_code a <> "" ->
  renderable r = true ->
  exists text before,
    generate py_repr path_name timestamp a r = Ok text
    /\ text = before ++ chr nl ++ dist_handle_code a.
Proof.
  intros Hcode Hr.
  destruct (generated_lines_ok a r Hr) as (h & t & g & E).
  unfold generate. rewrite E. cbn [bind].
  unfold dist_handle_block.
  destruct (dist_handle_code a) as [|c code] eqn:Ecode; [now destruct Hcode|].
  cbn [is_empty].
  set (block := String c code).
  set (body := (h ++ ["import os"; ""] ++ add_basic_config py_repr r ++ t ++ g
                ++ [""; rule; "# 发布处理函数 (从原始文件保留)"; rule])%list).
  exists (join (chr nl) (body ++ [block])), (join (chr nl) body).
  split.
  - f_equal. f_equal. unfold body.
    repeat rewrite <- app_assoc. reflexivity.
  - apply join_snoc. unfold body. intros N.
    apply app_eq_nil in N as [_ N]. discriminate N.
Qed.

(** The report is where the [cross_tool] entry is read. *)
Lemma report_reads_cross_tool (r : analysis) (v : pyval) :
  In ("原始编译器: " ++ py_str py_repr v)
     (basic_lines py_repr (set_scalar "cross_tool" v r)).
Proof.
  unfold basic_lines, show, set_scalar, dict_get. cbn [scalars].
  rewrite dict_lookup_set_same. do 9 right. left. reflexivity.
Qed.

(** C10. Whatever value the [cross_tool] entry holds, the generated
    text is the same, and it has the line [CROSS_TOOL = 'gcc']. *)
Theorem cross_tool_always_gcc (a : analyzer) (r : analysis) (v : pyval) :
  renderable r = true ->
  exists text,
    generate py_repr path_name timestamp a (set_scalar "cross_tool" v r) = Ok text
    /\ generate py_repr path_name timestamp a r = Ok text
    /\ has_line "CROSS_TOOL = 'gcc'" text.
Proof.
  intros Hr. rewrite generate_ignores_cross_tool.
  destruct (generated_lines_ok a r Hr) as (h & t & g & E).
  unfold generate. rewrite E. cbn [bind].
  eexists. split; [reflexivity|]. split; [reflexivity|].
  apply in_has_line.
  apply in_or_app. right. apply in_or_app. right.
  apply in_or_app. left.
  unfold add_basic_config. do 5 right. left. reflexivity.
Qed.
End GeneratorFacts.

(** An analyzer that kept a handler and an analysis as [analyze] leaves it
    when the source assigns nothing. *)
Lemma handler_round_trip_witness :
  exists text before,
    generate (fun _ => "") (fun s => s) "2024-01-01 00:00:00"
      {| content := "def dist_handle(BSP_ROOT, dist_dir):";
         parsed_successfully := true;
         dist_handle_code := "def dist_handle(BSP_ROOT, dist_dir):";
         link_script_path := None;
         all_defines := [];
         all_includes := [] |}
      initial_result = Ok text
    /\ text = before ++ chr nl ++ "def dist_handle(BSP_ROOT, dist_dir):".
Proof.
  apply (handler_round_trip (fun _ => "") (fun s => s) "2024-01-01 00:00:00"
           {| content := "def dist_handle(BSP_ROOT, dist_dir):";
              parsed_successfully := true;
              dist_handle_code := "def dist_handle(BSP_ROOT, dist_dir):";
              link_script_path := None;
              all_defines := [];
              all_includes := [] |}
           initial_result).
  - discriminate.
  - reflexivity.
Defined.

Lemma cross_tool_always_gcc_witness :
  exists text,
    generate (fun _ => "") (fun s => s) "2024-01-01 00:00:00" (new_analyzer "")
      (set_scalar "cross_tool" (VStr "keil") initial_result) = Ok text
    /\ generate (fun _ => "") (fun s => s) "2024-01-01 00:00:00" (new_analyzer "")
         initial_result = Ok text
    /\ has_line "CROSS_TOOL = 'gcc'" text.
Proof.
  apply (cross_tool_always_gcc (fun _ => "") (fun s => s) "2024-01-01 00:00:00"
           (new_analyzer "") initial_result (VStr "keil")).
  reflexivity.
Defined.

(* ------------------------------------------------------------------ *)
(** ** The defaults of the generator and the exceptions of the analyzer *)

(** C3. On the empty source the analysis holds [None] under [arch], the
    default of [analysis.get('arch', 'arm')] is not taken, and the
    architecture line of the generated text is [ARCH = 'None']; the
    build line is [BUILD = 'debug']. *)
Theorem unset_arch_renders_None
        (unparse : expr -> string) (path_exists : string -> bool)
        (py_repr : pyval -> string) (path_name : string -> string)
        (timestamp : string) :
  exists a r lines,
    analyze (fun _ => Ok empty_tree) unparse path_exists (new_analyzer "") = Ok (a, r)
    /\ dict_lookup "arch" (scalars r) = Some VNone
    /\ generated_lines py_repr path_name timestamp a r = Ok lines
    /\ nth_error lines 13 = Some "ARCH = 'None'"
    /\ nth_error lines 45 = Some "BUILD = 'debug'".
Proof.
  eexists. eexists. eexists.
  split; [vm_compute; reflexivity|].
  split; [reflexivity|].
  split; [vm_compute; reflexivity|].
  split; reflexivity.
Qed.

(** C4. [analyze] raises [TypeError] on the source [x = {[1]: 2}]: the
    source parses, [literal_eval] fails to hash the list key, and neither
    [except] clause names [TypeError]. *)
Theorem analyze_raises_type_error
        (unparse : expr -> string) (path_exists : string -> bool) :
  literal_eval (EDict [Some (EList [Constant (VInt 1)])] [Constant (VInt 2)])
  = Raise TypeError
  /\ analyze (fun _ => Ok unhashable_key_tree) unparse path_exists
       (new_analyzer unhashable_key_text) = Raise TypeError.
Proof. split; vm_compute; reflexivity. Qed.

(* ------------------------------------------------------------------ *)
(** ** The cortex-m4 scenario *)
Lemma generate_of_lines (py_repr : pyval -> string) (path_name : string -> string)
      (timestamp : string) (a : analyzer) (r : analysis) (lines : list string) :
  generated_lines py_repr path_name timestamp a r = Ok lines ->
  generate py_repr path_name timestamp a r = Ok (join (chr nl) lines).
Proof. intros E. unfold generate. now rewrite E. Qed.

Lemma nth_has_line (lines : list string) (n : nat) (l : string) :
  nth_error lines n = Some l -> has_line l (join (chr nl) lines).
Proof. intros E. apply in_has_line. exact (nth_error_In lines n E). Qed.

(** C8. For the source declaring [ARCH='arm'], [CPU='cortex-m4'] and
    [CFLAGS] with [--no_inline -Dgcc -DUSE_HAL -Iinc], and no build type:
    the analysis has the single unsupported entry of [--no_inline]; the
    generated text has the device line with [-mfpu=fpv4-sp-d16] and
    [-mfloat-abi=hard], the compile-flag line with [-DUSE_HAL] and
    [-Iinc], the line [BUILD = 'debug'] and, under [if BUILD == 'debug':],
    the line appending [-O0 -gdwarf-2 -g] to the compile flags. *)
Theorem scenario_cortex_m4
        (ast_parse : string -> pyresult node) (unparse : expr -> string)
        (path_exists : string -> bool) (py_repr : pyval -> string)
        (path_name : string -> string) (timestamp : string) :
  ast_parse scenario_text = Ok scenario_tree ->
  exists a r text,
    analyze ast_parse unparse path_exists (new_analyzer scenario_text) = Ok (a, r)
    /\ unsupported_configs r = [scenario_entry]
    /\ generate py_repr path_name timestamp a r = Ok text
    /\ has_line "    DEVICE = ' -mcpu=cortex-m4 -mthumb -mfpu=fpv4-sp-d16 -mfloat-abi=hard -ffunction-sections -fdata-sections'" text
    /\ has_line "    CFLAGS = DEVICE + ' -Dgcc -DUSE_HAL -Iinc'" text
    /\ has_line "BUILD = 'debug'" text
    /\ has_line "    if BUILD == 'debug':" text
    /\ has_line "        CFLAGS += ' -O0 -gdwarf-2 -g'" text.
Proof.
  intros Hparse.
  assert (E : exists a r lines,
             analyze ast_parse unparse path_exists (new_analyzer scenario_text) = Ok (a, r)
             /\ unsupported_configs r = [scenario_entry]
             /\ generated_lines py_repr path_name timestamp a r = Ok lines
             /\ nth_error lines 64 = Some "    DEVICE = ' -mcpu=cortex-m4 -mthumb -mfpu=fpv4-sp-d16 -mfloat-abi=hard -ffunction-sections -fdata-sections'"
             /\ nth_error lines 65 = Some "    CFLAGS = DEVICE + ' -Dgcc -DUSE_HAL -Iinc'"
             /\ nth_error lines 45 = Some "BUILD = 'debug'"
             /\ nth_error lines 71 = Some "    if BUILD == 'debug':"
             /\ nth_error lines 72 = Some "        CFLAGS += ' -O0 -gdwarf-2 -g'").
  { eexists. eexists. eexists. split.
    - unfold analyze, extract_fields.
      change (content (extract_link_script path_exists
                         (extract_dist_handle (new_analyzer scenario_text))))
        with scenario_text.
      rewrite Hparse. vm_compute. reflexivity.
    - split; [reflexivity|].
      split; [vm_compute; reflexivity|].
      repeat (split; [reflexivity|]). reflexivity. }
  destruct E as (a & r & lines & Ha & Hu & Hl & H1 & H2 & H3 & H4 & H5).
  exists a, r, (join (chr nl) lines).
  split; [exact Ha|]. split; [exact Hu|].
  split; [now apply generate_of_lines|].
  repeat split; eapply nth_has_line; eassumption.
Qed.

Lemma scenario_cortex_m4_witness :
  exists a r text,
    analyze (fun _ => Ok scenario_tree) (fun _ => "") (fun _ => false)
      (new_analyzer scenario_text) = Ok (a, r)
    /\ unsupported_configs r = [scenario_entry]
    /\ generate (fun _ => "") (fun s => s) "2024-01-01 00:00:00" a r = Ok text
    /\ has_line "    DEVICE = ' -mcpu=cortex-m4 -mthumb -mfpu=fpv4-sp-d16 -mfloat-abi=hard -ffunction-sections -fdata-sections'" text
    /\ has_line "    CFLAGS = DEVICE + ' -Dgcc -DUSE_HAL -Iinc'" text
    /\ has_line "BUILD = 'debug'" text
    /\ has_line "    if BUILD == 'debug':" text
    /\ has_line "        CFLAGS += ' -O0 -gdwarf-2 -g'" text.
Proof.
  apply (scenario_cortex_m4 (fun _ => Ok scenario_tree) (fun _ => "") (fun _ => false)
           (fun _ => "") (fun s => s) "2024-01-01 00:00:00").
  reflexivity.
Defined.

(* ------------------------------------------------------------------ *)
(** ** The canonical fields read from the syntax tree *)

Lemma bind_ok_inv {A B : Type} (m : pyresult A) (k : A -> pyresult B) (b : B) :
  bind m k = Ok b -> exists x, m = Ok x /\ k x = Ok b.
Proof. destruct m as [x|e]; simpl; intros H; [now exists x | discriminate]. Qed.

Section AstFacts.
Variable unparse : expr -> string.

Lemma extract_bindings_app (l1 l2 : list (string * expr)) (r : analysis) :
  extract_bindings unparse (l1 ++ l2) r
  = bind (extract_bindings unparse l1 r) (extract_bindings unparse l2).
Proof.
  revert r. induction l1 as [|[n e] l1 IH]; intros r; [reflexivity|].
  cbn [extract_bindings app].
  destruct (extract_target unparse (EName n) e r) as [r'|err]; cbn [bind];
    [apply IH | reflexivity].
Qed.

Lemma extract_targets_bindings (targets : list expr) (value : expr) (r : analysis) :
  extract_targets unparse targets value r
  = extract_bindings unparse (name_targets (Assign targets value)) r.
Proof.
  revert r. induction targets as [|t ts IH]; intros r; [reflexivity|].
  cbn [extract_targets name_targets flat_map] in *.
  rewrite extract_bindings_app.
  destruct t; cbn [extract_target extract_bindings bind app]; try apply IH.
  destruct (match literal_eval value with
            | Ok var_value => _
            | Raise e => _
            end) as [r'|err]; cbn [bind]; [apply IH | reflexivity].
Qed.

Lemma extract_nodes_bindings (l : list node) (r : analysis) :
  extract_nodes unparse l r = extract_bindings unparse (flat_map name_targets l) r.
Proof.
  revert r. induction l as [|n l IH]; intros r; [reflexivity|].
  cbn [extract_nodes flat_map]. rewrite extract_bindings_app.
  destruct n as [targets value | children].
  - cbn [extract_node]. rewrite extract_targets_bindings.
    destruct (extract_bindings unparse (name_targets (Assign targets value)) r);
      cbn [bind]; [apply IH | reflexivity].
  - cbn [extract_node name_targets extract_bindings bind]. apply IH.
Qed.

Lemma extract_from_ast_bindings (tree : node) (r : analysis) :
  extract_from_ast unparse tree r = extract_bindings unparse (assignments tree) r.
Proof. apply extract_nodes_bindings. Qed.

(** The chain of tests writes the entry whose names contain the variable
    name, and no other canonical entry. *)
Lemma collect_key_hit (key name : string) (aliases : list string) (v : pyval)
      (r : analysis) :
  In (key, aliases) canonical_fields ->
  among name aliases = true ->
  collect_key name v r = set_scalar key v r.
Proof.
  intros Hin Ha. unfold canonical_fields in Hin. simpl in Hin.
  repeat (destruct Hin as [Hin|Hin];
          [ injection Hin as <- <-; unfold among in Ha; simpl in Ha;
            repeat (apply orb_true_iff in Ha as [Ha|Ha];
                    [apply String.eqb_eq in Ha; subst name; reflexivity|]);
            discriminate Ha |]).
  destruct Hin.
Qed.

Lemma collect_key_miss (key name : string) (aliases : list string) (v : pyval)
      (r : analysis) :
  In (key, aliases) canonical_fields ->
  among name aliases = false ->
  dict_lookup key (scalars (collect_key name v r)) = dict_lookup key (scalars r).
Proof.
  intros Hin Ha. unfold collect_key, among. cbn [existsb].
  repeat match goal with
         | |- context [String.eqb name ?s] =>
             destruct (String.eqb_spec name s) as [->|?]
         end;
    cbn [orb];
    unfold canonical_fields in Hin; simpl in Hin;
    repeat (destruct Hin as [Hin|Hin];
            [ injection Hin as <- <-;
              first [ discriminate Ha
                    | reflexivity
                    | (unfold set_scalar; cbn [scalars];
                       apply dict_lookup_set_other; discriminate)
                    | (exfalso; unfold among in Ha; simpl in Ha;
                       repeat match goal with
                              | N : name <> ?s |- _ =>
                                  apply String.eqb_neq in N; rewrite N in Ha; clear N
                              end;
                       discriminate Ha) ] |]);
    destruct Hin.
Qed.
End AstFacts.

Section FieldFacts.
Variable unparse : expr -> string.
Variables (key : string) (aliases : list string).
Hypothesis canonical : In (key, aliases) canonical_fields.

Lemma binding_step_hit (name : string) (e : expr) (v : pyval) (r r' : analysis) :
  among name aliases = true ->
  literal_eval e = Ok v ->
  extract_target unparse (EName name) e r = Ok r' ->
  dict_lookup key (scalars r') = Some v.
Proof.
  intros Ha Hv H. unfold extract_target in H. rewrite Hv in H.
  injection H as <-. rewrite (collect_key_hit key name aliases v _ canonical Ha).
  unfold set_scalar. cbn [scalars]. apply dict_lookup_set_same.
Qed.

Lemma binding_step_miss (name : string) (e : expr) (r r' : analysis) :
  (among name aliases = true -> exists err, literal_eval e = Raise err) ->
  extract_target unparse (EName name) e r = Ok r' ->
  dict_lookup key (scalars r') = dict_lookup key (scalars r).
Proof.
  intros Hmiss H. unfold extract_target in H.
  destruct (literal_eval e) as [v|err] eqn:Ev.
  - injection H as <-.
    destruct (among name aliases) eqn:Ha.
    + destruct (Hmiss eq_refl) as [err Herr]. discriminate Herr.
    + now rewrite (collect_key_miss key name aliases v _ canonical Ha).
  - destruct err; try discriminate H; injection H as <-; reflexivity.
Qed.

Lemma bindings_preserve (l : list (string * expr)) (r r' : analysis) :
  (forall n e, In (n, e) l -> among n aliases = true ->
               exists err, literal_eval e = Raise err) ->
  extract_bindings unparse l r = Ok r' ->
  dict_lookup key (scalars r') = dict_lookup key (scalars r).
Proof.
  revert r. induction l as [|[n e] l IH]; intros r Hmiss H.
  - injection H as <-. reflexivity.
  - cbn [extract_bindings] in H. apply bind_ok_inv in H as (r1 & H1 & H2).
    rewrite (IH r1); [|intros n' e' Hin; apply Hmiss; now right | exact H2].
    apply (binding_step_miss n e); [apply Hmiss; now left | exact H1].
Qed.

(** An entry none of whose names is assigned a literal keeps the value
    it had. *)
Lemma unassigned_field_keeps_value (tree : node) (r0 r : analysis) :
  extract_from_ast unparse tree r0 = Ok r ->
  (forall n e, In (n, e) (assignments tree) -> among n aliases = true ->
               exists err, literal_eval e = Raise err) ->
  dict_lookup key (scalars r) = dict_lookup key (scalars r0).
Proof.
  rewrite extract_from_ast_bindings. intros H Hnone.
  exact (bindings_preserve _ r0 r Hnone H).
Qed.

(** What the loop does with repeated assignments.  For each canonical
    entry with the variable names the chain of tests has for it: when
    the walk finishes without an exception, the entry holds the literal
    value of the last assignment, in the order of [ast.walk], of a
    literal to one of these names. *)
Lemma last_assignment_wins (tree : node) (r0 r : analysis)
        (before after : list (string * expr)) (name : string) (e : expr) (v : pyval) :
  extract_from_ast unparse tree r0 = Ok r ->
  assignments tree = (before ++ (name, e) :: after)%list ->
  among name aliases = true ->
  literal_eval e = Ok v ->
  (forall n e', In (n, e') after -> among n aliases = true ->
                exists err, literal_eval e' = Raise err) ->
  dict_lookup key (scalars r) = Some v.
Proof.
  rewrite extract_from_ast_bindings. intros H Hsplit Ha Hv Hlater.
  rewrite Hsplit, extract_bindings_app in H.
  apply bind_ok_inv in H as (r1 & _ & H).
  cbn [extract_bindings] in H. apply bind_ok_inv in H as (r2 & H2 & H3).
  rewrite (bindings_preserve after r2 r Hlater H3).
  exact (binding_step_hit name e v r1 r2 Ha Hv H2).
Qed.
End FieldFacts.

(** C1. The structural strategy does not do what the claim says.  On a
    source that assigns [ARCH] twice, the analysis of the parsed text
    holds the value of the second assignment, where the claim has the
    first; on a source that assigns [Arch], a name that differs from the
    aliases by case only, it holds [None], where the claim has the
    value.  On both sources the pattern strategy, which searches once
    and ignores case, gives what the claim says. *)
Theorem structural_strategy_takes_last_definition
        (unparse : expr -> string) (path_exists : string -> bool) :
  (exists a r,
      analyze (fun _ => Ok reassigned_tree) unparse path_exists
              (new_analyzer reassigned_text) = Ok (a, r)
      /\ parsed_successfully a = true
      /\ spec_first_definition ["ARCH"; "arch"] reassigned_tree = Some (VStr "arm")
      /\ dict_lookup "arch" (scalars r) = Some (VStr "riscv")
      /\ dict_lookup "arch" (scalars (extract_with_regex reassigned_text initial_result))
         = Some (VStr "arm"))
  /\ (exists a r,
         analyze (fun _ => Ok mixed_case_tree) unparse path_exists
                 (new_analyzer mixed_case_text) = Ok (a, r)
         /\ parsed_successfully a = true
         /\ spec_first_definition ["ARCH"; "arch"] mixed_case_tree = Some (VStr "arm")
         /\ dict_lookup "arch" (scalars r) = Some VNone
         /\ dict_lookup "arch" (scalars (extract_with_regex mixed_case_text initial_result))
            = Some (VStr "arm")).
Proof.
  split; eexists; eexists; (split; [vm_compute; reflexivity|]);
    repeat split; vm_compute; reflexivity.
Qed.

(* ------------------------------------------------------------------ *)
(** ** The unsupported entries *)

Lemma find_first_split {A : Type} (f : A -> bool) (l : list A) (x : A) :
  List.find f l = Some x ->
  exists earlier later,
    l = (earlier ++ x :: later)%list /\ f x = true
    /\ forall y, In y earlier -> f y = false.
Proof.
  induction l as [|y l IH]; simpl; [discriminate|].
  destruct (f y) eqn:Ey; intros H.
  - injection H as <-. exists [], l. repeat split; [exact Ey | intros ? []].
  - destruct (IH H) as (earlier & later & -> & Hx & Hearlier).
    exists (y :: earlier), later. repeat split; [exact Hx|].
    intros z [<-|Hz]; [exact Ey | now apply Hearlier].
Qed.

Lemma filter_uniform {A : Type} (f : A -> bool) (b : bool) (l : list A) :
  (forall x, In x l -> f x = b) -> filter f l = if b then l else [].
Proof.
  induction l as [|x l IH]; intros H; simpl.
  - now destruct b.
  - rewrite (H x (or_introl eq_refl)), IH by (intros y Hy; apply H; now right).
    now destruct b.
Qed.

Lemma flag_entry_inv (kind m : string) (c : config) :
  In c (flag_entry kind m) ->
  flag c = kind /\ value c = clean_flag_value m
  /\ first_unsupported (value c) = Some (unsupported_keyword c).
Proof.
  unfold flag_entry.
  destruct (is_empty (clean_flag_value m)); [intros []|].
  destruct (first_unsupported (clean_flag_value m)) as [k|] eqn:E; [|intros []].
  intros [<-|[]]. cbn [flag value unsupported_keyword]. auto.
Qed.

Lemma flag_entry_length (kind m : string) : List.length (flag_entry kind m) <= 1.
Proof.
  unfold flag_entry.
  destruct (is_empty (clean_flag_value m)); [simpl; lia|].
  destruct (first_unsupported (clean_flag_value m)); simpl; lia.
Qed.

Lemma flat_map_length_le {A B : Type} (f : A -> list B) (l : list A) :
  (forall x, List.length (f x) <= 1) ->
  List.length (flat_map f l) <= List.length l.
Proof.
  intros H. induction l as [|x l IH]; simpl; [lia|].
  rewrite length_app. specialize (H x). lia.
Qed.

Lemma flag_entries_inv (text kind : string) (c : config) :
  In c (flag_entries text kind) ->
  exists m, In m (flag_matches kind text) /\ flag c = kind
            /\ value c = clean_flag_value m
            /\ first_unsupported (value c) = Some (unsupported_keyword c).
Proof.
  unfold flag_entries. intros H. apply in_flat_map in H as (m & Hm & Hc).
  exists m. split; [exact Hm|]. now apply flag_entry_inv.
Qed.

Lemma entries_of_kind_entries (text kind kind' : string) :
  entries_of_kind kind (flag_entries text kind')
  = if String.eqb kind' kind then flag_entries text kind' else [].
Proof.
  unfold entries_of_kind. apply filter_uniform.
  intros c Hc. destruct (flag_entries_inv _ _ _ Hc) as (_ & _ & -> & _).
  reflexivity.
Qed.

Lemma entries_of_kind_app (kind : string) (l1 l2 : list config) :
  entries_of_kind kind (l1 ++ l2)
  = (entries_of_kind kind l1 ++ entries_of_kind kind l2)%list.
Proof. apply filter_app. Qed.

Lemma entries_of_kind_unsupported (text kind : string) :
  In kind flag_names ->
  entries_of_kind kind (unsupported_of text) = flag_entries text kind.
Proof.
  intros Hk. unfold unsupported_of, flag_names in *. cbn [flat_map].
  rewrite !entries_of_kind_app, !entries_of_kind_entries.
  simpl in Hk.
  destruct Hk as [<-|[<-|[<-|[]]]]; cbn [String.eqb Ascii.eqb Bool.eqb];
    cbn; now rewrite ?app_nil_r.
Qed.

(** C2, as the code has it.  For each flag kind the analysis has at most
    one entry for each assignment of that kind the pattern finds, and the
    keyword of an entry is the first keyword of the banned list that
    occurs in the entry's value. *)
Theorem one_entry_per_flag_assignment (text kind : string) :
  In kind flag_names ->
  List.length (entries_of_kind kind (unsupported_of text))
  <= List.length (flag_matches kind text)
  /\ forall c, In c (entries_of_kind kind (unsupported_of text)) ->
       exists m earlier later,
         In m (flag_matches kind text)
         /\ value c = clean_flag_value m
         /\ unsupported_gcc_keywords = (earlier ++ unsupported_keyword c :: later)%list
         /\ occurs_in (unsupported_keyword c) (value c)
         /\ forall k, In k earlier -> ~ occurs_in k (value c).
Proof.
  intros Hk. rewrite (entries_of_kind_unsupported text kind Hk). split.
  - apply flat_map_length_le. intros m. apply flag_entry_length.
  - intros c Hc. destruct (flag_entries_inv _ _ _ Hc) as (m & Hm & _ & Hv & Hf).
    unfold first_unsupported in Hf.
    apply find_first_split in Hf as (earlier & later & Hsplit & Hocc & Hearlier).
    exists m, earlier, later. repeat split; try assumption.
    + now apply contains_occurs.
    + intros k Hin Hk'. apply contains_occurs in Hk'.
      rewrite (Hearlier k Hin) in Hk'. discriminate Hk'.
Qed.

Lemma one_entry_per_flag_assignment_witness :
  List.length (entries_of_kind "CFLAGS" (unsupported_of two_cflags_text))
  <= List.length (flag_matches "CFLAGS" two_cflags_text)
  /\ forall c, In c (entries_of_kind "CFLAGS" (unsupported_of two_cflags_text)) ->
       exists m earlier later,
         In m (flag_matches "CFLAGS" two_cflags_text)
         /\ value c = clean_flag_value m
         /\ unsupported_gcc_keywords = (earlier ++ unsupported_keyword c :: later)%list
         /\ occurs_in (unsupported_keyword c) (value c)
         /\ forall k, In k earlier -> ~ occurs_in k (value c).
Proof.
  apply (one_entry_per_flag_assignment two_cflags_text "CFLAGS").
  left. reflexivity.
Defined.

(** C2, as the claim has it, fails: a source that assigns the compile
    flags twice, each time with a banned keyword, gets two entries of the
    kind [CFLAGS]. *)
Lemma two_entries_for_one_kind :
  entries_of_kind "CFLAGS" (unsupported_of two_cflags_text)
  = [ {| flag := "CFLAGS"; value := "--no_cse"; unsupported_keyword := "--no_cse" |};
      {| flag := "CFLAGS"; value := "--strict"; unsupported_keyword := "--strict" |} ]
  /\ ~ List.length (entries_of_kind "CFLAGS" (unsupported_of two_cflags_text)) <= 1.
Proof.
  assert (E : entries_of_kind "CFLAGS" (unsupported_of two_cflags_text)
              = [ {| flag := "CFLAGS"; value := "--no_cse";
                     unsupported_keyword := "--no_cse" |};
                  {| flag := "CFLAGS"; value := "--strict";
                     unsupported_keyword := "--strict" |} ])
    by (vm_compute; reflexivity).
  split; [exact E|]. rewrite E. simpl. lia.
Qed.

(* ------------------------------------------------------------------ *)
(** ** The macro definitions *)

Lemma take_drop (n : nat) (s : string) : take n s ++ drop n s = s.
Proof.
  revert s. induction n as [|n IH]; intros [|c s]; simpl; try reflexivity.
  now rewrite IH.
Qed.

Lemma length_drop (n : nat) (s : string) : length (drop n s) = length s - n.
Proof.
  revert s. induction n as [|n IH]; intros [|c s]; simpl; try reflexivity.
  apply IH.
Qed.

Lemma span_le (p : ascii -> bool) (s : string) : span p s <= length s.
Proof. induction s as [|c s IH]; simpl; [lia|]. destruct (p c); simpl; lia. Qed.

Lemma all_chars_take_span (p : ascii -> bool) (s : string) :
  all_chars p (take (span p s) s) = true.
Proof.
  induction s as [|c s IH]; simpl; [reflexivity|].
  destruct (p c) eqn:E; simpl; [now rewrite E | reflexivity].
Qed.

Lemma span_all_chars (p : ascii -> bool) (w rest : string) :
  all_chars p w = true -> starts_with_char p rest = false ->
  span p (w ++ rest) = length w.
Proof.
  intros Hw Hrest. induction w as [|c w IH]; simpl in *.
  - destruct rest as [|d rest]; simpl in *; [reflexivity | now rewrite Hrest].
  - apply andb_true_iff in Hw as [Hc Hw]. rewrite Hc. now rewrite IH.
Qed.

Lemma take_length_append (w rest : string) : take (length w) (w ++ rest) = w.
Proof. induction w as [|c w IH]; simpl; [now destruct rest | now rewrite IH]. Qed.

Lemma all_chars_append (p : ascii -> bool) (s t : string) :
  all_chars p (s ++ t) = all_chars p s && all_chars p t.
Proof.
  induction s as [|c s IH]; simpl; [reflexivity|].
  now rewrite IH, andb_assoc.
Qed.

(** The two character sets of the define pattern are the word
    characters: the underscore and the digits are word characters. *)
Lemma first_define_char (c : ascii) :
  cset_match no_flags (CIn [CWord; CLit "_"]) c = is_word c.
Proof.
  destruct c as [[] [] [] [] [] [] [] []]; vm_compute; reflexivity.
Qed.

Lemma next_define_char (c : ascii) :
  cset_match no_flags (CIn [CWord; CDigit; CLit "_"]) c = is_word c.
Proof.
  destruct c as [[] [] [] [] [] [] [] []]; vm_compute; reflexivity.
Qed.

(** A greedy repetition followed by something that always matches takes
    the whole run. *)
Lemma rep_greedy_all {A : Type} (f : flags) (cs : cset) (s : string)
      (k : string -> option A) :
  (forall s', k s' <> None) ->
  rep_greedy f cs 0 s k = k (drop (span (cset_match f cs) s) s).
Proof.
  intros Hk. induction s as [|c s IH]; cbn [rep_greedy span drop]; [reflexivity|].
  destruct (cset_match f cs c); [|reflexivity].
  cbn [pred drop]. rewrite IH.
  destruct (k (drop (span (cset_match f cs) s) s)) eqn:E; [reflexivity|].
  now destruct (Hk _ E).
Qed.

(** What a match of the define pattern at the head of [s] is: [-D], a
    word character and the word characters that follow. *)
Lemma define_match_here (s : string) :
  match_here no_flags define_pattern s
  = match s with
    | String c0 (String c1 (String c2 t)) =>
        if Ascii.eqb c0 "-" && Ascii.eqb c1 "D" && is_word c2
        then Some (3 + span is_word t, Some (String c2 (take (span is_word t) t)))
        else None
    | _ => None
    end.
Proof.
  unfold match_here, define_pattern, seq, lit.
  destruct s as [|c0 [|c1 [|c2 t]]]; cbn [Re.run];
    repeat match goal with
           | |- context [cset_match no_flags (CLit ?x) ?c] =>
               change (cset_match no_flags (CLit x) c) with (Ascii.eqb c x)
           end.
  - reflexivity.
  - now destruct (Ascii.eqb c0 "-").
  - destruct (Ascii.eqb c0 "-"); [|reflexivity]. now destruct (Ascii.eqb c1 "D").
  - destruct (Ascii.eqb c0 "-"); [|reflexivity].
    destruct (Ascii.eqb c1 "D"); [|reflexivity]. cbn [andb].
    rewrite first_define_char.
    destruct (is_word c2); [|reflexivity].
    rewrite rep_greedy_all by discriminate.
    assert (Hspan : span (cset_match no_flags (CIn [CWord; CDigit; CLit "_"])) t
                    = span is_word t).
    { clear. induction t as [|c t IH]; cbn [span]; [reflexivity|].
      rewrite next_define_char, IH. reflexivity. }
    rewrite Hspan.
    pose proof (span_le is_word t) as Hle.
    cbn [length]. rewrite length_drop.
    replace (S (length t) - (length t - span is_word t)) with (S (span is_word t)) by lia.
    replace (S (S (S (length t))) - (length t - span is_word t))
      with (3 + span is_word t) by lia.
    reflexivity.
Qed.

(** [findall] reaches every token: the characters passed over after a
    match are word characters, so no token starts among them. *)
Lemma findall_define_finds (id after : string) :
  id <> "" ->
  all_chars is_word id = true ->
  starts_with_char is_word after = false ->
  forall before skip,
    all_chars is_word (take skip (before ++ "-D" ++ id ++ after)) = true ->
    In id (findall_from no_flags define_pattern skip (before ++ "-D" ++ id ++ after)).
Proof.
  intros Hid Hword Hafter. induction before as [|c b IH]; intros skip Hskip.
  - change ("" ++ "-D" ++ id ++ after) with (String "-" (String "D" (id ++ after))) in *.
    destruct skip as [|k]; [|discriminate Hskip].
    cbn [findall_from]. rewrite define_match_here.
    destruct id as [|c2 id']; [now destruct Hid|].
    cbn [append all_chars] in *. apply andb_true_iff in Hword as [Hc2 Hid'].
    rewrite Hc2. cbn [Ascii.eqb Bool.eqb andb].
    rewrite (span_all_chars is_word id' after Hid' Hafter), take_length_append.
    left. reflexivity.
  - change (String c b ++ "-D" ++ id ++ after)
      with (String c (b ++ "-D" ++ id ++ after)) in *.
    destruct skip as [|k].
    + cbn [findall_from]. rewrite define_match_here.
      destruct (b ++ "-D" ++ id ++ after) as [|c1 [|c2 t]] eqn:E.
      * apply (IH 0). reflexivity.
      * apply (IH 0). reflexivity.
      * destruct (Ascii.eqb c "-" && Ascii.eqb c1 "D" && is_word c2) eqn:Hm.
        -- right. apply (IH (Nat.pred (3 + span is_word t))).
           apply andb_true_iff in Hm as [Hm Hc2].
           apply andb_true_iff in Hm as [_ Hc1].
           apply Ascii.eqb_eq in Hc1. subst c1.
           cbn [Nat.pred Nat.add take all_chars]. rewrite Hc2.
           rewrite all_chars_take_span. reflexivity.
        -- apply (IH 0). reflexivity.
    + cbn [findall_from]. cbn [take all_chars] in Hskip.
      apply andb_true_iff in Hskip as [_ Hskip]. now apply IH.
Qed.

Lemma set_mem_in (x : string) (s : list string) : set_mem x s = true <-> In x s.
Proof.
  unfold set_mem. rewrite existsb_exists. split.
  - intros (y & Hy & E). apply String.eqb_eq in E. now subst.
  - intros H. exists x. split; [exact H | apply String.eqb_refl].
Qed.

Lemma set_add_in (x y : string) (s : list string) :
  In y (set_add x s) <-> x = y \/ In y s.
Proof.
  unfold set_add. destruct (set_mem x s) eqn:E.
  - apply set_mem_in in E. split; [now right | intros [<-|H]; assumption].
  - rewrite in_app_iff. simpl. tauto.
Qed.

Lemma set_add_nodup (x : string) (s : list string) : NoDup s -> NoDup (set_add x s).
Proof.
  intros H. unfold set_add. destruct (set_mem x s) eqn:E; [exact H|].
  apply NoDup_app; [exact H | repeat constructor; intros [] |].
  intros y Hy [<-|[]]. apply set_mem_in in Hy. congruence.
Qed.

Lemma add_all_in (keep : string -> bool) (found s : list string) (x : string) :
  In x found -> keep x = true -> In x (add_all keep found s).
Proof.
  unfold add_all.
  assert (Hkeepin : forall l acc, In x acc ->
            In x (fold_left (fun acc m => if keep m then set_add m acc else acc) l acc)).
  { induction l as [|y l IH]; intros acc Hacc; simpl; [exact Hacc|].
    apply IH. destruct (keep y); [apply set_add_in; now right | exact Hacc]. }
  revert s. induction found as [|y found IH]; intros s Hin Hkeep; [destruct Hin|].
  simpl. destruct Hin as [->|Hin].
  - rewrite Hkeep. apply Hkeepin. apply set_add_in. now left.
  - now apply IH.
Qed.

Lemma add_all_nodup (keep : string -> bool) (found s : list string) :
  NoDup s -> NoDup (add_all keep found s).
Proof.
  unfold add_all. revert s. induction found as [|y found IH]; intros s H; simpl;
    [exact H|].
  apply IH. destruct (keep y); [now apply set_add_nodup | exact H].
Qed.

(** C5, as the code has it.  Every identifier standing in the source as
    a [-D<identifier>] token is in [all_defines], unless it is [gcc] or
    [-D<identifier>] is a banned keyword; and [all_defines] has no
    repetition. *)
Theorem defines_collect_tokens (text id : string) :
  define_token id text ->
  id <> "gcc" ->
  ~ In ("-D" ++ id) unsupported_gcc_keywords ->
  In id (all_defines (extract_defines_and_includes_fixed (new_analyzer text)))
  /\ NoDup (all_defines (extract_defines_and_includes_fixed (new_analyzer text))).
Proof.
  intros (before & after & -> & Hid & Hword & Hafter) Hgcc Hbanned.
  cbn [extract_defines_and_includes_fixed all_defines new_analyzer content].
  split; [|apply add_all_nodup; constructor].
  apply add_all_in.
  - apply (findall_define_finds id after Hid Hword Hafter before 0). reflexivity.
  - unfold keep_define.
    destruct id as [|c id']; [now destruct Hid|]. cbn [is_empty negb andb].
    apply String.eqb_neq in Hgcc. rewrite Hgcc. cbn [negb andb].
    destruct (among ("-D" ++ String c id') unsupported_gcc_keywords) eqn:E;
      [|reflexivity].
    unfold among in E. apply existsb_exists in E as (k & Hk & Ek).
    apply String.eqb_eq in Ek. subst k. now destruct Hbanned.
Qed.

Lemma defines_collect_tokens_witness :
  In "USE_HAL" (all_defines (extract_defines_and_includes_fixed
                               (new_analyzer scenario_text)))
  /\ NoDup (all_defines (extract_defines_and_includes_fixed
                           (new_analyzer scenario_text))).
Proof.
  apply (defines_collect_tokens scenario_text "USE_HAL").
  - exists (line "ARCH='arm'" ++ line "CPU='cortex-m4'"
            ++ "CFLAGS=" ++ chr dquote ++ "--no_inline -Dgcc "),
           (" -Iinc" ++ chr dquote ++ chr nl).
    repeat split; try reflexivity. discriminate.
  - discriminate.
  - unfold unsupported_gcc_keywords. simpl.
    intros H. repeat (destruct H as [H|H]; [discriminate H|]). exact H.
Defined.

(** C5, as the claim has it, fails: [gcc] stands in the source as a
    [-D<identifier>] token and [all_defines] stays empty; the same holds
    for a token that is a banned keyword. *)
Lemma define_token_left_out :
  define_token "gcc" "CFLAGS = ' -Dgcc'"
  /\ all_defines (extract_defines_and_includes_fixed
                    (new_analyzer "CFLAGS = ' -Dgcc'")) = []
  /\ define_token "__MICROLIB" "CFLAGS = ' -D__MICROLIB'"
  /\ all_defines (extract_defines_and_includes_fixed
                    (new_analyzer "CFLAGS = ' -D__MICROLIB'")) = [].
Proof.
  split; [|split; [vm_compute; reflexivity | split; [|vm_compute; reflexivity]]].
  - exists "CFLAGS = ' ", "'". repeat split; try reflexivity. discriminate.
  - exists "CFLAGS = ' ", "'". repeat split; try reflexivity. discriminate.
Qed.

(* ------------------------------------------------------------------ *)
(** ** The file operations of a run *)

Lemma path_eqb_refl (p : path) : path_eqb p p = true.
Proof.
  induction p as [|x p IH]; simpl; [reflexivity|].
  now rewrite String.eqb_refl, IH.
Qed.

Lemma path_eqb_eq (p p' : path) : path_eqb p p' = true -> p = p'.
Proof.
  revert p'. induction p as [|x p IH]; intros [|y p']; simpl; try discriminate.
  - reflexivity.
  - intros H. apply andb_true_iff in H as [Hx Hp].
    apply String.eqb_eq in Hx. subst y. now rewrite (IH p' Hp).
Qed.

Lemma path_eqb_neq (p p' : path) : p <> p' -> path_eqb p p' = false.
Proof.
  intros N. destruct (path_eqb p p') eqn:E; [|reflexivity].
  now destruct (N (path_eqb_eq p p' E)).
Qed.

Lemma length_parent (p : path) : List.length (parent p) = Nat.pred (List.length p).
Proof.
  unfold parent. induction p as [|x p IH]; [reflexivity|].
  destruct p as [|y p]; [reflexivity|].
  change (removelast (x :: y :: p)) with (x :: removelast (y :: p)).
  cbn [List.length] in *. now rewrite IH.
Qed.

Section PathFacts.
Variable stem_of : string -> string.
Variable file_stamp : string.
Variable input_file : path.

Lemma backup_is_not_input : backup_of stem_of file_stamp input_file <> input_file.
Proof.
  intros E. apply (f_equal (@List.length string)) in E.
  unfold backup_of, logs_dir_of in E.
  rewrite !length_app, length_parent in E. simpl in E. lia.
Qed.

Lemma report_is_not_input : report_of stem_of file_stamp input_file <> input_file.
Proof.
  intros E. apply (f_equal (@List.length string)) in E.
  unfold report_of, logs_dir_of in E.
  rewrite !length_app, length_parent in E. simpl in E. lia.
Qed.

Lemma report_is_not_backup :
  report_of stem_of file_stamp input_file <> backup_of stem_of file_stamp input_file.
Proof.
  unfold report_of, backup_of. intros E.
  apply app_inv_head in E. injection E as E.
  apply append_inv_head in E. injection E as E.
  apply append_inv_head in E. discriminate E.
Qed.
End PathFacts.

Lemma scan_opts_cases (l : list opt) (force : bool) (w : world) :
  scan_opts l force w = Stop (Exit 0) w \/ exists f, scan_opts l force w = Next f w.
Proof.
  revert force. induction l as [|[] l IH]; intros force; simpl.
  - right. now exists force.
  - apply IH.
  - now left.
Qed.

Lemma scan_opts_spec (l : list opt) (force : bool) (w : world) :
  (In OptHelp l /\ scan_opts l force w = Stop (Exit 0) w)
  \/ (~ In OptHelp l
      /\ exists f, scan_opts l force w = Next f w
                   /\ (In OptForce l -> f = true)
                   /\ (~ In OptForce l -> f = force)).
Proof.
  revert force. induction l as [|[] l IH]; intros force; cbn [scan_opts].
  - right. split; [intros []|]. exists force. repeat split; auto.
  - destruct (IH true) as [[Hh E]|[Hh (f & E & Hf & Hn)]].
    + left. split; [now right | exact E].
    + right. split; [intros [D|D]; [discriminate D | exact (Hh D)]|].
      exists f. split; [exact E|]. split.
      * intros _. destruct (in_dec (fun x y : opt =>
                                      ltac:(decide equality) : {x = y} + {x <> y})
                                   OptForce l) as [I|I]; auto.
      * intros N. destruct N. now left.
  - left. split; [now left | reflexivity].
Qed.


(** What the prompt gives: an answer, or an exception that ends the
    run. *)
Lemma confirm_overwrite_cases (kind_of : path -> path_kind) (answer : reply)
      (file_path : path) (w : world) :
  (exists yes, confirm_overwrite kind_of answer file_path w = Next yes w)
  \/ (exists e, confirm_overwrite kind_of answer file_path w = Stop (Uncaught e) w).
Proof.
  unfold confirm_overwrite, then_, exists_file, ret.
  destruct (files w file_path) as [text|]; [|destruct (kind_of file_path) as [| |e]];
    try (destruct answer as [yes| |e'];
         [left; now exists yes | left; now exists false | right; now exists e']).
  - left. now exists true.
  - right. now exists e.
Qed.

Section RunCases.
Variable io_ok : list event -> event -> bool.
Variable io_error : list event -> event -> exn.
Variable kind_of : path -> path_kind.
Variable torn : path -> string -> string.
Variable answer : reply.
Variable file_stamp : string.
Variable stem_of : string -> string.
Variable ast_parse : string -> pyresult node.
Variable unparse : expr -> string.
Variable py_repr : pyval -> string.
Variable path_name : string -> string.
Variable timestamp : string.
Variable opts : list opt.
Variable input_file : path.
Variable fs : filesystem.

(** A run on a path that names no regular file changes no file: it
    leaves before any operation, or, the path being a directory, after
    it has made the log directory. *)
Lemma run_without_file :
  fs input_file = None ->
  files (final_world (run io_ok io_error kind_of torn answer file_stamp stem_of
                          ast_parse unparse py_repr path_name timestamp opts
                          [input_file] fs))
  = fs.
Proof.
  intros Habsent. unfold run, main, then_.
  destruct (scan_opts_cases opts false (initial fs)) as [E|[force E]];
    rewrite E; [reflexivity|].
  unfold exists_file at 1. unfold initial. cbn [files]. rewrite Habsent.
  destruct (kind_of input_file) as [| |e]; cbn [negb]; try reflexivity.
  assert (Hconf :
            (exists yes, (if force then ret true
                          else confirm_overwrite kind_of answer input_file)
                           {| files := fs; trace := [] |}
                         = Next yes {| files := fs; trace := [] |})
            \/ (exists e, (if force then ret true
                           else confirm_overwrite kind_of answer input_file)
                            {| files := fs; trace := [] |}
                          = Stop (Uncaught e) {| files := fs; trace := [] |})).
  { destruct force; [left; now exists true | apply confirm_overwrite_cases]. }
  destruct Hconf as [[yes ->]|[e ->]]; [|reflexivity].
  destruct yes; cbn [negb]; [|reflexivity].
  unfold mkdir, perform. cbn [files trace app].
  destruct (io_ok _ (Mkdir _)); [|reflexivity].
  unfold copy2. cbn [files]. now rewrite Habsent.
Qed.


Variable original : string.
Hypothesis present : fs input_file = Some original.
Variable good : io_result unit -> Prop.

(** The ways a run on an existing file can go, each with the world it
    ends in: a property that holds in every case holds of the run. *)
Lemma run_cases :
  let logs := logs_dir_of input_file in
  let backup := backup_of stem_of file_stamp input_file in
  let report := report_of stem_of file_stamp input_file in
  let saved := write_file backup original fs in
  let opening := [Mkdir logs; Copy input_file backup; ReadText input_file] in
  let analysed := analyze ast_parse unparse (probe saved (parent input_file))
                          (new_analyzer original) in
  let named := set_scalar "original_file" (VStr (path_str input_file)) in
  let written new_content :=
    write_file input_file new_content (write_file input_file "" saved) in
  let rewritten new_content :=
    (opening ++ [OpenWrite input_file; WriteText input_file new_content])%list in
  good (Stop (Exit 0) (initial fs)) ->
  (forall e, good (Stop (Uncaught e) (initial fs))) ->
  (forall e, good (Stop (Uncaught e) {| files := fs; trace := [Mkdir logs] |})) ->
  (forall e, good (Stop (Uncaught e)
                        {| files := saved;
                           trace := [Mkdir logs; Copy input_file backup] |})) ->
  (forall e,
      analysed = Raise e ->
      good (Stop (Uncaught e) {| files := saved; trace := opening |})) ->
  (forall a r e,
      analysed = Ok (a, r) ->
      generate py_repr path_name timestamp a (named r) = Raise e ->
      good (Stop (Uncaught e) {| files := saved; trace := opening |})) ->
  (forall a r new_content e,
      analysed = Ok (a, r) ->
      generate py_repr path_name timestamp a (named r) = Ok new_content ->
      good (Stop (Uncaught e) {| files := saved; trace := opening |})) ->
  (forall a r new_content e,
      analysed = Ok (a, r) ->
      generate py_repr path_name timestamp a (named r) = Ok new_content ->
      good (Stop (Uncaught e)
                 {| files := write_file input_file (torn input_file new_content)
                               (write_file input_file "" saved);
                    trace := (opening ++ [OpenWrite input_file])%list |})) ->
  (forall a r new_content e,
      analysed = Ok (a, r) ->
      generate py_repr path_name timestamp a (named r) = Ok new_content ->
      generate_migration_report py_repr (named r) (path_str backup) (path_str report)
                                (path_str input_file) = Raise e ->
      good (Stop (Uncaught e)
                 {| files := written new_content; trace := rewritten new_content |})) ->
  (forall a r new_content text e,
      analysed = Ok (a, r) ->
      generate py_repr path_name timestamp a (named r) = Ok new_content ->
      generate_migration_report py_repr (named r) (path_str backup) (path_str report)
                                (path_str input_file) = Ok text ->
      good (Stop (Uncaught e)
                 {| files := written new_content; trace := rewritten new_content |})) ->
  (forall a r new_content text e,
      analysed = Ok (a, r) ->
      generate py_repr path_name timestamp a (named r) = Ok new_content ->
      generate_migration_report py_repr (named r) (path_str backup) (path_str report)
                                (path_str input_file) = Ok text ->
      good (Stop (Uncaught e)
                 {| files := write_file report (torn report text)
                               (write_file report "" (written new_content));
                    trace := (rewritten new_content ++ [OpenWrite report])%list |})) ->
  (forall a r new_content text checks,
      analysed = Ok (a, r) ->
      generate py_repr path_name timestamp a (named r) = Ok new_content ->
      generate_migration_report py_repr (named r) (path_str backup) (path_str report)
                                (path_str input_file) = Ok text ->
      checks <= 3 ->
      good (Next tt
                 {| files := write_file report text
                               (write_file report "" (written new_content));
                    trace := (rewritten new_content
                              ++ [OpenWrite report; WriteText report text]
                              ++ repeat (ReadText input_file) checks)%list |})) ->
  good (run io_ok io_error kind_of torn answer file_stamp stem_of ast_parse unparse
            py_repr path_name timestamp opts [input_file] fs).
Proof.
  intros logs backup report saved opening analysed named written rewritten
         Hquit Hfirst Hcopy Hread Hanalyze Hgenerate Hopen Hwrite Hreport
         Hopen' Hwrite' Hdone.
  unfold run, main, then_.
  change ((parent input_file ++ ["migration_logs"])
          ++ [(stem_of (name input_file) ++ "." ++ file_stamp ++ ".backup.py")%string])%list
    with backup.
  change ((parent input_file ++ ["migration_logs"])
          ++ [(stem_of (name input_file) ++ "." ++ file_stamp
               ++ ".migration_report.txt")%string])%list
    with report.
  change (parent input_file ++ ["migration_logs"])%list with logs.
  assert (Hbi : backup <> input_file) by apply backup_is_not_input.
  assert (Hib : input_file <> backup) by (intros Eq; now symmetry in Eq).
  assert (Hir : input_file <> report)
    by (intros Eq; symmetry in Eq; revert Eq; apply report_is_not_input).
  destruct (scan_opts_cases opts false (initial fs)) as [E|[force E]]; rewrite E;
    [exact Hquit|].
  unfold exists_file at 1. unfold initial. cbn [files]. rewrite present. cbn [negb].
  assert (Hconf :
            (exists yes, (if force then ret true
                          else confirm_overwrite kind_of answer input_file)
                           {| files := fs; trace := [] |}
                         = Next yes {| files := fs; trace := [] |})
            \/ (exists e, (if force then ret true
                           else confirm_overwrite kind_of answer input_file)
                            {| files := fs; trace := [] |}
                          = Stop (Uncaught e) {| files := fs; trace := [] |})).
  { destruct force; [left; now exists true | apply confirm_overwrite_cases]. }
  destruct Hconf as [[yes ->]|[e ->]]; [|exact (Hfirst e)].
  destruct yes; cbn [negb]; [|exact Hquit].
  unfold mkdir, perform. cbn [files trace app].
  destruct (io_ok _ (Mkdir _)); [|apply Hfirst].
  unfold copy2, perform. cbn [files trace app]. rewrite present.
  destruct (io_ok _ (Copy _ _)); [|apply Hcopy].
  unfold read_text at 1. unfold perform. cbn [files trace app].
  unfold write_file at 1. rewrite (path_eqb_neq input_file backup Hib), present.
  destruct (io_ok _ (ReadText _)); [|apply Hread].
  unfold current_files, lift. cbn [files trace].
  change (analyze ast_parse unparse _ (new_analyzer original)) with analysed.
  destruct analysed as [[a r]|e] eqn:Ha; [|exact (Hanalyze e eq_refl)].
  cbn [fst snd].
  change (set_scalar "original_file" (VStr (path_str input_file)) r) with (named r).
  destruct (generate _ _ _ _ _) as [new_content|e] eqn:Hg;
    [|exact (Hgenerate a r e eq_refl Hg)].
  unfold write_text at 1. unfold then_, open_write, perform. cbn [files trace app].
  destruct (io_ok _ (OpenWrite input_file));
    [|exact (Hopen a r new_content _ eq_refl Hg)].
  unfold write at 1. cbn [files trace app].
  destruct (io_ok _ (WriteText input_file _));
    [|exact (Hwrite a r new_content _ eq_refl Hg)].
  destruct (generate_migration_report _ _ _ _ _) as [rep|e] eqn:Hr;
    [|exact (Hreport a r new_content e eq_refl Hg Hr)].
  unfold write_text, then_, open_write, perform. cbn [files trace app].
  destruct (io_ok _ (OpenWrite report));
    [|exact (Hopen' a r new_content rep _ eq_refl Hg Hr)].
  unfold write. cbn [files trace app].
  destruct (io_ok _ (WriteText report _));
    [|exact (Hwrite' a r new_content rep _ eq_refl Hg Hr)].
  assert (Hfile : write_file report rep (write_file report "" (written new_content))
                             input_file = Some new_content).
  { unfold written, write_file. rewrite (path_eqb_neq input_file report Hir).
    now rewrite path_eqb_refl. }
  unfold attempt, read_text, perform, ret. cbn [files trace app].
  fold saved. fold (written new_content). rewrite Hfile.
  destruct (io_ok _ (ReadText _)); cbn [files trace app].
  2:{ exact (Hdone a r new_content rep 0 eq_refl Hg Hr ltac:(lia)). }
  rewrite Hfile.
  destruct (io_ok _ (ReadText _)); cbn [files trace app].
  2:{ exact (Hdone a r new_content rep 1 eq_refl Hg Hr ltac:(lia)). }
  destruct (dist_handle_found _); cbn [files trace app].
  2:{ exact (Hdone a r new_content rep 2 eq_refl Hg Hr ltac:(lia)). }
  rewrite Hfile.
  destruct (io_ok _ (ReadText _)); cbn [files trace app].
  - exact (Hdone a r new_content rep 3 eq_refl Hg Hr ltac:(lia)).
  - exact (Hdone a r new_content rep 2 eq_refl Hg Hr ltac:(lia)).
Qed.
End RunCases.

Ltac by_run_cases original present :=
  match goal with
  | |- context [run ?o ?ie ?d ?tn ?a ?s ?st ?p ?u ?r ?n ?t ?op [?i] ?f] =>
      pattern (run o ie d tn a s st p u r n t op [i] f);
      match goal with
      | |- ?P _ =>
          let H := fresh "H" in
          let good := fresh "good" in
          set (good := P);
          pose proof (run_cases o ie d tn a s st p u r n t op i f original present good)
            as H;
          cbv zeta in H; apply H; clear H; subst good; cbv beta
      end
  end.


Ltac other_path :=
  unfold write_file;
  repeat match goal with
         | N : ?p <> ?p' |- context [path_eqb ?p ?p'] => rewrite (path_eqb_neq p p' N)
         end.

Ltac event_in H :=
  cbn [app repeat In] in H;
  repeat match type of H with
         | _ \/ _ => destruct H as [H|H]
         | False => destruct H
         | In _ (repeat _ _) => apply repeat_spec in H
         | In _ (_ :: _) => destruct H as [H|H]
         | In _ [] => destruct H
         end;
  try discriminate H.

Section RunFacts.
Variable io_ok : list event -> event -> bool.
Variable io_error : list event -> event -> exn.
Variable kind_of : path -> path_kind.
Variable torn : path -> string -> string.
Variable answer : reply.
Variable file_stamp : string.
Variable stem_of : string -> string.
Variable ast_parse : string -> pyresult node.
Variable unparse : expr -> string.
Variable py_repr : pyval -> string.
Variable path_name : string -> string.
Variable timestamp : string.
Variable opts : list opt.
Variable input_file : path.
Variable fs : filesystem.
Variable original : string.
Hypothesis present : fs input_file = Some original.

End RunFacts.


(** The run of the example reaches the end of [main]; the backup then
    holds the scenario text and the input path no longer does. *)
Lemma demo_run_backs_up :
  completed demo_run = true
  /\ files (final_world demo_run) demo_backup = Some scenario_text
  /\ files (final_world demo_run) demo_input <> Some scenario_text.
Proof.
  split; [vm_compute; reflexivity|].
  split; [vm_compute; reflexivity|].
  vm_compute. discriminate.
Qed.

(** The set of definitions in the analysis is the one
    [_extract_defines_and_includes_fixed] computes on the source. *)
Lemma analyze_defines (ast_parse : string -> pyresult node) (unparse : expr -> string)
      (path_exists : string -> bool) (text : string) (a : analyzer) (r : analysis) :
  analyze ast_parse unparse path_exists (new_analyzer text) = Ok (a, r) ->
  defines r = all_defines (extract_defines_and_includes_fixed (new_analyzer text)).
Proof.
  unfold analyze. intros H. apply bind_ok_inv in H as ([a3 r1] & H1 & H2).
  injection H2 as <- <-. cbn [defines].
  unfold extract_fields in H1.
  destruct (bind _ _) as [r'|[]] in H1; try discriminate H1;
    injection H1 as <- _; reflexivity.
Qed.

(* ------------------------------------------------------------------ *)
(** ** The keys of the analysis are always present *)

Lemma dict_set_keeps_key (k k' : string) (v : pyval) (d : dict) :
  dict_lookup k' d <> None -> dict_lookup k' (dict_set k v d) <> None.
Proof.
  intros H. destruct (String.eqb_spec k k') as [->|N].
  - rewrite dict_lookup_set_same. discriminate.
  - now rewrite dict_lookup_set_other.
Qed.

Lemma collect_key_keeps_key (k name : string) (v : pyval) (r : analysis) :
  dict_lookup k (scalars r) <> None ->
  dict_lookup k (scalars (collect_key name v r)) <> None.
Proof.
  intros H. unfold collect_key.
  repeat match goal with
         | |- context [if ?b then _ else _] => destruct b
         end;
    try exact H; unfold set_scalar; cbn [scalars]; now apply dict_set_keeps_key.
Qed.

Lemma regex_key_keeps_key (k name v : string) (r : analysis) :
  dict_lookup k (scalars r) <> None ->
  dict_lookup k (scalars (regex_key name v r)) <> None.
Proof.
  intros H. unfold regex_key.
  repeat match goal with
         | |- context [if ?b then _ else _] => destruct b
         end;
    try exact H; unfold set_scalar; cbn [scalars]; now apply dict_set_keeps_key.
Qed.

Lemma extract_bindings_keeps_key (unparse : expr -> string) (k : string)
      (l : list (string * expr)) (r r' : analysis) :
  dict_lookup k (scalars r) <> None ->
  extract_bindings unparse l r = Ok r' ->
  dict_lookup k (scalars r') <> None.
Proof.
  revert r. induction l as [|[n e] l IH]; intros r H E.
  - injection E as <-. exact H.
  - cbn [extract_bindings] in E. apply bind_ok_inv in E as (r1 & E1 & E2).
    apply (IH r1); [|exact E2].
    unfold extract_target in E1.
    destruct (literal_eval e) as [v|[]]; try discriminate E1; injection E1 as <-.
    + now apply collect_key_keeps_key.
    + exact H.
    + exact H.
Qed.

Lemma extract_with_regex_keeps_key (k text : string) (r : analysis) :
  dict_lookup k (scalars r) <> None ->
  dict_lookup k (scalars (extract_with_regex text r)) <> None.
Proof.
  unfold extract_with_regex. generalize regex_patterns. intros l. revert r.
  induction l as [|[n p] l IH]; intros r H; cbn [fold_left fst snd]; [exact H|].
  apply IH. destruct (search i_flag p text); [|exact H].
  now apply regex_key_keeps_key.
Qed.

(** Every key of the initial dictionary is a key of the analysis: the
    default of a [get] on one of them is never taken. *)
Lemma analyze_keeps_keys (ast_parse : string -> pyresult node)
      (unparse : expr -> string) (path_exists : string -> bool)
      (a0 a : analyzer) (r : analysis) (k : string) :
  analyze ast_parse unparse path_exists a0 = Ok (a, r) ->
  dict_lookup k (scalars initial_result) <> None ->
  dict_lookup k (scalars r) <> None.
Proof.
  unfold analyze. intros H Hk. apply bind_ok_inv in H as ([a3 r1] & H1 & H2).
  injection H2 as <- <-. cbn [scalars analyze_compiler_flags_fixed].
  apply dict_set_keeps_key.
  unfold extract_fields in H1.
  destruct (bind _ _) as [r'|[]] eqn:E in H1; try discriminate H1;
    injection H1 as _ <-.
  - apply bind_ok_inv in E as (tree & _ & E).
    rewrite extract_from_ast_bindings in E.
    exact (extract_bindings_keeps_key unparse k _ _ _ Hk E).
  - now apply extract_with_regex_keeps_key.
Qed.

(** Whenever the analysis holds [None] under [arch], the generated text
    has the line [ARCH = 'None']. *)
Lemma unset_arch_line (py_repr : pyval -> string) (path_name : string -> string)
      (timestamp : string) (a : analyzer) (r : analysis) :
  renderable r = true ->
  dict_lookup "arch" (scalars r) = Some VNone ->
  exists text,
    generate py_repr path_name timestamp a r = Ok text
    /\ has_line "ARCH = 'None'" text.
Proof.
  intros Hr Harch.
  destruct (generated_lines_ok py_repr path_name timestamp a r Hr) as (h & t & g & E).
  unfold generate. rewrite E. cbn [bind].
  eexists. split; [reflexivity|].
  apply in_has_line.
  apply in_or_app. right. apply in_or_app. right.
  apply in_or_app. left.
  unfold add_basic_config, dict_get. rewrite Harch.
  do 3 right. left. reflexivity.
Qed.

(* ------------------------------------------------------------------ *)
(** ** What the define and include sets hold *)

Lemma span_stops (p : ascii -> bool) (t : string) :
  starts_with_char p (drop (span p t) t) = false.
Proof.
  induction t as [|c t IH]; [reflexivity|].
  cbn [span]. destruct (p c) eqn:E; cbn [drop starts_with_char]; [exact IH | exact E].
Qed.

Lemma add_all_inv (keep : string -> bool) (found s : list string) (x : string) :
  In x (add_all keep found s) -> In x s \/ (In x found /\ keep x = true).
Proof.
  unfold add_all. revert s. induction found as [|y found IH]; intros s H; simpl in H.
  - now left.
  - apply IH in H as [H|[H K]]; [|right; split; [now right | exact K]].
    destruct (keep y) eqn:Ky; [|now left].
    apply set_add_in in H as [<-|H]; [right; split; [now left | exact Ky] | now left].
Qed.

(** Every text [findall] returns for the define pattern stands in the
    string as a token. *)
Lemma findall_define_sound (s : string) :
  forall skip d,
    In d (findall_from no_flags define_pattern skip s) ->
    exists before after,
      s = before ++ "-D" ++ d ++ after
      /\ d <> ""
      /\ all_chars is_word d = true
      /\ starts_with_char is_word after = false.
Proof.
  induction s as [|c s IH]; intros skip d H.
  - destruct skip; cbn [findall_from] in H; [|destruct H].
    rewrite define_match_here in H. destruct H.
  - destruct skip as [|k]; cbn [findall_from] in H.
    + rewrite define_match_here in H.
      assert (Hrest : forall n, In d (findall_from no_flags define_pattern n s) ->
                exists before after,
                  String c s = before ++ "-D" ++ d ++ after /\ d <> ""
                  /\ all_chars is_word d = true
                  /\ starts_with_char is_word after = false).
      { intros n Hn. destruct (IH n d Hn) as (b & a & -> & Hd).
        now exists (String c b), a. }
      destruct s as [|c1 [|c2 t]]; try (apply (Hrest 0); exact H).
      destruct (Ascii.eqb c "-" && Ascii.eqb c1 "D" && is_word c2) eqn:Hm;
        [|apply (Hrest 0); exact H].
      destruct H as [<-|H]; [|eapply Hrest; exact H].
      apply andb_true_iff in Hm as [Hm Hc2]. apply andb_true_iff in Hm as [Hc Hc1].
      apply Ascii.eqb_eq in Hc, Hc1. subst c c1.
      exists "", (drop (span is_word t) t). repeat split.
      * cbn [append]. now rewrite take_drop.
      * discriminate.
      * cbn [all_chars]. now rewrite Hc2, all_chars_take_span.
      * apply span_stops.
    + destruct (IH k d H) as (b & a & -> & Hd). now exists (String c b), a.
Qed.

(** X1. Nothing is invented: every member of [all_defines] stands in the
    source as a [-D<identifier>] token, is not [gcc], and [-D] followed by
    it is not a banned keyword. *)
Theorem defines_are_tokens (text d : string) :
  In d (all_defines (extract_defines_and_includes_fixed (new_analyzer text))) ->
  define_token d text /\ d <> "gcc" /\ ~ In ("-D" ++ d) unsupported_gcc_keywords.
Proof.
  cbn [extract_defines_and_includes_fixed all_defines new_analyzer content].
  intros H. apply add_all_inv in H as [[]|[H K]].
  split; [exact (findall_define_sound text 0 d H)|].
  unfold keep_define in K.
  apply andb_true_iff in K as [K Kb]. apply andb_true_iff in K as [_ Kg].
  split.
  - intros ->. discriminate Kg.
  - intros Hin. apply negb_true_iff in Kb. unfold among in Kb.
    assert (E : existsb (String.eqb ("-D" ++ d)) unsupported_gcc_keywords = true).
    { apply existsb_exists. exists ("-D" ++ d). split; [exact Hin | apply String.eqb_refl]. }
    rewrite E in Kb. discriminate Kb.
Qed.

Lemma defines_are_tokens_witness :
  define_token "USE_HAL" scenario_text /\ "USE_HAL" <> "gcc"
  /\ ~ In ("-D" ++ "USE_HAL") unsupported_gcc_keywords.
Proof.
  apply (defines_are_tokens scenario_text "USE_HAL").
  vm_compute. left. reflexivity.
Defined.

Lemma include_class (c : ascii) :
  cset_match no_flags (CNotIn [CSpace; CLit squote; CLit dquote]) c = include_char c.
Proof.
  unfold include_char. cbn [cset_match existsb ignorecase no_flags].
  now rewrite orb_false_r, orb_assoc.
Qed.

Lemma span_ext (p q : ascii -> bool) (t : string) :
  (forall c, p c = q c) -> span p t = span q t.
Proof.
  intros E. induction t as [|c t IH]; cbn [span]; [reflexivity|].
  now rewrite E, IH.
Qed.

(** What a match of the include pattern at the head of [s] is: [-I], one
    path character and the path characters that follow. *)
Lemma include_match_here (s : string) :
  match_here no_flags include_pattern s
  = match s with
    | String c0 (String c1 (String c2 t)) =>
        if Ascii.eqb c0 "-" && Ascii.eqb c1 "I" && include_char c2
        then Some (3 + span include_char t,
                   Some (String c2 (take (span include_char t) t)))
        else None
    | _ => None
    end.
Proof.
  unfold match_here, include_pattern, seq, lit.
  destruct s as [|c0 [|c1 [|c2 t]]]; cbn [Re.run];
    repeat match goal with
           | |- context [cset_match no_flags (CLit ?x) ?c] =>
               change (cset_match no_flags (CLit x) c) with (Ascii.eqb c x)
           end.
  - reflexivity.
  - now destruct (Ascii.eqb c0 "-").
  - destruct (Ascii.eqb c0 "-"); [|reflexivity].
    destruct (Ascii.eqb c1 "I"); reflexivity.
  - destruct (Ascii.eqb c0 "-"); [|reflexivity].
    destruct (Ascii.eqb c1 "I"); [|reflexivity]. cbn [andb].
    cbn [rep_greedy]. rewrite include_class.
    destruct (include_char c2); [|reflexivity].
    cbn [pred]. rewrite rep_greedy_all by discriminate.
    rewrite (span_ext _ include_char t include_class).
    pose proof (span_le include_char t) as Hle.
    cbn [length]. rewrite length_drop.
    replace (S (length t) - (length t - span include_char t))
      with (S (span include_char t)) by lia.
    replace (S (S (S (length t))) - (length t - span include_char t))
      with (3 + span include_char t) by lia.
    reflexivity.
Qed.

Lemma findall_include_sound (s : string) :
  forall skip i,
    In i (findall_from no_flags include_pattern skip s) ->
    i <> "" /\ all_chars include_char i = true /\ occurs_in ("-I" ++ i) s.
Proof.
  induction s as [|c s IH]; intros skip i H.
  - destruct skip; cbn [findall_from] in H; [|destruct H].
    rewrite include_match_here in H. destruct H.
  - assert (Hrest : forall n, In i (findall_from no_flags include_pattern n s) ->
              i <> "" /\ all_chars include_char i = true
              /\ occurs_in ("-I" ++ i) (String c s)).
    { intros n Hn. destruct (IH n i Hn) as (Hi & Hc & b & a & ->).
      repeat split; try assumption. now exists (String c b), a. }
    destruct skip as [|k]; cbn [findall_from] in H; [|eapply Hrest; exact H].
    rewrite include_match_here in H.
    destruct s as [|c1 [|c2 t]]; try (apply (Hrest 0); exact H).
    destruct (Ascii.eqb c "-" && Ascii.eqb c1 "I" && include_char c2) eqn:Hm;
      [|apply (Hrest 0); exact H].
    destruct H as [<-|H]; [|eapply Hrest; exact H].
    apply andb_true_iff in Hm as [Hm Hc2]. apply andb_true_iff in Hm as [Hc Hc1].
    apply Ascii.eqb_eq in Hc, Hc1. subst c c1.
    repeat split.
    + discriminate.
    + cbn [all_chars]. now rewrite Hc2, all_chars_take_span.
    + exists "", (drop (span include_char t) t).
      cbn [append]. now rewrite take_drop.
Qed.

(** X2. Every member of [all_includes] is a non-empty run of characters
    that are neither white space nor quotes, does not begin with a plus
    sign, and stands in the source right after [-I]. *)
Theorem includes_are_flags (text i : string) :
  In i (all_includes (extract_defines_and_includes_fixed (new_analyzer text))) ->
  i <> "" /\ all_chars include_char i = true /\ prefix "+" i = false
  /\ occurs_in ("-I" ++ i) text.
Proof.
  cbn [extract_defines_and_includes_fixed all_includes new_analyzer content].
  intros H. apply add_all_inv in H as [[]|[H K]].
  destruct (findall_include_sound text 0 i H) as (Hi & Hc & Ho).
  repeat split; try assumption.
  unfold keep_include in K. apply andb_true_iff in K as [_ K].
  now apply negb_true_iff in K.
Qed.

Lemma includes_are_flags_witness :
  "inc" <> "" /\ all_chars include_char "inc" = true /\ prefix "+" "inc" = false
  /\ occurs_in ("-I" ++ "inc") scenario_text.
Proof.
  apply (includes_are_flags scenario_text "inc").
  vm_compute. left. reflexivity.
Defined.

(* ------------------------------------------------------------------ *)
(** ** The preserved handler and the linker script *)

Lemma occurs_in_refl (s : string) : occurs_in s s.
Proof. exists "", "". cbn [append]. now rewrite append_empty_r. Qed.

Lemma occurs_in_empty (s : string) : occurs_in "" s.
Proof. now exists "", s. Qed.

Lemma occurs_in_trans (a b c : string) : occurs_in a b -> occurs_in b c -> occurs_in a c.
Proof.
  intros (p & q & ->) (p' & q' & ->). exists (p' ++ p), (q ++ q').
  now rewrite !append_assoc.
Qed.

Lemma occurs_in_tail (k s : string) (c : ascii) : occurs_in k s -> occurs_in k (String c s).
Proof. intros (p & q & ->). now exists (String c p), q. Qed.

Lemma take_occurs (n : nat) (s : string) : occurs_in (take n s) s.
Proof. exists "", (drop n s). cbn [append]. now rewrite take_drop. Qed.

Lemma drop_occurs (n : nat) (s : string) : occurs_in (drop n s) s.
Proof. exists (take n s), "". now rewrite append_empty_r, take_drop. Qed.

Lemma slice_occurs (a b : Z) (s : string) : occurs_in (slice a b s) s.
Proof.
  unfold slice. eapply occurs_in_trans; [apply take_occurs | apply drop_occurs].
Qed.

(** The text [re.search] reports as matched is a piece of the string. *)
Lemma search_from_occurs (f : flags) (r : re) (s : string) :
  forall pos m, search_from f r pos s = Some m -> occurs_in (group0 m) s.
Proof.
  induction s as [|c s IH]; intros pos m H; cbn [search_from] in H.
  - destruct (match_here f r "") as [[n g]|]; [|discriminate H].
    injection H as <-. apply take_occurs.
  - destruct (match_here f r (String c s)) as [[n g]|].
    + injection H as <-. apply take_occurs.
    + apply occurs_in_tail. exact (IH _ _ H).
Qed.

(** X3. The handler code the analyzer keeps is a contiguous piece of the
    source text, whichever of the two patterns found it, and it is the
    empty text when neither pattern matches anywhere in the text. *)
Theorem handler_is_piece_of_source (text : string) :
  occurs_in (dist_handle_code (extract_dist_handle (new_analyzer text))) text
  /\ (search s_flag dist_handle_pattern text = None ->
      search s_flag dist_handle_pattern2 text = None ->
      dist_handle_code (extract_dist_handle (new_analyzer text)) = "").
Proof.
  unfold extract_dist_handle. cbn [dist_handle_code new_analyzer content]. split.
  - destruct (search s_flag dist_handle_pattern text) as [m|].
    + apply slice_occurs.
    + destruct (search s_flag dist_handle_pattern2 text) as [m2|] eqn:E.
      * exact (search_from_occurs _ _ _ _ _ E).
      * apply occurs_in_empty.
  - intros -> ->. reflexivity.
Qed.

Lemma mem_char_append (c : ascii) (s t : string) :
  mem_char c (s ++ t) = mem_char c s || mem_char c t.
Proof.
  induction s as [|x s IH]; cbn [append mem_char]; [reflexivity|].
  now rewrite IH, orb_assoc.
Qed.

(** Replacing a character leaves none of it behind. *)
Lemma replace_char_removes (c : ascii) (new s : string) :
  mem_char c new = false -> mem_char c (replace (chr c) new s) = false.
Proof.
  intros Hnew. unfold replace, chr. cbn [is_empty length Nat.sub].
  induction s as [|x s IH]; [reflexivity|].
  cbn [replace_from prefix length Nat.sub].
  destruct (ascii_dec c x) as [->|N].
  - replace (prefix "" s) with true by now destruct s.
    now rewrite mem_char_append, Hnew, IH.
  - cbn [mem_char]. apply Ascii.eqb_neq in N. now rewrite N, IH.
Qed.

Lemma first_link_match_clean (patterns : list re) (text p : string) :
  first_link_match patterns text None = Some p -> mem_char backslash p = false.
Proof.
  induction patterns as [|r patterns IH]; cbn [first_link_match]; [discriminate|].
  destruct (search no_flags r text) as [m|]; [|exact IH].
  intros H. injection H as <-.
  destruct (is_empty (group1 m)) eqn:E.
  - now destruct (group1 m).
  - now apply replace_char_removes.
Qed.

(** X4. The linker script path the analyzer records never holds a
    backslash.  When no pattern matches the text, the path is the first of
    the conventional paths that exists next to the source file, and it is
    left unset only when none of them exists. *)
Theorem link_script_path_shape (path_exists : string -> bool) (text : string) :
  match link_script_path (extract_link_script path_exists (new_analyzer text)) with
  | Some p =>
      mem_char backslash p = false
      /\ (first_link_match link_script_patterns text None = None ->
          exists earlier later,
            common_paths = (earlier ++ p :: later)%list
            /\ path_exists p = true
            /\ forall q, In q earlier -> path_exists q = false)
  | None =>
      first_link_match link_script_patterns text None = None
      /\ forall q, In q common_paths -> path_exists q = false
  end.
Proof.
  unfold extract_link_script. cbn [link_script_path new_analyzer content].
  destruct (first_link_match link_script_patterns text None) as [p|] eqn:E.
  - pose proof (first_link_match_clean _ _ _ E) as Hp.
    destruct (nonempty_path (Some p)); [split; [exact Hp | discriminate]|].
    destruct (List.find path_exists common_paths) as [q|] eqn:F.
    + split; [|discriminate].
      apply find_some in F as [Hin _]. unfold common_paths in Hin. simpl in Hin.
      repeat (destruct Hin as [<-|Hin]; [reflexivity|]). destruct Hin.
    + split; [exact Hp | discriminate].
  - cbn [nonempty_path].
    destruct (List.find path_exists common_paths) as [q|] eqn:F.
    + split.
      * apply find_some in F as [Hin _]. unfold common_paths in Hin. simpl in Hin.
        repeat (destruct Hin as [<-|Hin]; [reflexivity|]). destruct Hin.
      * intros _. apply find_first_split in F as (earlier & later & Hs & Hq & He).
        now exists earlier, later.
    + split; [reflexivity|]. intros q Hq. exact (find_none _ _ F q Hq).
Qed.

(* ------------------------------------------------------------------ *)
(** ** The two extraction strategies *)

Lemma plain_dict_set (k : string) (v : pyval) (d : dict) :
  plain_value v = true -> plain_dict d = true -> plain_dict (dict_set k v d) = true.
Proof.
  intros Hv. unfold plain_dict. induction d as [|[k' v'] d IH]; cbn [dict_set forallb snd].
  - intros _. now rewrite Hv.
  - intros H. apply andb_true_iff in H as [H1 H2].
    destruct (String.eqb k k'); cbn [forallb snd].
    + now rewrite Hv, H2.
    + now rewrite H1, IH.
Qed.

Lemma plain_dict_get (k : string) (default : pyval) (d : dict) :
  plain_value default = true -> plain_dict d = true ->
  plain_value (dict_get d k default) = true.
Proof.
  intros Hd. unfold plain_dict, dict_get.
  induction d as [|[k' v'] d IH]; cbn [dict_lookup forallb snd]; [intros _; exact Hd|].
  intros H. apply andb_true_iff in H as [H1 H2].
  destruct (String.eqb k k'); [exact H1 | exact (IH H2)].
Qed.

Lemma plain_hashable (v : pyval) : plain_value v = true -> hashable v = true.
Proof. destruct v; try discriminate; reflexivity. Qed.

Lemma regex_key_plain (name v : string) (r : analysis) :
  plain_dict (scalars r) = true -> plain_dict (scalars (regex_key name v r)) = true.
Proof.
  intros H. unfold regex_key.
  repeat match goal with
         | |- context [if ?b then _ else _] => destruct b
         end;
    try exact H; unfold set_scalar; cbn [scalars]; now apply plain_dict_set.
Qed.

(** The pattern strategy stores [None] and strings only. *)
Lemma extract_with_regex_plain (text : string) (r : analysis) :
  plain_dict (scalars r) = true ->
  plain_dict (scalars (extract_with_regex text r)) = true.
Proof.
  unfold extract_with_regex. generalize regex_patterns. intros l. revert r.
  induction l as [|[n p] l IH]; intros r H; cbn [fold_left fst snd]; [exact H|].
  apply IH. destruct (search i_flag p text); [|exact H].
  now apply regex_key_plain.
Qed.

Section StrategyFacts.
Variable ast_parse : string -> pyresult node.
Variable unparse : expr -> string.
Variable path_exists : string -> bool.

(** The parts of the analysis that are read off the text alone. *)
Lemma analyze_text_parts (text : string) (a : analyzer) (r : analysis) :
  analyze ast_parse unparse path_exists (new_analyzer text) = Ok (a, r) ->
  unsupported_configs r = unsupported_of text
  /\ defines r = all_defines (extract_defines_and_includes_fixed (new_analyzer text))
  /\ includes r = all_includes (extract_defines_and_includes_fixed (new_analyzer text))
  /\ dist_handle_code a = dist_handle_code (extract_dist_handle (new_analyzer text))
  /\ link_script_path a
     = link_script_path (extract_link_script path_exists (new_analyzer text))
  /\ dist_handle_found r
     = negb (is_empty (dist_handle_code (extract_dist_handle (new_analyzer text))))
  /\ dict_lookup "linker_script" (scalars r)
     = Some (path_value (link_script_path
                           (extract_link_script path_exists (new_analyzer text)))).
Proof.
  unfold analyze. intros H. apply bind_ok_inv in H as ([a3 r1] & H1 & H2).
  injection H2 as <- <-.
  cbn [unsupported_configs defines includes dist_handle_found scalars
       analyze_compiler_flags_fixed].
  rewrite dict_lookup_set_same.
  unfold extract_fields in H1.
  destruct (bind _ _) as [r'|[]] in H1; try discriminate H1;
    injection H1 as <- _; repeat split; reflexivity.
Qed.

(** X5. A source that [ast.parse] rejects with [SyntaxError] is still
    analysed: [analyze] returns, [parsed_successfully] stays false, the
    six canonical entries are those of the pattern strategy, and the
    generator renders the result. *)
Theorem unparsable_source_is_analysed
        (py_repr : pyval -> string) (path_name : string -> string)
        (timestamp : string) (text file : string) :
  ast_parse text = Raise SyntaxError ->
  exists a r out,
    analyze ast_parse unparse path_exists (new_analyzer text) = Ok (a, r)
    /\ parsed_successfully a = false
    /\ (forall key, In key field_keys ->
          dict_lookup key (scalars r)
          = dict_lookup key (scalars (extract_with_regex text initial_result)))
    /\ generate py_repr path_name timestamp a
         (set_scalar "original_file" (VStr file) r) = Ok out.
Proof.
  intros Hparse.
  assert (Hplain : plain_dict (scalars (extract_with_regex text initial_result)) = true)
    by (apply extract_with_regex_plain; reflexivity).
  assert (Ha : exists a r,
             analyze ast_parse unparse path_exists (new_analyzer text) = Ok (a, r)
             /\ parsed_successfully a = false
             /\ scalars r
                = dict_set "linker_script" (path_value (link_script_path a))
                    (scalars (extract_with_regex text initial_result))).
  { unfold analyze, extract_fields.
    change (content (extract_link_script path_exists
                       (extract_dist_handle (new_analyzer text)))) with text.
    rewrite Hparse. cbn [bind].
    eexists. eexists. split; [reflexivity|]. split; reflexivity. }
  destruct Ha as (a & r & Ha & Hp & Hs).
  assert (Hr : renderable (set_scalar "original_file" (VStr file) r) = true).
  { unfold renderable, set_scalar. cbn [scalars]. rewrite Hs.
    apply andb_true_iff. split.
    - apply plain_hashable, plain_dict_get; [reflexivity|].
      apply plain_dict_set; [reflexivity|].
      apply plain_dict_set; [|exact Hplain].
      now destruct (link_script_path a).
    - unfold dict_get. now rewrite dict_lookup_set_same. }
  destruct (generate_ok py_repr path_name timestamp a _ Hr) as (lines & _ & Hg).
  exists a, r, (join (chr nl) lines).
  split; [exact Ha|]. split; [exact Hp|]. split; [|exact Hg].
  intros key Hin. rewrite Hs.
  apply dict_lookup_set_other.
  unfold field_keys in Hin. simpl in Hin.
  repeat (destruct Hin as [<-|Hin]; [discriminate|]). destruct Hin.
Qed.

(** X6. The unsupported entries, the defines, the includes, the handler
    and the linker script do not depend on the strategy that filled the
    canonical fields: two analyses of one text agree on them, whatever
    [ast.parse] and [ast.unparse] returned. *)
Theorem text_parts_ignore_strategy
        (ast_parse' : string -> pyresult node) (unparse' : expr -> string)
        (text : string) (a a' : analyzer) (r r' : analysis) :
  analyze ast_parse unparse path_exists (new_analyzer text) = Ok (a, r) ->
  analyze ast_parse' unparse' path_exists (new_analyzer text) = Ok (a', r') ->
  unsupported_configs r = unsupported_configs r'
  /\ defines r = defines r'
  /\ includes r = includes r'
  /\ dist_handle_code a = dist_handle_code a'
  /\ dist_handle_found r = dist_handle_found r'
  /\ link_script_path a = link_script_path a'
  /\ dict_lookup "linker_script" (scalars r) = dict_lookup "linker_script" (scalars r').
Proof.
  intros H H'.
  destruct (analyze_text_parts text a r H) as (E1 & E2 & E3 & E4 & E5 & E6 & E7).
  revert H'. intros H'.
  assert (P : unsupported_configs r' = unsupported_of text
              /\ defines r' = all_defines (extract_defines_and_includes_fixed (new_analyzer text))
              /\ includes r' = all_includes (extract_defines_and_includes_fixed (new_analyzer text))
              /\ dist_handle_code a' = dist_handle_code (extract_dist_handle (new_analyzer text))
              /\ link_script_path a'
                 = link_script_path (extract_link_script path_exists (new_analyzer text))
              /\ dist_handle_found r'
                 = negb (is_empty (dist_handle_code (extract_dist_handle (new_analyzer text))))
              /\ dict_lookup "linker_script" (scalars r')
                 = Some (path_value (link_script_path
                                       (extract_link_script path_exists (new_analyzer text))))).
  { clear H E1 E2 E3 E4 E5 E6 E7. revert H'. unfold analyze. intros H.
    apply bind_ok_inv in H as ([a3 r1] & H1 & H2).
    injection H2 as <- <-.
    cbn [unsupported_configs defines includes dist_handle_found scalars
         analyze_compiler_flags_fixed].
    rewrite dict_lookup_set_same.
    unfold extract_fields in H1.
    destruct (bind _ _) as [r0|[]] in H1; try discriminate H1;
      injection H1 as <- _; repeat split; reflexivity. }
  destruct P as (F1 & F2 & F3 & F4 & F5 & F6 & F7).
  repeat split; congruence.
Qed.
End StrategyFacts.

Lemma unparsable_source_is_analysed_witness :
  exists a r out,
    analyze (fun _ => Raise SyntaxError) (fun _ => "") (fun _ => false)
            (new_analyzer "CPU = 'cortex-m3' (") = Ok (a, r)
    /\ parsed_successfully a = false
    /\ (forall key, In key field_keys ->
          dict_lookup key (scalars r)
          = dict_lookup key
              (scalars (extract_with_regex "CPU = 'cortex-m3' (" initial_result)))
    /\ generate (fun _ => "") (fun s => s) "2024-01-01 00:00:00" a
         (set_scalar "original_file" (VStr "rtconfig.py") r) = Ok out.
Proof.
  apply (unparsable_source_is_analysed (fun _ => Raise SyntaxError) (fun _ => "")
           (fun _ => false) (fun _ => "") (fun s => s) "2024-01-01 00:00:00"
           "CPU = 'cortex-m3' (" "rtconfig.py").
  reflexivity.
Defined.

Lemma text_parts_ignore_strategy_witness :
  exists a r a' r',
    analyze (fun _ => Ok scenario_tree) (fun _ => "") (fun _ => false)
            (new_analyzer scenario_text) = Ok (a, r)
    /\ analyze (fun _ => Raise SyntaxError) (fun _ => "") (fun _ => false)
               (new_analyzer scenario_text) = Ok (a', r')
    /\ unsupported_configs r = unsupported_configs r'
    /\ defines r = defines r'
    /\ includes r = includes r'
    /\ dist_handle_code a = dist_handle_code a'
    /\ dist_handle_found r = dist_handle_found r'
    /\ link_script_path a = link_script_path a'
    /\ dict_lookup "linker_script" (scalars r) = dict_lookup "linker_script" (scalars r').
Proof.
  do 4 eexists.
  split; [vm_compute; reflexivity|]. split; [vm_compute; reflexivity|].
  apply (text_parts_ignore_strategy (fun _ => Ok scenario_tree) (fun _ => "")
           (fun _ => false) (fun _ => Raise SyntaxError) (fun _ => "")
           scenario_text);
    vm_compute; reflexivity.
Defined.

(* ------------------------------------------------------------------ *)
(** ** The runs of [main] *)

Section RunProps.
Variable io_ok : list event -> event -> bool.
Variable io_error : list event -> event -> exn.
Variable kind_of : path -> path_kind.
Variable torn : path -> string -> string.
Variable answer : reply.
Variable file_stamp : string.
Variable stem_of : string -> string.
Variable ast_parse : string -> pyresult node.
Variable unparse : expr -> string.
Variable py_repr : pyval -> string.
Variable path_name : string -> string.
Variable timestamp : string.
Variable opts : list opt.
Variable fs : filesystem.

(** X7. With [-h] or [--help] among the options the run leaves with exit
    code 0 before it looks at the arguments or at any file. *)
Theorem help_exits_first (args : list path) :
  In OptHelp opts ->
  run io_ok io_error kind_of torn answer file_stamp stem_of ast_parse unparse py_repr
      path_name timestamp opts args fs
  = Stop (Exit 0) (initial fs).
Proof.
  intros Hhelp. unfold run, main, then_.
  destruct (scan_opts_spec opts false (initial fs)) as [[_ E]|[N _]];
    [now rewrite E | now destruct N].
Qed.


(** X9. Without [--force], when the path exists and the user does not
    confirm the overwrite (another answer than the accepted words, or an
    interrupt), the run ends with exit code 0 and nothing has been
    done. *)
Theorem declined_run_does_nothing (input_file : path) :
  ~ In OptHelp opts ->
  ~ In OptForce opts ->
  fs input_file <> None \/ kind_of input_file = Directory ->
  answer = Answered false \/ answer = Interrupted ->
  run io_ok io_error kind_of torn answer file_stamp stem_of ast_parse unparse py_repr
      path_name timestamp opts [input_file] fs
  = Stop (Exit 0) (initial fs).
Proof.
  intros Hhelp Hforce Hpresent Hanswer. unfold run, main, then_.
  destruct (scan_opts_spec opts false (initial fs)) as [[I _]|[_ (f & E & _ & Hf)]];
    [now destruct Hhelp|].
  rewrite E, (Hf Hforce).
  assert (Hex : exists_file kind_of input_file (initial fs) = Next true (initial fs)).
  { unfold exists_file, initial. cbn [files].
    destruct (fs input_file); [reflexivity|].
    destruct Hpresent as [N|D]; [now destruct N | now rewrite D]. }
  rewrite Hex. cbn [negb].
  unfold confirm_overwrite, then_. rewrite Hex.
  destruct Hanswer as [-> | ->]; reflexivity.
Qed.

(** X10. With [-f] or [--force] among the options the prompt is never
    reached: the run is the same whatever would come back from it. *)
Theorem force_skips_the_prompt (answer' : reply) (args : list path) :
  In OptForce opts ->
  run io_ok io_error kind_of torn answer file_stamp stem_of ast_parse unparse py_repr
      path_name timestamp opts args fs
  = run io_ok io_error kind_of torn answer' file_stamp stem_of ast_parse unparse
        py_repr path_name timestamp opts args fs.
Proof.
  intros Hforce. unfold run, main, then_.
  destruct (scan_opts_spec opts false (initial fs)) as [[_ E]|[_ (f & E & Hf & _)]];
    rewrite E; [reflexivity|].
  rewrite (Hf Hforce). reflexivity.
Qed.

Variable input_file : path.

(** X11. A run changes no file other than the input, the backup and the
    report, and removes none: a path that named a file before the run
    names one after it. *)
Theorem run_keeps_other_files :
  (forall p,
      p <> input_file ->
      p <> backup_of stem_of file_stamp input_file ->
      p <> report_of stem_of file_stamp input_file ->
      files (final_world (run io_ok io_error kind_of torn answer file_stamp stem_of
                              ast_parse unparse py_repr path_name timestamp opts
                              [input_file] fs)) p
      = fs p)
  /\ (forall p,
         fs p <> None ->
         files (final_world (run io_ok io_error kind_of torn answer file_stamp stem_of
                                 ast_parse unparse py_repr path_name timestamp opts
                                 [input_file] fs)) p
         <> None).
Proof.
  destruct (fs input_file) as [original|] eqn:present.
  - by_run_cases original present; intros;
      (split; intros p; cbn [final_world files initial];
       [ intros; other_path; reflexivity
       | intros; unfold write_file;
         repeat match goal with
                | |- context [path_eqb p ?p'] => destruct (path_eqb p p')
                end; try discriminate; assumption ]).
  - rewrite run_without_file by exact present. split; intros; auto.
Qed.

Variable original : string.
Hypothesis present : fs input_file = Some original.

(** X12. A run on an existing file reaches the end of [main] exactly
    when it has written the report; the input path then holds the text
    [generate] returned for the analysis of the original content, the
    report path holds what [generate_migration_report] returned, and the
    backup holds the original content. *)
Theorem completed_run_wrote_everything :
  (completed (run io_ok io_error kind_of torn answer file_stamp stem_of ast_parse
                  unparse py_repr path_name timestamp opts [input_file] fs) = true
   <-> exists text,
         In (WriteText (report_of stem_of file_stamp input_file) text)
            (trace (final_world (run io_ok io_error kind_of torn answer file_stamp
                                     stem_of ast_parse unparse py_repr path_name
                                     timestamp opts [input_file] fs))))
  /\ (completed (run io_ok io_error kind_of torn answer file_stamp stem_of ast_parse
                     unparse py_repr path_name timestamp opts [input_file] fs) = true ->
      exists a r new_content text,
        analyze ast_parse unparse
                (probe (write_file (backup_of stem_of file_stamp input_file) original fs)
                       (parent input_file))
                (new_analyzer original) = Ok (a, r)
        /\ generate py_repr path_name timestamp a
             (set_scalar "original_file" (VStr (path_str input_file)) r)
           = Ok new_content
        /\ generate_migration_report py_repr
             (set_scalar "original_file" (VStr (path_str input_file)) r)
             (path_str (backup_of stem_of file_stamp input_file))
             (path_str (report_of stem_of file_stamp input_file))
             (path_str input_file)
           = Ok text
        /\ files (final_world (run io_ok io_error kind_of torn answer file_stamp stem_of
                                   ast_parse unparse py_repr path_name timestamp opts
                                   [input_file] fs))
                 input_file
           = Some new_content
        /\ files (final_world (run io_ok io_error kind_of torn answer file_stamp stem_of
                                   ast_parse unparse py_repr path_name timestamp opts
                                   [input_file] fs))
                 (report_of stem_of file_stamp input_file)
           = Some text
        /\ files (final_world (run io_ok io_error kind_of torn answer file_stamp stem_of
                                   ast_parse unparse py_repr path_name timestamp opts
                                   [input_file] fs))
                 (backup_of stem_of file_stamp input_file)
           = Some original).
Proof.
  assert (Hbi : backup_of stem_of file_stamp input_file <> input_file)
    by apply backup_is_not_input.
  assert (Hri : report_of stem_of file_stamp input_file <> input_file)
    by apply report_is_not_input.
  assert (Hir : input_file <> report_of stem_of file_stamp input_file)
    by (intros Eq; now symmetry in Eq).
  assert (Hbr : backup_of stem_of file_stamp input_file
                <> report_of stem_of file_stamp input_file)
    by (intros Eq; symmetry in Eq; revert Eq; apply report_is_not_backup).
  by_run_cases original present; intros;
    cbn [completed final_world files trace initial];
    try (split; [split; [discriminate|] | discriminate];
         intros [text' Hin]; event_in Hin;
         injection Hin as Hp _; now destruct Hri).
  split.
  - split; [intros _ | reflexivity].
    exists text. apply in_or_app. right. cbn [app In]. auto.
  - intros _. exists a, r, new_content, text.
    repeat split; try assumption.
    + other_path. now rewrite path_eqb_refl.
    + unfold write_file. now rewrite path_eqb_refl.
    + other_path. now rewrite path_eqb_refl.
Qed.

(** X13. The original content survives every run on an existing file,
    whatever is refused or raised on the way, also a write to the input
    that fails half way: at the end the input file or the backup holds
    it.  And when no text can be generated from it ([analyze] or
    [generate] raises), the input file is left as it was. *)
Theorem original_content_survives :
  (files (final_world (run io_ok io_error kind_of torn answer file_stamp stem_of
                           ast_parse unparse py_repr path_name timestamp opts
                           [input_file] fs))
         input_file
   = Some original
   \/ files (final_world (run io_ok io_error kind_of torn answer file_stamp stem_of
                              ast_parse unparse py_repr path_name timestamp opts
                              [input_file] fs))
            (backup_of stem_of file_stamp input_file)
      = Some original)
  /\ ((forall text,
          ~ generated_from ast_parse unparse py_repr path_name timestamp input_file
              original text) ->
      files (final_world (run io_ok io_error kind_of torn answer file_stamp stem_of
                              ast_parse unparse py_repr path_name timestamp opts
                              [input_file] fs))
            input_file
      = Some original).
Proof.
  assert (Hbi : backup_of stem_of file_stamp input_file <> input_file)
    by apply backup_is_not_input.
  assert (Hib : input_file <> backup_of stem_of file_stamp input_file)
    by (intros Eq; now symmetry in Eq).
  assert (Hbr : backup_of stem_of file_stamp input_file
                <> report_of stem_of file_stamp input_file)
    by (intros Eq; symmetry in Eq; revert Eq; apply report_is_not_backup).
  by_run_cases original present; intros;
    cbn [final_world files trace initial];
    (split;
     [ first [ (left; other_path; exact present)
             | (right; other_path; now rewrite path_eqb_refl) ]
     | intros Hnone;
       first [ (other_path; exact present)
             | (exfalso;
                match goal with
                | Hg : generate _ _ _ _ _ = Ok ?new |- _ =>
                    apply (Hnone new); unfold generated_from; eauto 10
                end) ] ]).
Qed.
End RunProps.

Lemma help_exits_first_witness :
  run (fun _ _ => true) (fun _ _ => OSError) (fun _ => Missing) (fun _ _ => "")
      (Answered true) "20240101_000000" (fun _ => "rtconfig")
      (fun _ => Ok scenario_tree) (fun _ => "") (fun _ => "") (fun s => s)
      "2024-01-01 00:00:00" [OptForce; OptHelp] [demo_input] demo_files
  = Stop (Exit 0) (initial demo_files).
Proof.
  apply (help_exits_first (fun _ _ => true) (fun _ _ => OSError) (fun _ => Missing)
           (fun _ _ => "") (Answered true) "20240101_000000"
           (fun _ => "rtconfig") (fun _ => Ok scenario_tree) (fun _ => "")
           (fun _ => "") (fun s => s) "2024-01-01 00:00:00" [OptForce; OptHelp]
           demo_files [demo_input]).
  simpl. auto.
Defined.


Lemma declined_run_does_nothing_witness :
  run (fun _ _ => true) (fun _ _ => OSError) (fun _ => Missing) (fun _ _ => "")
      (Answered false) "20240101_000000" (fun _ => "rtconfig")
      (fun _ => Ok scenario_tree) (fun _ => "") (fun _ => "") (fun s => s)
      "2024-01-01 00:00:00" [] [demo_input] demo_files
  = Stop (Exit 0) (initial demo_files).
Proof.
  apply (declined_run_does_nothing (fun _ _ => true) (fun _ _ => OSError)
           (fun _ => Missing) (fun _ _ => "") (Answered false) "20240101_000000"
           (fun _ => "rtconfig") (fun _ => Ok scenario_tree) (fun _ => "")
           (fun _ => "") (fun s => s) "2024-01-01 00:00:00" [] demo_files demo_input).
  - simpl. auto.
  - simpl. auto.
  - left. vm_compute. discriminate.
  - left. reflexivity.
Defined.

Lemma force_skips_the_prompt_witness :
  run (fun _ _ => true) (fun _ _ => OSError) (fun _ => Missing) (fun _ _ => "")
      (Answered true) "20240101_000000" (fun _ => "rtconfig")
      (fun _ => Ok scenario_tree) (fun _ => "") (fun _ => "") (fun s => s)
      "2024-01-01 00:00:00" [OptForce] [demo_input] demo_files
  = run (fun _ _ => true) (fun _ _ => OSError) (fun _ => Missing) (fun _ _ => "")
        (Failed EOFError) "20240101_000000" (fun _ => "rtconfig")
        (fun _ => Ok scenario_tree) (fun _ => "") (fun _ => "") (fun s => s)
        "2024-01-01 00:00:00" [OptForce] [demo_input] demo_files.
Proof.
  apply (force_skips_the_prompt (fun _ _ => true) (fun _ _ => OSError)
           (fun _ => Missing) (fun _ _ => "") (Answered true) "20240101_000000"
           (fun _ => "rtconfig") (fun _ => Ok scenario_tree) (fun _ => "")
           (fun _ => "") (fun s => s) "2024-01-01 00:00:00" [OptForce]
           demo_files (Failed EOFError) [demo_input]).
  simpl. auto.
Defined.

Lemma run_keeps_other_files_witness :
  (forall p,
      p <> demo_input -> p <> demo_backup -> p <> demo_report ->
      files (final_world demo_run) p = demo_files p)
  /\ (forall p, demo_files p <> None -> files (final_world demo_run) p <> None).
Proof.
  exact (run_keeps_other_files (fun _ _ => true) (fun _ _ => OSError)
           (fun _ => Missing) (fun _ _ => "") (Answered true) "20240101_000000"
           (fun _ => "rtconfig") (fun _ => Ok scenario_tree) (fun _ => "")
           (fun _ => "") (fun s => s) "2024-01-01 00:00:00" [OptForce]
           demo_files demo_input).
Defined.

Lemma completed_run_wrote_everything_witness :
  (completed demo_run = true
   <-> exists text, In (WriteText demo_report text) (trace (final_world demo_run)))
  /\ (completed demo_run = true ->
      exists a r new_content text,
        analyze (fun _ => Ok scenario_tree) (fun _ => "")
                (probe (write_file demo_backup scenario_text demo_files)
                       (parent demo_input))
                (new_analyzer scenario_text) = Ok (a, r)
        /\ generate (fun _ => "") (fun s => s) "2024-01-01 00:00:00" a
             (set_scalar "original_file" (VStr (path_str demo_input)) r)
           = Ok new_content
        /\ generate_migration_report (fun _ => "")
             (set_scalar "original_file" (VStr (path_str demo_input)) r)
             (path_str demo_backup) (path_str demo_report) (path_str demo_input)
           = Ok text
        /\ files (final_world demo_run) demo_input = Some new_content
        /\ files (final_world demo_run) demo_report = Some text
        /\ files (final_world demo_run) demo_backup = Some scenario_text).
Proof.
  exact (completed_run_wrote_everything (fun _ _ => true) (fun _ _ => OSError)
           (fun _ => Missing) (fun _ _ => "") (Answered true) "20240101_000000"
           (fun _ => "rtconfig") (fun _ => Ok scenario_tree) (fun _ => "")
           (fun _ => "") (fun s => s) "2024-01-01 00:00:00" [OptForce]
           demo_files demo_input scenario_text eq_refl).
Defined.

Lemma original_content_survives_witness :
  (files (final_world crash_run) demo_input = Some unhashable_key_text
   \/ files (final_world crash_run) demo_backup = Some unhashable_key_text)
  /\ files (final_world crash_run) demo_input = Some unhashable_key_text.
Proof.
  destruct (original_content_survives (fun _ _ => true) (fun _ _ => OSError)
              (fun _ => Missing) (fun _ _ => "") (Answered true) "20240101_000000"
              (fun _ => "rtconfig") (fun _ => Ok unhashable_key_tree) (fun _ => "")
              (fun _ => "") (fun s => s) "2024-01-01 00:00:00" [OptForce]
              crash_files demo_input unhashable_key_text eq_refl) as [Hkept Hleft].
  split; [exact Hkept|]. apply Hleft.
  intros text (path_exists & a & r & Ha & _).
  vm_compute in Ha. discriminate Ha.
Defined.

(* ------------------------------------------------------------------ *)
(** ** The generated text *)

Lemma join_occurs (sep l : string) (lines : list string) :
  In l lines -> occurs_in l (join sep lines).
Proof.
  unfold join. induction lines as [|x lines IH]; intros H; [destruct H|].
  destruct lines as [|y lines].
  - destruct H as [->|[]]. apply occurs_in_refl.
  - change (concat sep (x :: y :: lines)) with (x ++ sep ++ concat sep (y :: lines)).
    destruct H as [->|H].
    + exists "", (sep ++ concat sep (y :: lines)). reflexivity.
    + destruct (IH H) as (p & q & E). rewrite E.
      exists (x ++ sep ++ p), q. now rewrite !append_assoc.
Qed.

Lemma has_line_occurs (l text : string) : has_line l text -> occurs_in l text.
Proof.
  intros (above & below & ->). apply join_occurs, in_elt.
Qed.

Lemma insert_sorted_in (x y : string) (l : list string) :
  In y (insert_sorted x l) <-> y = x \/ In y l.
Proof.
  induction l as [|z l IH]; cbn [insert_sorted].
  - simpl. intuition.
  - destruct (String.leb x z); simpl; rewrite ?IH; intuition.
Qed.

Lemma sorted_in (x : string) (l : list string) : In x (sorted l) <-> In x l.
Proof.
  unfold sorted. induction l as [|y l IH]; cbn [fold_right]; [reflexivity|].
  rewrite insert_sorted_in, IH. simpl. intuition.
Qed.

(** A loop that only appends to its accumulator keeps what was there. *)
Lemma fold_appends {A : Type} (f : string -> A -> string) (l : list A) (init k : string) :
  (forall acc x, exists t, f acc x = acc ++ t) ->
  occurs_in k init -> occurs_in k (fold_left f l init).
Proof.
  intros Hf. revert init. induction l as [|x l IH]; intros init H; cbn [fold_left];
    [exact H|].
  apply IH. destruct (Hf init x) as [t ->].
  destruct H as (p & q & ->). exists p, (q ++ t). now rewrite !append_assoc.
Qed.

Lemma fold_appends_prefix {A : Type} (f : string -> A -> string) (l : list A)
      (init : string) :
  (forall acc x, exists t, f acc x = acc ++ t) ->
  exists t, fold_left f l init = init ++ t.
Proof.
  intros Hf. revert init. induction l as [|x l IH]; intros init; cbn [fold_left].
  - exists "". now rewrite append_empty_r.
  - destruct (Hf init x) as [t ->]. destruct (IH (init ++ t)) as [t' ->].
    exists (t ++ t'). now rewrite append_assoc.
Qed.

Lemma fold_appends_item {A : Type} (f : string -> A -> string) (l : list A)
      (init k : string) (x : A) :
  (forall acc y, exists t, f acc y = acc ++ t) ->
  (forall acc, occurs_in k (f acc x)) ->
  In x l -> occurs_in k (fold_left f l init).
Proof.
  intros Hf Hx. revert init. induction l as [|y l IH]; intros init H; [destruct H|].
  cbn [fold_left]. destruct H as [->|H].
  - apply fold_appends; [exact Hf | apply Hx].
  - now apply IH.
Qed.

Lemma define_step (flags define : string) :
  exists t, flags ++ " -D" ++ define = flags ++ t.
Proof. now exists (" -D" ++ define). Qed.

Lemma include_step (flags include : string) :
  exists t,
    (if negb (is_empty include) && negb (is_empty (strip include))
     then flags ++ " -I" ++ include else flags) = flags ++ t.
Proof.
  destruct (negb (is_empty include) && negb (is_empty (strip include))).
  - now exists (" -I" ++ include).
  - exists "". now rewrite append_empty_r.
Qed.

Lemma useful_step (filtered flags : string) (pattern : re) :
  exists t,
    match search no_flags pattern filtered with
    | Some m => flags ++ " " ++ group1 m
    | None => flags
    end = flags ++ t.
Proof.
  destruct (search no_flags pattern filtered) as [m|].
  - now exists (" " ++ group1 m).
  - exists "". now rewrite append_empty_r.
Qed.

Lemma strip_by_empty (p : ascii -> bool) : strip_by p "" = "".
Proof. reflexivity. Qed.

(** What [_generate_safe_cflags_fixed] returns: [-Dgcc] first, then every
    definition and every include path that is not blank. *)
Lemma safe_cflags_carry (r : analysis) :
  prefix " -Dgcc" (generate_safe_cflags_fixed r) = true
  /\ (forall d, In d (defines r) ->
        occurs_in (" -D" ++ d) (generate_safe_cflags_fixed r))
  /\ (forall i, In i (includes r) -> strip i <> "" ->
        occurs_in (" -I" ++ i) (generate_safe_cflags_fixed r)).
Proof.
  unfold generate_safe_cflags_fixed.
  set (with_defines := fold_left _ (sorted (defines r)) " -Dgcc").
  set (safe_flags := fold_left _ (sorted (includes r)) with_defines).
  set (original := match List.find _ (unsupported_configs r) with
                   | Some c => value c
                   | None => ""
                   end).
  set (final := if is_empty original then safe_flags else _).
  assert (Hfinal : forall k, occurs_in k safe_flags -> occurs_in k final).
  { intros k H. unfold final. destruct (is_empty original); [exact H|].
    apply fold_appends; [intros; apply useful_step | exact H]. }
  assert (Hsafe : forall k, occurs_in k with_defines -> occurs_in k safe_flags).
  { intros k H. apply fold_appends; [intros; apply include_step | exact H]. }
  split; [|split].
  - destruct (fold_appends_prefix (fun flags define => flags ++ " -D" ++ define)
                (sorted (defines r)) " -Dgcc" define_step) as [t1 E1].
    fold with_defines in E1.
    destruct (fold_appends_prefix
                (fun flags include =>
                   if negb (is_empty include) && negb (is_empty (strip include))
                   then flags ++ " -I" ++ include else flags)
                (sorted (includes r)) with_defines include_step) as [t2 E2].
    fold safe_flags in E2.
    assert (E3 : exists t3, final = safe_flags ++ t3).
    { unfold final. destruct (is_empty original).
      - exists "". now rewrite append_empty_r.
      - apply fold_appends_prefix. intros; apply useful_step. }
    destruct E3 as [t3 ->]. rewrite E2, E1, !append_assoc. apply prefix_append.
  - intros d Hd. apply Hfinal, Hsafe.
    apply fold_appends_item with (x := d).
    + apply define_step.
    + intros acc. exists acc, "". now rewrite append_empty_r.
    + now apply sorted_in.
  - intros i Hi Hblank. apply Hfinal.
    apply fold_appends_item with (x := i).
    + apply include_step.
    + intros acc.
      assert (Ei : is_empty i = false) by (destruct i; [now destruct Hblank | reflexivity]).
      assert (Es : is_empty (strip i) = false)
        by (destruct (strip i); [now destruct Hblank | reflexivity]).
      rewrite Ei, Es. cbn [negb andb].
      exists acc, "". now rewrite append_empty_r.
    + now apply sorted_in.
Qed.

Section GeneratedText.
Variable py_repr : pyval -> string.
Variable path_name : string -> string.
Variable timestamp : string.
Variable a : analyzer.
Variable r : analysis.
Variable out : string.
Hypothesis generated : generate py_repr path_name timestamp a r = Ok out.

(** The parts of a generated text. *)
Lemma generate_inv :
  exists header fpu gcc,
    determine_fpu (dict_get (scalars r) "cpu" (VStr "cortex-m4")) = Ok fpu
    /\ add_gcc_config py_repr r = Ok gcc
    /\ out = join (chr nl)
               (header ++ ["import os"; ""] ++ add_basic_config py_repr r
                ++ match add_toolchain_config r with Ok l => l | Raise _ => [] end
                ++ gcc ++ dist_handle_block a)%list.
Proof.
  revert generated. unfold generate, generated_lines.
  destruct (add_header path_name timestamp r) as [header|e]; [|discriminate].
  cbn [bind].
  destruct (add_toolchain_config r) as [toolchain|e] eqn:Et; [|discriminate].
  cbn [bind].
  destruct (add_gcc_config py_repr r) as [gcc|e] eqn:Eg; [|discriminate].
  cbn [bind]. intros H. injection H as <-.
  unfold add_gcc_config in Eg.
  destruct (determine_fpu _) as [fpu|e] eqn:Ef; [|discriminate].
  exists header, fpu, gcc. repeat split. 
Qed.

Lemma generated_basic_line (l : string) :
  In l (add_basic_config py_repr r) -> has_line l out.
Proof.
  intros H. destruct generate_inv as (header & fpu & gcc & _ & _ & ->).
  apply in_has_line, in_or_app. right. cbn [app]. right. right.
  apply in_or_app. now left.
Qed.

Lemma generated_gcc_line (n : nat) (l : string) :
  (forall fpu gcc,
      determine_fpu (dict_get (scalars r) "cpu" (VStr "cortex-m4")) = Ok fpu ->
      add_gcc_config py_repr r = Ok gcc -> nth_error gcc n = Some l) ->
  has_line l out.
Proof.
  intros H. destruct generate_inv as (header & fpu & gcc & Ef & Eg & ->).
  apply in_has_line, in_or_app. right. cbn [app]. right. right.
  apply in_or_app. right. apply in_or_app. right. apply in_or_app. left.
  exact (nth_error_In _ _ (H fpu gcc Ef Eg)).
Qed.

(** X14. The generated text always has the settings that [main] looks
    for once it has written the file: [PLATFORM = 'gcc'] and
    [EXEC_PATH = '/usr/bin']. *)
Theorem key_settings_always_present :
  occurs_in "PLATFORM = 'gcc'" out /\ occurs_in "EXEC_PATH = '/usr/bin'" out.
Proof.
  split.
  - apply occurs_in_trans with (b := "    PLATFORM = 'gcc'").
    + exists "    ", "". reflexivity.
    + apply has_line_occurs, generated_basic_line. simpl. auto 30.
  - apply occurs_in_trans with (b := "    EXEC_PATH = '/usr/bin'  # Linux默认路径").
    + exists "    ", "  # Linux默认路径". reflexivity.
    + apply has_line_occurs, generated_basic_line. simpl. auto 30.
Qed.

(** X15. The compile-flag line of the generated text starts with
    [-Dgcc] and carries every definition of the analysis as [-D] and
    every include path that is not blank as [-I]. *)
Theorem cflags_line_carries_analysis :
  exists flags,
    has_line ("    CFLAGS = DEVICE + '" ++ flags ++ "'") out
    /\ prefix " -Dgcc" flags = true
    /\ (forall d, In d (defines r) -> occurs_in (" -D" ++ d) flags)
    /\ (forall i, In i (includes r) -> strip i <> "" -> occurs_in (" -I" ++ i) flags).
Proof.
  exists (generate_safe_cflags_fixed r). split; [|apply safe_cflags_carry].
  apply (generated_gcc_line 2). intros fpu gcc Ef Eg.
  unfold add_gcc_config in Eg. rewrite Ef in Eg. cbn [bind] in Eg.
  injection Eg as <-. reflexivity.
Qed.

(** X16. The device line names the CPU as [str] renders it; the FPU and
    the hard float ABI are added for the three CPUs of the table and for
    no other value, so that a missing CPU ([None]) gives [-mcpu=None]
    without any FPU flag. *)
Theorem device_line_follows_cpu :
  (forall s fpu,
      dict_get (scalars r) "cpu" (VStr "cortex-m4") = VStr s ->
      assoc s fpu_map = Some fpu ->
      has_line ("    DEVICE = ' -mcpu=" ++ s ++ " -mthumb -mfpu=" ++ fpu
                ++ " -mfloat-abi=hard -ffunction-sections -fdata-sections'") out)
  /\ ((forall s, dict_get (scalars r) "cpu" (VStr "cortex-m4") = VStr s ->
                 assoc s fpu_map = None) ->
      has_line ("    DEVICE = ' -mcpu="
                ++ py_str py_repr (dict_get (scalars r) "cpu" (VStr "cortex-m4"))
                ++ " -mthumb -ffunction-sections -fdata-sections'") out).
Proof.
  set (cpu := dict_get (scalars r) "cpu" (VStr "cortex-m4")). split.
  - intros s fpu Ecpu Efpu. apply (generated_gcc_line 1). intros fpu' gcc Ef Eg.
    unfold add_gcc_config in Eg. rewrite Ef in Eg. cbn [bind] in Eg.
    injection Eg as <-. cbn [nth_error app]. fold cpu. fold cpu in Ef.
    rewrite Ecpu in *. unfold determine_fpu in Ef. cbn [hashable] in Ef.
    rewrite Efpu in Ef. injection Ef as <-.
    assert (Hne : is_empty fpu = false).
    { revert Efpu. unfold fpu_map. cbn [assoc].
      repeat (destruct (String.eqb s _); [intros E; injection E as <-; reflexivity|]).
      discriminate. }
    rewrite Hne. cbn [py_str]. f_equal.
    repeat first [rewrite append_assoc | progress cbn [append]]. reflexivity.
  - intros Hnone. apply (generated_gcc_line 1). intros fpu gcc Ef Eg.
    unfold add_gcc_config in Eg. rewrite Ef in Eg. cbn [bind] in Eg.
    injection Eg as <-. cbn [nth_error app]. fold cpu. fold cpu in Ef.
    assert (Hfpu : fpu = "").
    { revert Ef Hnone. unfold determine_fpu. generalize cpu. intros v Ef Hnone.
      destruct (hashable v); [|discriminate].
      destruct v; try (injection Ef as <-; reflexivity).
      rewrite (Hnone s eq_refl) in Ef. now injection Ef as <-. }
    rewrite Hfpu. cbn [is_empty]. f_equal.
    repeat first [rewrite append_assoc | progress cbn [append]]. reflexivity.
Qed.

(** The line of the linker flags. *)
Lemma lflags_line :
  has_line ("    LFLAGS = DEVICE + ' -Wl,--gc-sections,-Map=rt-thread.map,-cref,-u,Reset_Handler -T "
            ++ py_str py_repr
                 (dict_get (scalars r) "linker_script"
                           (VStr "board/linker_scripts/link.lds"))
            ++ "'") out.
Proof.
  apply (generated_gcc_line 4). intros fpu gcc Ef Eg.
  unfold add_gcc_config in Eg. rewrite Ef in Eg. cbn [bind] in Eg.
  injection Eg as <-. reflexivity.
Qed.
End GeneratedText.

(** X17. After [analyze], the linker line of the generated text names the
    linker script that was found, and the text [None] when none was
    found: the default path of the generator is never used. *)
Theorem linker_line_follows_analysis
        (ast_parse : string -> pyresult node) (unparse : expr -> string)
        (path_exists : string -> bool) (py_repr : pyval -> string)
        (path_name : string -> string) (timestamp : string)
        (text file : string) (a : analyzer) (r : analysis) (out : string) :
  analyze ast_parse unparse path_exists (new_analyzer text) = Ok (a, r) ->
  generate py_repr path_name timestamp a (set_scalar "original_file" (VStr file) r)
  = Ok out ->
  has_line ("    LFLAGS = DEVICE + ' -Wl,--gc-sections,-Map=rt-thread.map,-cref,-u,Reset_Handler -T "
            ++ match link_script_path a with
               | Some p => p
               | None => "None"
               end
            ++ "'") out.
Proof.
  intros Ha Hg.
  destruct (analyze_text_parts ast_parse unparse path_exists text a r Ha)
    as (_ & _ & _ & _ & Ep & _ & El).
  pose proof (lflags_line py_repr path_name timestamp a _ out Hg) as H.
  unfold dict_get, set_scalar in H. cbn [scalars] in H.
  rewrite dict_lookup_set_other in H by discriminate.
  rewrite El, <- Ep in H.
  destruct (link_script_path a); exact H.
Qed.

Lemma key_settings_always_present_witness :
  exists out,
    generate (fun _ => "") (fun s => s) "2024-01-01 00:00:00"
             (fst scenario_analysed) (snd scenario_analysed) = Ok out
    /\ occurs_in "PLATFORM = 'gcc'" out
    /\ occurs_in "EXEC_PATH = '/usr/bin'" out.
Proof.
  eexists. split; [vm_compute; reflexivity|].
  apply (key_settings_always_present (fun _ => "") (fun s => s) "2024-01-01 00:00:00"
           (fst scenario_analysed) (snd scenario_analysed)).
  vm_compute. reflexivity.
Defined.

Lemma cflags_line_carries_analysis_witness :
  exists out,
    generate (fun _ => "") (fun s => s) "2024-01-01 00:00:00"
             (fst scenario_analysed) (snd scenario_analysed) = Ok out
    /\ exists flags,
         has_line ("    CFLAGS = DEVICE + '" ++ flags ++ "'") out
         /\ prefix " -Dgcc" flags = true
         /\ (forall d, In d (defines (snd scenario_analysed)) ->
                occurs_in (" -D" ++ d) flags)
         /\ (forall i, In i (includes (snd scenario_analysed)) -> strip i <> "" ->
                occurs_in (" -I" ++ i) flags).
Proof.
  eexists. split; [vm_compute; reflexivity|].
  apply (cflags_line_carries_analysis (fun _ => "") (fun s => s)
           "2024-01-01 00:00:00" (fst scenario_analysed) (snd scenario_analysed)).
  vm_compute. reflexivity.
Defined.

Lemma device_line_follows_cpu_witness :
  exists out,
    generate (fun _ => "") (fun s => s) "2024-01-01 00:00:00"
             (fst scenario_analysed) (snd scenario_analysed) = Ok out
    /\ (forall s fpu,
           dict_get (scalars (snd scenario_analysed)) "cpu" (VStr "cortex-m4") = VStr s ->
           assoc s fpu_map = Some fpu ->
           has_line ("    DEVICE = ' -mcpu=" ++ s ++ " -mthumb -mfpu=" ++ fpu
                     ++ " -mfloat-abi=hard -ffunction-sections -fdata-sections'") out)
    /\ ((forall s,
            dict_get (scalars (snd scenario_analysed)) "cpu" (VStr "cortex-m4") = VStr s ->
            assoc s fpu_map = None) ->
        has_line ("    DEVICE = ' -mcpu="
                  ++ py_str (fun _ => "")
                       (dict_get (scalars (snd scenario_analysed)) "cpu"
                                 (VStr "cortex-m4"))
                  ++ " -mthumb -ffunction-sections -fdata-sections'") out).
Proof.
  eexists. split; [vm_compute; reflexivity|].
  apply (device_line_follows_cpu (fun _ => "") (fun s => s) "2024-01-01 00:00:00"
           (fst scenario_analysed) (snd scenario_analysed)).
  vm_compute. reflexivity.
Defined.

Lemma linker_line_follows_analysis_witness :
  exists a r out,
    analyze (fun _ => Ok scenario_tree) (fun _ => "") (fun _ => false)
            (new_analyzer scenario_text) = Ok (a, r)
    /\ generate (fun _ => "") (fun s => s) "2024-01-01 00:00:00" a
         (set_scalar "original_file" (VStr "bsp/rtconfig.py") r) = Ok out
    /\ has_line ("    LFLAGS = DEVICE + ' -Wl,--gc-sections,-Map=rt-thread.map,-cref,-u,Reset_Handler -T "
                 ++ match link_script_path a with
                    | Some p => p
                    | None => "None"
                    end
                 ++ "'") out.
Proof.
  do 3 eexists. split; [vm_compute; reflexivity|]. split; [vm_compute; reflexivity|].
  eapply (linker_line_follows_analysis (fun _ => Ok scenario_tree) (fun _ => "")
            (fun _ => false) (fun _ => "") (fun s => s) "2024-01-01 00:00:00"
            scenario_text "bsp/rtconfig.py");
    vm_compute; reflexivity.
Defined.

(* ------------------------------------------------------------------ *)
(** ** Windows paths *)

(** X18. [is_windows_path] compares the patterns as plain text: a path
    is reported as a Windows path only if, in lower case, it contains the
    two characters [.*] of the patterns. *)
Theorem windows_path_needs_pattern_text (path : string) :
  is_windows_path path = true -> occurs_in ".*" (lower_str path).
Proof.
  unfold is_windows_path. destruct (is_empty path); [discriminate|].
  intros H. apply existsb_exists in H as (pattern & Hin & Hc).
  apply contains_occurs in Hc.
  refine (occurs_in_trans _ _ _ _ Hc).
  apply contains_occurs.
  unfold windows_path_patterns in Hin. simpl in Hin.
  repeat (destruct Hin as [<-|Hin]; [vm_compute; reflexivity|]). destruct Hin.
Qed.

Lemma windows_path_needs_pattern_text_witness :
  occurs_in ".*" (lower_str "C:/.*/bin").
Proof.
  apply (windows_path_needs_pattern_text "C:/.*/bin"). vm_compute. reflexivity.
Defined.

(* ------------------------------------------------------------------ *)
(** ** The report *)

Section ReportFacts.
Variable py_repr : pyval -> string.
Variable r : analysis.
Variables backup_path report_path output_path : string.

Lemma report_inv (text : string) :
  generate_migration_report py_repr r backup_path report_path output_path = Ok text ->
  exists paths,
    path_lines r = Ok paths
    /\ text = join (chr nl)
                (basic_lines py_repr r ++ define_lines r ++ paths
                 ++ unsupported_lines r
                 ++ file_lines backup_path report_path output_path)%list.
Proof.
  unfold generate_migration_report.
  destruct (path_lines r) as [paths|e]; [|discriminate].
  cbn [bind]. intros H. injection H as <-. now exists paths.
Qed.

(** X19. The report has, for every unsupported entry, its flag name, the
    keyword found and the first 100 characters of the value followed by
    three dots; it lists every definition and every include path, and
    the command that restores the backup. *)
Theorem report_lists_findings (text : string) :
  generate_migration_report py_repr r backup_path report_path output_path = Ok text ->
  (forall c, In c (unsupported_configs r) ->
     has_line ("  " ++ flag c ++ ":") text
     /\ has_line ("    原因: 包含GCC不支持的选项 " ++ q ++ unsupported_keyword c ++ q) text
     /\ has_line ("    原始值: " ++ take 100 (value c) ++ "...") text)
  /\ (forall d, In d (defines r) -> has_line ("  -D" ++ d) text)
  /\ (forall i, In i (includes r) -> has_line ("  -I" ++ i) text)
  /\ has_line ("   cp " ++ backup_path ++ " " ++ output_path) text.
Proof.
  intros H. destruct (report_inv text H) as (paths & _ & ->).
  split; [|split; [|split]].
  - intros c Hc.
    assert (Hl : forall l, In l (config_lines c) ->
                 has_line l (join (chr nl)
                               (basic_lines py_repr r ++ define_lines r ++ paths
                                ++ unsupported_lines r
                                ++ file_lines backup_path report_path output_path)%list)).
    { intros l Hl. apply in_has_line.
      apply in_or_app; right. apply in_or_app; right. apply in_or_app; right.
      apply in_or_app; left. unfold unsupported_lines.
      destruct (unsupported_configs r) as [|c0 l0] eqn:E; [destruct Hc|].
      right. right. apply in_flat_map. exists c. split; [exact Hc | exact Hl]. }
    repeat split; apply Hl; unfold config_lines; simpl; auto.
  - intros d Hd. apply in_has_line.
    apply in_or_app; right. apply in_or_app; left. unfold define_lines.
    destruct (defines r) as [|d0 l0] eqn:E; [destruct Hd|]. rewrite <- E in *.
    cbn [app]. right. right. right. apply in_or_app; left.
    apply in_map_iff. exists d. split; [reflexivity | now apply sorted_in].
  - intros i Hi. apply in_has_line.
    apply in_or_app; right. apply in_or_app; left. unfold define_lines.
    destruct (includes r) as [|i0 l0] eqn:E; [destruct Hi|]. rewrite <- E in *.
    cbn [app]. right. right. apply in_or_app; right. cbn [app]. right. right.
    apply in_or_app; left.
    apply in_map_iff. exists i. split; [reflexivity | now apply sorted_in].
  - apply in_has_line.
    apply in_or_app; right. apply in_or_app; right. apply in_or_app; right.
    apply in_or_app; right. unfold file_lines. simpl. auto 20.
Qed.

(** X20. With the entries that the report shows being [None] or strings,
    the report fails when [exec_path] is a true value without [lower]
    (a number other than 0, [True], a non-empty tuple, list, set or
    dictionary): [is_windows_path] raises [AttributeError].  It is
    returned when [exec_path] is [None], a string, or any false
    value. *)
Theorem report_fails_on_exec_path :
  shown_plain r = true ->
  (truthy (dict_get (scalars r) "exec_path" (VStr "")) = true ->
   lacks_lower (dict_get (scalars r) "exec_path" (VStr "")) = true ->
   generate_migration_report py_repr r backup_path report_path output_path
   = Raise AttributeError)
  /\ (truthy (dict_get (scalars r) "exec_path" (VStr "")) = false
      \/ lacks_lower (dict_get (scalars r) "exec_path" (VStr "")) = false ->
      exists text,
        generate_migration_report py_repr r backup_path report_path output_path
        = Ok text).
Proof.
  intros _. unfold generate_migration_report, path_lines.
  generalize (dict_get (scalars r) "exec_path" (VStr "")). intros v.
  destruct v; destruct (truthy _) eqn:Et; cbn [bind lacks_lower];
    (split; [intros Ht Hl | intros [Ht|Hl]]);
    first [ discriminate | reflexivity | (eexists; reflexivity) ].
Qed.
End ReportFacts.

Lemma report_lists_findings_witness :
  exists text,
    generate_migration_report (fun _ => "") (snd scenario_analysed)
      "bsp/migration_logs/rtconfig.backup.py" "bsp/migration_logs/rtconfig.report.txt"
      "bsp/rtconfig.py" = Ok text
    /\ (forall c, In c (unsupported_configs (snd scenario_analysed)) ->
          has_line ("  " ++ flag c ++ ":") text
          /\ has_line ("    原因: 包含GCC不支持的选项 " ++ q ++ unsupported_keyword c ++ q)
                      text
          /\ has_line ("    原始值: " ++ take 100 (value c) ++ "...") text)
    /\ (forall d, In d (defines (snd scenario_analysed)) -> has_line ("  -D" ++ d) text)
    /\ (forall i, In i (includes (snd scenario_analysed)) -> has_line ("  -I" ++ i) text)
    /\ has_line ("   cp " ++ "bsp/migration_logs/rtconfig.backup.py" ++ " "
                 ++ "bsp/rtconfig.py") text.
Proof.
  eexists. split; [vm_compute; reflexivity|].
  apply (report_lists_findings (fun _ => "") (snd scenario_analysed)
           "bsp/migration_logs/rtconfig.backup.py"
           "bsp/migration_logs/rtconfig.report.txt" "bsp/rtconfig.py").
  vm_compute. reflexivity.
Defined.

Lemma report_fails_on_exec_path_witness :
  generate_migration_report (fun _ => "")
    (set_scalar "exec_path" (VList [VStr "C:/Keil"]) initial_result)
    "backup.py" "report.txt" "rtconfig.py"
  = Raise AttributeError
  /\ exists text,
       generate_migration_report (fun _ => "")
         (set_scalar "exec_path" (VStr "C:/Keil") initial_result)
         "backup.py" "report.txt" "rtconfig.py"
       = Ok text.
Proof.
  split.
  - apply (proj1 (report_fails_on_exec_path (fun _ => "")
                    (set_scalar "exec_path" (VList [VStr "C:/Keil"]) initial_result)
                    "backup.py" "report.txt" "rtconfig.py" eq_refl));
      reflexivity.
  - apply (proj2 (report_fails_on_exec_path (fun _ => "")
                    (set_scalar "exec_path" (VStr "C:/Keil") initial_result)
                    "backup.py" "report.txt" "rtconfig.py" eq_refl)).
    right. reflexivity.
Defined.

(* ------------------------------------------------------------------ *)
(** ** The recorded variables *)

Section OriginalFacts.
Variable unparse : expr -> string.

Lemma collect_key_original (name : string) (v : pyval) (r : analysis) :
  original_variables (collect_key name v r) = original_variables r.
Proof.
  unfold collect_key.
  repeat match goal with
         | |- context [if ?b then _ else _] => destruct b
         end; reflexivity.
Qed.

Lemma target_original (n : string) (e : expr) (r r' : analysis) :
  extract_target unparse (EName n) e r = Ok r' ->
  original_variables r' = dict_set n (recorded unparse e) (original_variables r).
Proof.
  unfold extract_target, recorded.
  destruct (literal_eval e) as [v|err].
  - intros H. injection H as <-. now rewrite collect_key_original.
  - destruct err; try discriminate; intros H; injection H as <-; reflexivity.
Qed.

Lemma bindings_original_other (name : string) (l : list (string * expr))
      (r r' : analysis) :
  (forall e, ~ In (name, e) l) ->
  extract_bindings unparse l r = Ok r' ->
  dict_lookup name (original_variables r') = dict_lookup name (original_variables r).
Proof.
  revert r. induction l as [|[n e] l IH]; intros r Hno H.
  - injection H as <-. reflexivity.
  - cbn [extract_bindings] in H. apply bind_ok_inv in H as (r1 & H1 & H2).
    rewrite (IH r1); [|intros e' Hin; apply (Hno e'); now right | exact H2].
    rewrite (target_original n e r r1 H1).
    apply dict_lookup_set_other. intros ->. apply (Hno e). now left.
Qed.

(** X21. When the walk finishes, [original_variables] holds for every
    assigned name what the last assignment to it gave, in the order of
    [ast.walk]: the literal value, or the source text of an expression
    that is not a literal; a name that is never assigned is left as it
    was. *)
Theorem original_variables_hold_last_assignment (tree : node) (r0 r : analysis) :
  extract_from_ast unparse tree r0 = Ok r ->
  (forall before after name e,
      assignments tree = (before ++ (name, e) :: after)%list ->
      (forall e', ~ In (name, e') after) ->
      dict_lookup name (original_variables r) = Some (recorded unparse e))
  /\ (forall name,
         (forall e, ~ In (name, e) (assignments tree)) ->
         dict_lookup name (original_variables r)
         = dict_lookup name (original_variables r0)).
Proof.
  rewrite extract_from_ast_bindings. intros H. split.
  - intros before after name e Hsplit Hlater.
    rewrite Hsplit, extract_bindings_app in H.
    apply bind_ok_inv in H as (r1 & _ & H).
    cbn [extract_bindings] in H. apply bind_ok_inv in H as (r2 & H2 & H3).
    rewrite (bindings_original_other name after r2 r Hlater H3).
    rewrite (target_original name e r1 r2 H2). apply dict_lookup_set_same.
  - intros name Hno. exact (bindings_original_other name _ r0 r Hno H).
Qed.
End OriginalFacts.

Lemma original_variables_hold_last_assignment_witness :
  exists r,
    extract_from_ast (fun _ => "") reassigned_tree initial_result = Ok r
    /\ (forall before after name e,
           assignments reassigned_tree = (before ++ (name, e) :: after)%list ->
           (forall e', ~ In (name, e') after) ->
           dict_lookup name (original_variables r) = Some (recorded (fun _ => "") e))
    /\ (forall name,
           (forall e, ~ In (name, e) (assignments reassigned_tree)) ->
           dict_lookup name (original_variables r)
           = dict_lookup name (original_variables initial_result)).
Proof.
  eexists. split; [vm_compute; reflexivity|].
  apply (original_variables_hold_last_assignment (fun _ => "") reassigned_tree
           initial_result).
  vm_compute. reflexivity.
Defined.

(* ------------------------------------------------------------------ *)
(** ** The cleaned flag values *)

Lemma lstrip_starts (p : ascii -> bool) (s : string) :
  starts_with_char p (lstrip_by p s) = false.
Proof.
  induction s as [|c s IH]; [reflexivity|]. cbn [lstrip_by].
  destruct (p c) eqn:E; [exact IH | cbn [starts_with_char]; exact E].
Qed.

Lemma rstrip_ends (p : ascii -> bool) (s : string) :
  ends_with_char p (rstrip_by p s) = false.
Proof.
  induction s as [|c s IH]; [reflexivity|]. cbn [rstrip_by].
  destruct (rstrip_by p s) as [|d t].
  - destruct (p c) eqn:E; [reflexivity | exact E].
  - exact IH.
Qed.

Lemma lstrip_ends (p : ascii -> bool) (s : string) :
  ends_with_char p s = false -> ends_with_char p (lstrip_by p s) = false.
Proof.
  induction s as [|c s IH]; [reflexivity|]. cbn [lstrip_by]. intros H.
  destruct (p c); [|exact H].
  apply IH. destruct s; [reflexivity | exact H].
Qed.

Lemma strip_by_ends (p : ascii -> bool) (s : string) :
  starts_with_char p (strip_by p s) = false
  /\ ends_with_char p (strip_by p s) = false.
Proof.
  unfold strip_by. split; [apply lstrip_starts | apply lstrip_ends, rstrip_ends].
Qed.

(** X22. Every unsupported entry is for one of the three flag names, and
    its value is cleaned: it is not empty and has no quote, plus sign,
    blank, tab or newline at either end. *)
Theorem flag_values_are_stripped (text : string) (c : config) :
  In c (unsupported_of text) ->
  In (flag c) flag_names
  /\ value c <> ""
  /\ starts_with_char flag_strip_char (value c) = false
  /\ ends_with_char flag_strip_char (value c) = false.
Proof.
  unfold unsupported_of. intros H. apply in_flat_map in H as (kind & Hk & H).
  unfold flag_entries in H. apply in_flat_map in H as (m & _ & H).
  unfold flag_entry in H.
  destruct (is_empty (clean_flag_value m)) eqn:Ee; [destruct H|].
  destruct (first_unsupported (clean_flag_value m)); [|destruct H].
  destruct H as [<-|[]]. cbn [flag value].
  split; [exact Hk|]. split; [intros E; now rewrite E in Ee|].
  apply (strip_by_ends flag_strip_char).
Qed.

Lemma flag_values_are_stripped_witness :
  In (flag scenario_entry) flag_names
  /\ value scenario_entry <> ""
  /\ starts_with_char flag_strip_char (value scenario_entry) = false
  /\ ends_with_char flag_strip_char (value scenario_entry) = false.
Proof.
  apply (flag_values_are_stripped scenario_text scenario_entry).
  vm_compute. left. reflexivity.
Defined.

(* ------------------------------------------------------------------ *)
(** ** The exceptions of the analysis and of the generator *)

Section FailureFacts.
Variable unparse : expr -> string.

Lemma extract_target_raises (n : string) (ex : expr) (r : analysis) (e : exn) :
  extract_target unparse (EName n) ex r = Raise e ->
  literal_eval ex = Raise e /\ e <> SyntaxError.
Proof.
  unfold extract_target. destruct (literal_eval ex) as [v|err]; [discriminate|].
  destruct err; intros H; try discriminate H; injection H as <-;
    (split; [reflexivity | discriminate]).
Qed.

(** The walk stops at an assignment whose value cannot be evaluated for
    a reason the handler does not name, if it gets that far. *)
Lemma extract_bindings_stops (l : list (string * expr)) (r : analysis)
      (n : string) (ex : expr) :
  In (n, ex) l ->
  literal_eval ex = Raise TypeError ->
  exists e, extract_bindings unparse l r = Raise e /\ e <> SyntaxError.
Proof.
  revert r. induction l as [|[n' ex'] l IH]; intros r Hin Hraise; [destruct Hin|].
  cbn [extract_bindings].
  destruct (extract_target unparse (EName n') ex' r) as [r1|e] eqn:E1; cbn [bind].
  - destruct Hin as [Hhead|Hin]; [|now apply IH].
    injection Hhead as -> ->. unfold extract_target in E1. rewrite Hraise in E1.
    discriminate E1.
  - exists e. split; [reflexivity|].
    exact (proj2 (extract_target_raises n' ex' r e E1)).
Qed.

Variable ast_parse : string -> pyresult node.
Variable path_exists : string -> bool.

(** X23. When [ast.parse] returns a tree in which some assignment to a
    name, anywhere in the file, has a right-hand side on which
    [ast.literal_eval] raises [TypeError] (a set or dictionary display
    with an unhashable item), [analyze] does not return its record: it
    raises. *)
Theorem analyze_stops_on_unhashable_literal
        (text : string) (tree : node) (n : string) (ex : expr) :
  ast_parse text = Ok tree ->
  In (n, ex) (assignments tree) ->
  literal_eval ex = Raise TypeError ->
  exists e, analyze ast_parse unparse path_exists (new_analyzer text) = Raise e.
Proof.
  intros Hparse Hin Hraise.
  destruct (extract_bindings_stops (assignments tree) initial_result n ex Hin Hraise)
    as (e & E & Hne).
  exists e. unfold analyze, extract_fields.
  change (content (extract_link_script path_exists
                     (extract_dist_handle (new_analyzer text)))) with text.
  rewrite Hparse. cbn [bind]. rewrite extract_from_ast_bindings, E.
  destruct e; try reflexivity. now destruct Hne.
Qed.
End FailureFacts.

Lemma analyze_stops_on_unhashable_literal_witness :
  exists e,
    analyze (fun _ => Ok unhashable_key_tree) (fun _ => "") (fun _ => false)
            (new_analyzer unhashable_key_text) = Raise e.
Proof.
  apply (analyze_stops_on_unhashable_literal (fun _ => "")
           (fun _ => Ok unhashable_key_tree) (fun _ => false)
           unhashable_key_text unhashable_key_tree "x"
           (EDict [Some (EList [Constant (VInt 1)])] [Constant (VInt 2)])).
  - reflexivity.
  - vm_compute. left. reflexivity.
  - vm_compute. reflexivity.
Defined.

Section GenerateFailure.
Variable py_repr : pyval -> string.
Variable path_name : string -> string.
Variable timestamp : string.
Variable a : analyzer.
Variable r : analysis.

(** X24. [generate] returns a text only if the [cpu] entry can be hashed
    and [original_file] is a string: with a [cpu] that is a list, a set,
    a dictionary, or a tuple holding one, the look-up in the FPU table
    raises and no text is produced. *)
Theorem generate_needs_hashable_cpu (out : string) :
  generate py_repr path_name timestamp a r = Ok out ->
  hashable (dict_get (scalars r) "cpu" (VStr "cortex-m4")) = true
  /\ exists file, dict_get (scalars r) "original_file" (VStr "") = VStr file.
Proof.
  unfold generate, generated_lines, add_header, add_toolchain_config, determine_fpu.
  destruct (dict_get (scalars r) "original_file" (VStr "")) as [| | |file| | | |];
    try discriminate.
  cbn [bind].
  destruct (hashable (dict_get (scalars r) "cpu" (VStr "cortex-m4")));
    [|discriminate].
  intros _. split; [reflexivity | now exists file].
Qed.
End GenerateFailure.

Lemma generate_needs_hashable_cpu_witness :
  exists out,
    generate (fun _ => "") (fun s => s) "2024-01-01 00:00:00"
             (fst scenario_analysed) (snd scenario_analysed) = Ok out
    /\ hashable (dict_get (scalars (snd scenario_analysed)) "cpu" (VStr "cortex-m4"))
       = true
    /\ exists file,
         dict_get (scalars (snd scenario_analysed)) "original_file" (VStr "")
         = VStr file.
Proof.
  eexists. split; [vm_compute; reflexivity|].
  eapply (generate_needs_hashable_cpu (fun _ => "") (fun s => s)
            "2024-01-01 00:00:00" (fst scenario_analysed) (snd scenario_analysed)).
  vm_compute. reflexivity.
Defined.
